(** * dbt-core internals: node identity, artifact versioning, runtime configuration

    A shallow embedding of the parts of
    - [dbt/contracts/graph/nodes.py]  (change detection on graph nodes),
    - [dbt/contracts/util.py]         (schema versions, manifest upgrade),
    - [dbt/config/runtime.py]         (quoting policy, unused config paths,
                                       package loading),
    - [dbt/events/functions.py]       ([warn_or_error])
    together with the properties the project specification states about
    them. *)

From Stdlib Require Import ZArith Lia Bool List Ascii String.
From stdpp Require Import base option list strings gmap pretty.

Set Warnings "-register-all".

Open Scope string_scope.
Open Scope list_scope.

(** ** Python values *)

Module Py.

(** The values that [json.load] and the YAML loader hand to the code:
    [None], booleans, integers, strings, lists and dicts with string keys.
    A dict keeps its insertion order, so it is an association list; no key
    occurs twice in the dicts Python builds.  Floating-point numbers are
    outside the model. *)
Inductive pyval : Type :=
| PNone
| PBool (b : bool)
| PInt (z : Z)
| PStr (s : string)
| PList (l : list pyval)
| PDict (d : list (string * pyval)).

Abbreviation pydict := (list (string * pyval)).

(** Induction over the nesting of lists and dicts. *)
Section pyval_rect.
Variable P : pyval -> Prop.
Hypothesis HNone : P PNone.
Hypothesis HBool : forall b, P (PBool b).
Hypothesis HInt : forall z, P (PInt z).
Hypothesis HStr : forall s, P (PStr s).
Hypothesis HList : forall l, Forall P l -> P (PList l).
Hypothesis HDict : forall d, Forall (fun kv => P (snd kv)) d -> P (PDict d).

Fixpoint pyval_nested_ind (v : pyval) : P v :=
  match v with
  | PNone => HNone
  | PBool b => HBool b
  | PInt z => HInt z
  | PStr s => HStr s
  | PList l =>
      HList l ((fix go (l : list pyval) : Forall P l :=
                  match l with
                  | [] => List.Forall_nil P
                  | x :: r =>
                      @List.Forall_cons _ P x r (pyval_nested_ind x) (go r)
                  end) l)
  | PDict d =>
      HDict d ((fix go (d : pydict) : Forall (fun kv => P (snd kv)) d :=
                  match d with
                  | [] => List.Forall_nil _
                  | kv :: r =>
                      @List.Forall_cons _ (fun kv => P (snd kv)) kv r
                        (pyval_nested_ind (snd kv)) (go r)
                  end) d)
  end.
End pyval_rect.

(** [a == b] on these values, compared constructor by constructor: a dict
    equals a dict with the same entries in the same order, and a boolean is
    kept apart from the integers 0 and 1. *)
Fixpoint py_eq (a b : pyval) {struct a} : bool :=
  match a, b with
  | PNone, PNone => true
  | PBool x, PBool y => Bool.eqb x y
  | PInt x, PInt y => Z.eqb x y
  | PStr x, PStr y => String.eqb x y
  | PList x, PList y =>
      (fix go (x y : list pyval) {struct x} : bool :=
         match x, y with
         | [], [] => true
         | a :: x', b :: y' => py_eq a b && go x' y'
         | _, _ => false
         end) x y
  | PDict x, PDict y =>
      (fix go (x y : pydict) {struct x} : bool :=
         match x, y with
         | [], [] => true
         | (k, a) :: x', (k', b) :: y' => String.eqb k k' && py_eq a b && go x' y'
         | _, _ => false
         end) x y
  | _, _ => false
  end.

Definition dict_eq (x y : pydict) : bool := py_eq (PDict x) (PDict y).

(** [a == b] where either side may be the [None] that [dict.get] returns
    for a missing key. *)
Definition opt_py_eq (a b : option pyval) : bool :=
  py_eq (default PNone a) (default PNone b).

(** [bool(v)] *)
Definition truthy (v : pyval) : bool :=
  match v with
  | PNone => false
  | PBool b => b
  | PInt z => negb (Z.eqb z 0)
  | PStr s => negb (String.eqb s "")
  | PList l => match l with [] => false | _ => true end
  | PDict d => match d with [] => false | _ => true end
  end.

(** [v == s] for a string literal [s]: only a [str] equals a [str]. *)
Definition is_str (s : string) (v : pyval) : bool :=
  match v with
  | PStr t => String.eqb t s
  | _ => false
  end.

(** [isinstance(v, bool)] *)
Definition is_bool (v : pyval) : option bool :=
  match v with
  | PBool b => Some b
  | _ => None
  end.

(** *** Dict operations, on any value type *)

Section dict.
Context {V : Type}.
Implicit Types (k : string) (d : list (string * V)).

(** [d.get(k)] *)
Fixpoint dict_get k d : option V :=
  match d with
  | [] => None
  | (k', v) :: r => if String.eqb k' k then Some v else dict_get k r
  end.

(** [k in d] *)
Definition dict_in k d : bool :=
  match dict_get k d with Some _ => true | None => false end.

(** [d[k] = v]: an existing key keeps its place, a new one goes last. *)
Fixpoint dict_set k (v : V) d : list (string * V) :=
  match d with
  | [] => [(k, v)]
  | (k', v') :: r =>
      if String.eqb k' k then (k', v) :: r else (k', v') :: dict_set k v r
  end.

(** [del d[k]] for a key that is present, and what [d.pop(k, None)] leaves
    of [d]: no entry under [k]. *)
Definition dict_del k d : list (string * V) :=
  List.filter (fun kv => negb (String.eqb (fst kv) k)) d.

(** [d.keys()] *)
Definition dict_keys d : list string := map fst d.

(** [{k: f(v) for k, v in d.items()}] *)
Definition dict_map_values {W : Type} (f : V -> W) d : list (string * W) :=
  map (fun kv => (fst kv, f (snd kv))) d.
End dict.

(** [sub in s] on strings. *)
Fixpoint str_contains (sub s : string) : bool :=
  String.prefix sub s ||
  match s with
  | EmptyString => false
  | String _ r => str_contains sub r
  end.

(** [s.startswith(p)] *)
Definition startswith (p s : string) : bool := String.prefix p s.

(** [sep.join(l)] *)
Fixpoint join (sep : string) (l : list string) : string :=
  match l with
  | [] => ""
  | [x] => x
  | x :: r => x +:+ sep +:+ join sep r
  end.

End Py.

(** ** Exceptions, events and the effect monad *)

Module Events.
Import Py.

(** The event classes of [dbt/events/types.py] that the modelled code
    creates. *)
Inductive Event : Type :=
| UnusedResourceConfigPath (unused_config_paths : list string)
| SeedIncreased (package_name name : string)
| SeedExceedsLimitSamePath (package_name name : string)
| SeedExceedsLimitAndPathChanged (package_name name : string)
| SeedExceedsLimitChecksumChanged (package_name name checksum_name : string).

Inductive EventLevel : Type := DEBUG | TEST | INFO | WARN | ERROR.

(** All five classes derive from [WarnLevel]. *)
Definition level_tag (e : Event) : EventLevel :=
  match e with
  | UnusedResourceConfigPath _ => WARN
  | SeedIncreased _ _ => WARN
  | SeedExceedsLimitSamePath _ _ => WARN
  | SeedExceedsLimitAndPathChanged _ _ => WARN
  | SeedExceedsLimitChecksumChanged _ _ _ => WARN
  end.

(** [type(event).__name__] *)
Definition type_name (e : Event) : string :=
  match e with
  | UnusedResourceConfigPath _ => "UnusedResourceConfigPath"
  | SeedIncreased _ _ => "SeedIncreased"
  | SeedExceedsLimitSamePath _ _ => "SeedExceedsLimitSamePath"
  | SeedExceedsLimitAndPathChanged _ _ => "SeedExceedsLimitAndPathChanged"
  | SeedExceedsLimitChecksumChanged _ _ _ => "SeedExceedsLimitChecksumChanged"
  end.

(** Module-level names the code reads and that are set elsewhere: the two
    warn-error flags of [dbt.flags] (the second one already parsed into the
    [includes] test of [WarnErrorOptions]), and two imports of
    [events/types.py]. *)
Record Globals : Type := {
  WARN_ERROR : bool;
  WARN_ERROR_OPTIONS_includes : string -> bool;
  MAXIMUM_SEED_SIZE_NAME : string;
  warning_tag : string -> string
}.

Definition nl : string := String (ascii_of_nat 10) "".
Definition dquote : string := String (ascii_of_nat 34) "".

(** [event.message()] *)
Definition message (g : Globals) (e : Event) : string :=
  match e with
  | UnusedResourceConfigPath paths =>
      let path_list := join nl (map (fun u => "- " +:+ u) paths) in
      warning_tag g
        ("Configuration paths exist in your dbt_project.yml file which do not "
         +:+ "apply to any resources." +:+ nl
         +:+ "There are " +:+ pretty (length paths)
         +:+ " unused configuration paths:" +:+ nl +:+ path_list)
  | SeedIncreased package_name name =>
      "Found a seed (" +:+ package_name +:+ "." +:+ name +:+ ") "
      +:+ ">" +:+ MAXIMUM_SEED_SIZE_NAME g +:+ " in size. The previous file was "
      +:+ "<=" +:+ MAXIMUM_SEED_SIZE_NAME g +:+ ", so it has changed"
  | SeedExceedsLimitSamePath package_name name =>
      "Found a seed (" +:+ package_name +:+ "." +:+ name +:+ ") "
      +:+ ">" +:+ MAXIMUM_SEED_SIZE_NAME g +:+ " in size at the same path, dbt "
      +:+ "cannot tell if it has changed: assuming they are the same"
  | SeedExceedsLimitAndPathChanged package_name name =>
      "Found a seed (" +:+ package_name +:+ "." +:+ name +:+ ") "
      +:+ ">" +:+ MAXIMUM_SEED_SIZE_NAME g +:+ " in size. The previous file was in "
      +:+ "a different location, assuming it has changed"
  | SeedExceedsLimitChecksumChanged package_name name checksum_name =>
      "Found a seed (" +:+ package_name +:+ "." +:+ name +:+ ") "
      +:+ ">" +:+ MAXIMUM_SEED_SIZE_NAME g +:+ " in size. The previous file had a "
      +:+ "checksum type of " +:+ checksum_name +:+ ", so it has changed"
  end.

(** The exceptions the modelled code raises, by class, with the arguments
    they are built from.  A node argument is kept as the node's
    [unique_id]; a message made with [str.format] is kept as the format
    string and the values put into it. *)
Inductive exn : Type :=
| KeyError (key : string)
| TypeError
| AttributeError
| IndexError
| ValueError (msg : string)
| EnvironmentError (msg : string)
| ValidationError (msg_format : string) (args : list pyval)
| DbtRuntimeError (msg : string)
| IncompatibleSchemaError (expected : string) (found : pyval)
| EventCompilationError (msg : string) (node : option string)
| ParsingError (msg : string)
| UninstalledPackagesFoundError
    (count_packages_specified count_packages_installed : nat)
    (packages_install_path : string)
| NonUniquePackageNameError (project_name : string)
| DbtProjectError (msg : string) (result_type : option string)
    (path : option string).

Inductive result (A : Type) : Type :=
| Returned (a : A)
| Raised (e : exn).
Arguments Returned {A} a.
Arguments Raised {A} e.

(** What a call can change or read outside its arguments: the events
    fired so far, oldest first, next to the globals. *)
Record State : Type := {
  globals : Globals;
  fired : list Event
}.

(** A computation reads and extends the state, and returns or raises. *)
Definition M (A : Type) : Type := State -> result A * State.

Definition ret {A : Type} (a : A) : M A := fun st => (Returned a, st).

Definition bind {A B : Type} (m : M A) (f : A -> M B) : M B := fun st =>
  match m st with
  | (Returned a, st') => f a st'
  | (Raised e, st') => (Raised e, st')
  end.

Notation "'let*' x ':=' m 'in' k" := (bind m (fun x => k))
  (at level 10, x pattern, m at level 100, k at level 200).

Definition raise {A : Type} (e : exn) : M A := fun st => (Raised e, st).

(** [fire_event(e)]: the event manager records the event. *)
Definition fire_event (e : Event) : M unit := fun st =>
  (Returned tt, {| globals := globals st; fired := fired st ++ [e] |}).

(** [warn_or_error(event, node)] *)
Definition warn_or_error (event : Event) (node : option string) : M unit :=
  fun st =>
    if WARN_ERROR (globals st)
       || WARN_ERROR_OPTIONS_includes (globals st) (type_name event)
    then raise (EventCompilationError (message (globals st) event) node) st
    else fire_event event st.

(** [for x in l: f x], and the same loop when [f] changes each element in
    place. *)
Fixpoint for_each {A : Type} (f : A -> M unit) (l : list A) : M unit :=
  match l with
  | [] => ret tt
  | x :: r => let* _ := f x in for_each f r
  end.

Fixpoint map_in_place {A : Type} (f : A -> M A) (l : list A) : M (list A) :=
  match l with
  | [] => ret []
  | x :: r =>
      let* x' := f x in
      let* r' := map_in_place f r in
      ret (x' :: r')
  end.

End Events.

(** ** [dbt/contracts/graph/nodes.py] *)

Module FileHash.
(** Modelled from the spec: [FileHash] and its comparison live in
    [dbt/contracts/files.py], which is not among the sources.  A checksum
    is a hash kind ([name], ["path"] for the sentinel used above the size
    threshold) and a digest; two checksums are identical when both
    agree. *)
Record t : Type := { name : string; checksum : string }.

Definition eq (a b : t) : bool :=
  String.eqb (name a) (name b) && String.eqb (checksum a) (checksum b).
End FileHash.

Module Hook.
Record t : Type := { sql : string; transaction : bool; index : option Z }.
End Hook.

Module ColumnInfo.
Import Py.
Record t : Type := {
  name : string;
  description : string;
  meta : pydict;
  data_type : option string;
  quote : option bool;
  tags : list string
}.
End ColumnInfo.

Module NodeConfig.
Import Py.
(** The attributes of a node's [config] that [nodes.py] reads.
    [persist_docs] is [None] for a config class without that attribute
    ([hasattr(self.config, "persist_docs")] is false, as for test
    configs). *)
Record t : Type := {
  persist_docs : option pydict;
  pre_hook : list Hook.t;
  post_hook : list Hook.t
}.

End NodeConfig.

Module BaseConfig.
Import Py.
(** Modelled from the spec: [BaseConfig.same_contents(unrendered, other)],
    the class method behind every [same_config], is defined in
    [dbt/contracts/graph/model_config.py], which is not among the sources.
    The configuration counts as unchanged when the two unrendered config
    dicts are equal. *)
Definition same_contents (unrendered other : pydict) : bool :=
  dict_eq unrendered other.
End BaseConfig.

Module GraphNode.
(** [GraphNode.same_fqn], on the [fqn] of [self] and of [other]. *)
Definition same_fqn (fqn other_fqn : list string) : bool :=
  bool_decide (fqn = other_fqn).
End GraphNode.

(** The concrete classes below [ParsedNode]; a method call dispatches on
    the class of [self]. *)
Inductive NodeClass : Type :=
| AnalysisNode
| HookNode
| ModelNode
| RPCNode
| SqlNode
| SeedNode
| SingularTestNode
| GenericTestNode
| IntermediateSnapshotNode
| SnapshotNode.

(** [CompiledNode] and its subclasses: every class but the seed. *)
Definition is_compiled_node (c : NodeClass) : bool :=
  match c with
  | SeedNode => false
  | _ => true
  end.

Module ParsedNode.
Import Py Events.

Record t : Type := {
  cls : NodeClass;
  name : string;
  package_name : string;
  path : string;
  original_file_path : string;
  unique_id : string;
  fqn : list string;
  database : option string;
  schema : string;
  alias : string;
  checksum : FileHash.t;
  config : NodeConfig.t;
  description : string;
  columns : list (string * ColumnInfo.t);
  unrendered_config : pydict;
  raw_code : string
}.

Definition _persist_column_docs (self : t) : bool :=
  match NodeConfig.persist_docs (config self) with
  | Some persist_docs => truthy (default PNone (dict_get "columns" persist_docs))
  | None => false
  end.

Definition _persist_relation_docs (self : t) : bool :=
  match NodeConfig.persist_docs (config self) with
  | Some persist_docs => truthy (default PNone (dict_get "relation" persist_docs))
  | None => false
  end.

Definition same_persisted_description (self other : t) : bool :=
  let column_check :=
    if _persist_column_docs self
    then
      let column_descriptions :=
        dict_map_values ColumnInfo.description (columns self) in
      let other_column_descriptions :=
        dict_map_values ColumnInfo.description (columns other) in
      if negb (bool_decide (column_descriptions = other_column_descriptions))
      then false
      else true
    else true in
  if _persist_relation_docs self
  then
    if negb (String.eqb (description self) (description other))
    then false
    else column_check
  else column_check.

Definition same_database_representation (self other : t) : bool :=
  forallb
    (fun key =>
       let mine := dict_get key (unrendered_config self) in
       let others := dict_get key (unrendered_config other) in
       opt_py_eq mine others)
    ["database"; "schema"; "alias"].

Definition same_config (self old : t) : bool :=
  BaseConfig.same_contents (unrendered_config self) (unrendered_config old).

Definition same_fqn (self other : t) : bool :=
  GraphNode.same_fqn (fqn self) (fqn other).

(** [SeedNode.same_seeds] *)
Definition same_seeds (self other : t) : M bool :=
  let result := FileHash.eq (checksum self) (checksum other) in
  let* _ :=
   (if String.eqb (FileHash.name (checksum self)) "path" then
     if negb (String.eqb (FileHash.name (checksum other)) "path") then
       warn_or_error (SeedIncreased (package_name self) (name self))
         (Some (unique_id self))
     else if result then
       warn_or_error (SeedExceedsLimitSamePath (package_name self) (name self))
         (Some (unique_id self))
     else if negb result then
       warn_or_error
         (SeedExceedsLimitAndPathChanged (package_name self) (name self))
         (Some (unique_id self))
     else
       warn_or_error
         (SeedExceedsLimitChecksumChanged (package_name self) (name self)
            (FileHash.name (checksum other)))
         (Some (unique_id self))
   else ret tt) in
  ret result.

(** [self.same_body(other)]: [SeedNode] overrides the method of
    [ParsedNode]. *)
Definition same_body (self other : t) : M bool :=
  match cls self with
  | SeedNode => same_seeds self other
  | _ => ret (String.eqb (raw_code self) (raw_code other))
  end.

(** [ParsedNode.same_contents]; [and] evaluates its right operand only
    when the left one is true. *)
Definition ParsedNode_same_contents (self : t) (old : option t) : M bool :=
  match old with
  | None => ret false
  | Some old =>
      let* body := same_body self old in
      ret (body
            && same_config self old
            && same_persisted_description self old
            && same_fqn self old
            && same_database_representation self old
            && true)
  end.

(** [GenericTestNode.same_contents] *)
Definition GenericTestNode_same_contents (self : t) (other : option t) : M bool :=
  match other with
  | None => ret false
  | Some other => ret (same_config self other && same_fqn self other && true)
  end.

(** [self.same_contents(old)] *)
Definition same_contents (self : t) (old : option t) : M bool :=
  match cls self with
  | GenericTestNode => GenericTestNode_same_contents self old
  | _ => ParsedNode_same_contents self old
  end.

(** [SeedNode._disallow_implicit_dependencies] *)
Definition _disallow_implicit_dependencies {A : Type} (self : t) : M A :=
  let hooks :=
    map (fun hook => "- pre_hook: " +:+ dquote +:+ Hook.sql hook +:+ dquote)
        (NodeConfig.pre_hook (config self))
    ++ map (fun hook => "- post_hook: " +:+ dquote +:+ Hook.sql hook +:+ dquote)
        (NodeConfig.post_hook (config self)) in
  let hook_list := join nl hooks in
  let message :=
    nl
    +:+ "Seeds cannot depend on other nodes. dbt detected a seed with a pre- or post-hook"
    +:+ nl
    +:+ "that calls 'ref', 'source', or 'metric', either directly or indirectly via other macros."
    +:+ nl +:+ nl
    +:+ "Error raised for '" +:+ unique_id self
    +:+ "', which has these hooks defined: " +:+ nl +:+ hook_list +:+ nl
    +:+ "        " in
  raise (ParsingError message).

(** The [refs], [sources] and [metrics] properties of [SeedNode]. *)
Definition SeedNode_refs (self : t) : M unit := _disallow_implicit_dependencies self.
Definition SeedNode_sources (self : t) : M unit := _disallow_implicit_dependencies self.
Definition SeedNode_metrics (self : t) : M unit := _disallow_implicit_dependencies self.

(** The [depends_on_nodes] property of [SeedNode]. *)
Definition SeedNode_depends_on_nodes (self : t) : list string := [].

End ParsedNode.

(** The dataclasses of [dbt/contracts/graph/unparsed.py] ([Quoting],
    [FreshnessThreshold], [ExternalTable], [ExposureOwner], [MetricFilter],
    [MetricTime]) are carried as the dict they serialize to, and compared
    as such. *)

Module SourceDefinition.
Import Py.

Record t : Type := {
  name : string;
  package_name : string;
  unique_id : string;
  fqn : list string;
  database : option string;
  schema : string;
  source_name : string;
  identifier : string;
  quoting : pyval;
  loaded_at_field : option string;
  freshness : option pyval;
  external : option pyval;
  description : string;
  meta : pydict;
  tags : list string;
  unrendered_config : pydict
}.

Definition same_database_representation (self other : t) : bool :=
  bool_decide (database self = database other)
  && bool_decide (schema self = schema other)
  && bool_decide (identifier self = identifier other)
  && true.

Definition same_quoting (self other : t) : bool :=
  py_eq (quoting self) (quoting other).

Definition same_freshness (self other : t) : bool :=
  opt_py_eq (freshness self) (freshness other)
  && bool_decide (loaded_at_field self = loaded_at_field other)
  && true.

Definition same_external (self other : t) : bool :=
  opt_py_eq (external self) (external other).

Definition same_config (self old : t) : bool :=
  BaseConfig.same_contents (unrendered_config self) (unrendered_config old).

Definition same_fqn (self other : t) : bool :=
  GraphNode.same_fqn (fqn self) (fqn other).

Definition same_contents (self : t) (old : option t) : bool :=
  match old with
  | None => true
  | Some old =>
      same_database_representation self old
      && same_fqn self old
      && same_config self old
      && same_quoting self old
      && same_freshness self old
      && same_external self old
      && true
  end.
End SourceDefinition.

Module Exposure.
Import Py.

Record t : Type := {
  name : string;
  package_name : string;
  unique_id : string;
  fqn : list string;
  type : string;
  owner : pyval;
  description : string;
  label : option string;
  maturity : option string;
  meta : pydict;
  tags : list string;
  unrendered_config : pydict;
  url : option string;
  depends_on_nodes : list string
}.

Definition same_depends_on (self old : t) : bool :=
  bool_decide
    ((list_to_set (depends_on_nodes self) : gset string)
     = list_to_set (depends_on_nodes old)).

Definition same_description (self old : t) : bool :=
  bool_decide (description self = description old).

Definition same_label (self old : t) : bool :=
  bool_decide (label self = label old).

Definition same_maturity (self old : t) : bool :=
  bool_decide (maturity self = maturity old).

Definition same_owner (self old : t) : bool := py_eq (owner self) (owner old).

Definition same_exposure_type (self old : t) : bool :=
  bool_decide (type self = type old).

Definition same_url (self old : t) : bool := bool_decide (url self = url old).

Definition same_config (self old : t) : bool :=
  BaseConfig.same_contents (unrendered_config self) (unrendered_config old).

Definition same_fqn (self other : t) : bool :=
  GraphNode.same_fqn (fqn self) (fqn other).

Definition same_contents (self : t) (old : option t) : bool :=
  match old with
  | None => true
  | Some old =>
      same_fqn self old
      && same_exposure_type self old
      && same_owner self old
      && same_maturity self old
      && same_url self old
      && same_description self old
      && same_label self old
      && same_depends_on self old
      && same_config self old
      && true
  end.
End Exposure.

Module Metric.
Import Py.

Record t : Type := {
  name : string;
  package_name : string;
  unique_id : string;
  fqn : list string;
  description : string;
  label : string;
  calculation_method : string;
  expression : string;
  filters : list pyval;
  time_grains : list string;
  dimensions : list string;
  timestamp : option string;
  window : option pyval;
  model : option string;
  meta : pydict;
  tags : list string;
  unrendered_config : pydict
}.

Definition same_model (self old : t) : bool :=
  bool_decide (model self = model old).

Definition same_window (self old : t) : bool :=
  opt_py_eq (window self) (window old).

Definition same_dimensions (self old : t) : bool :=
  bool_decide (dimensions self = dimensions old).

Definition same_filters (self old : t) : bool :=
  py_eq (PList (filters self)) (PList (filters old)).

Definition same_description (self old : t) : bool :=
  bool_decide (description self = description old).

Definition same_label (self old : t) : bool :=
  bool_decide (label self = label old).

Definition same_calculation_method (self old : t) : bool :=
  bool_decide (calculation_method self = calculation_method old).

Definition same_expression (self old : t) : bool :=
  bool_decide (expression self = expression old).

Definition same_timestamp (self old : t) : bool :=
  bool_decide (timestamp self = timestamp old).

Definition same_time_grains (self old : t) : bool :=
  bool_decide (time_grains self = time_grains old).

Definition same_config (self old : t) : bool :=
  BaseConfig.same_contents (unrendered_config self) (unrendered_config old).

Definition same_contents (self : t) (old : option t) : bool :=
  match old with
  | None => true
  | Some old =>
      same_model self old
      && same_window self old
      && same_dimensions self old
      && same_filters self old
      && same_description self old
      && same_label self old
      && same_calculation_method self old
      && same_expression self old
      && same_timestamp self old
      && same_time_grains self old
      && same_config self old
      && true
  end.
End Metric.

(** ** What Python does on each kind of value

    A manifest is whatever [json.load] returned, so an operation written
    for a dict can meet any value; each operation below returns or raises
    as the interpreter does for the type of its receiver. *)

Module PyOps.
Import Py Events.

(** [k in v] *)
Definition contains (k : string) (v : pyval) : M bool :=
  match v with
  | PDict d => ret (dict_in k d)
  | PStr s => ret (str_contains k s)
  | PList l => ret (existsb (is_str k) l)
  | _ => raise TypeError
  end.

(** [v[k]] *)
Definition getitem (k : string) (v : pyval) : M pyval :=
  match v with
  | PDict d =>
      match dict_get k d with
      | Some x => ret x
      | None => raise (KeyError k)
      end
  | _ => raise TypeError
  end.

(** [v[k] = x] *)
Definition setitem (k : string) (x : pyval) (v : pyval) : M pyval :=
  match v with
  | PDict d => ret (PDict (dict_set k x d))
  | _ => raise TypeError
  end.

(** [del v[k]] *)
Definition delitem (k : string) (v : pyval) : M pyval :=
  match v with
  | PDict d =>
      if dict_in k d then ret (PDict (dict_del k d)) else raise (KeyError k)
  | _ => raise TypeError
  end.

(** [v.get(k, dflt)] *)
Definition get (k : string) (dflt : pyval) (v : pyval) : M pyval :=
  match v with
  | PDict d => ret (default dflt (dict_get k d))
  | _ => raise AttributeError
  end.

(** [v.keys()] *)
Definition keys (v : pyval) : M (list string) :=
  match v with
  | PDict d => ret (dict_keys d)
  | _ => raise AttributeError
  end.

(** [v.pop(k)]: the value removed and the receiver afterwards. *)
Definition pop (k : string) (v : pyval) : M (pyval * pyval) :=
  match v with
  | PDict d =>
      match dict_get k d with
      | Some x => ret (x, PDict (dict_del k d))
      | None => raise (KeyError k)
      end
  | PList _ => raise TypeError
  | _ => raise AttributeError
  end.

(** [v.pop(k, None)], the receiver afterwards. *)
Definition pop_default (k : string) (v : pyval) : M pyval :=
  match v with
  | PDict d => ret (PDict (dict_del k d))
  | PList _ => raise TypeError
  | _ => raise AttributeError
  end.

(** The characters of a string, each a string of its own. *)
Fixpoint chars (s : string) : list pyval :=
  match s with
  | EmptyString => []
  | String c r => PStr (String c "") :: chars r
  end.

(** [for x in v.values(): x <- f x] *)
Definition for_values (f : pyval -> M pyval) (v : pyval) : M pyval :=
  match v with
  | PDict d =>
      let* d' :=
        map_in_place (fun kv => let* x := f (snd kv) in ret (fst kv, x)) d in
      ret (PDict d')
  | _ => raise AttributeError
  end.

(** [for x in v: x <- f x].  The elements of a list are changed in place;
    the keys of a dict and the characters of a string are immutable, so a
    body that returns leaves them as they are. *)
Definition for_elements (f : pyval -> M pyval) (v : pyval) : M pyval :=
  match v with
  | PList l => let* l' := map_in_place f l in ret (PList l')
  | PDict d =>
      let* _ :=
        for_each (fun x => let* _ := f x in ret tt) (map PStr (dict_keys d)) in
      ret v
  | PStr s =>
      let* _ := for_each (fun x => let* _ := f x in ret tt) (chars s) in
      ret v
  | _ => raise TypeError
  end.

(** After [x = v.get(k, {})] and changes made to [x] in place, the value
    under [k] is the changed object; a default that [get] made up is
    dropped. *)
Definition write_back (k : string) (x : pyval) (v : pyval) : pyval :=
  match v with
  | PDict d => if dict_in k d then PDict (dict_set k x d) else v
  | _ => v
  end.

End PyOps.


(** ** [dbt/contracts/util.py] *)

Module SchemaVersion.
Definition BASE_SCHEMAS_URL : string := "https://schemas.getdbt.com/".

Record t : Type := { name : string; version : Z }.

(** [SCHEMA_PATH.format(name=self.name, version=self.version)] *)
Definition path (self : t) : string :=
  "dbt/" +:+ name self +:+ "/v" +:+ pretty (version self) +:+ ".json".

(** [__str__] *)
Definition str (self : t) : string := BASE_SCHEMAS_URL +:+ path self.
End SchemaVersion.

Module Util.
Import Py Events PyOps.

(** [s.split(sep)] for a separator of one character. *)
Fixpoint split (sep : ascii) (s : string) : list string :=
  match s with
  | EmptyString => [""]
  | String c r =>
      if Ascii.eqb c sep then "" :: split sep r
      else
        match split sep r with
        | h :: t => String c h :: t
        | [] => [String c ""]
        end
  end.

(** [l[-n]] for [n >= 1] *)
Definition from_end {A : Type} (n : nat) (l : list A) : option A :=
  rev l !! (n - 1)%nat.

(** [s[-1]] *)
Fixpoint last_char (s : string) : option ascii :=
  match s with
  | EmptyString => None
  | String c EmptyString => Some c
  | String _ r => last_char r
  end.

(** [int(c)] for a string of the one character [c] *)
Definition int_of_char (c : ascii) : option Z :=
  let n := Z.of_nat (nat_of_ascii c) in
  if (48 <=? n)%Z && (n <=? 57)%Z then Some (n - 48)%Z else None.

Definition dot : ascii := ascii_of_nat 46.

Definition get_manifest_schema_version (dct : pyval) : M Z :=
  let* metadata := get "metadata" (PDict []) dct in
  let* schema_version := get "dbt_schema_version" PNone metadata in
  if negb (truthy schema_version)
  then raise (ValueError "Manifest doesn't have schema version")
  else
    match schema_version with
    | PStr s =>
        match from_end 2 (split dot s) with
        | None => raise IndexError
        | Some part =>
            match last_char part with
            | None => raise IndexError
            | Some c =>
                match int_of_char c with
                | Some n => ret n
                | None =>
                    raise (ValueError "invalid literal for int() with base 10")
                end
            end
        end
    | _ => raise AttributeError
    end.

Definition duplicated_attribute_msg : string :=
  nl +:+ nl
  +:+ "The metric '{}' contains both the deprecated metric property '{}'"
  +:+ nl
  +:+ "and the up-to-date metric property '{}'. Please remove the deprecated property."
  +:+ nl.

(** [k in data.keys()] *)
Definition in_keys (k : string) (data : pyval) : M bool :=
  let* ks := keys data in ret (bool_decide (k ∈ ks)).

Section upgrade.
(** [deprecations.warn(name, metric_name=...)], from [dbt/deprecations.py]. *)
Variable deprecations_warn : string -> pyval -> M unit.

Definition rename_metric_attr (data : pyval) (raise_deprecation_warning : bool)
  : M pyval :=
  let* metric_name := getitem "name" data in
  let* _ :=
    (if raise_deprecation_warning then
       let* deprecated :=
         (let* has_sql := in_keys "sql" data in
          if has_sql then ret true
          else
            let* has_type := in_keys "type" data in
            if has_type then ret true
            else
              let* cm := get "calculation_method" PNone data in
              ret (is_str "expression" cm)) in
       if deprecated
       then deprecations_warn "metric-attr-renamed" metric_name
       else ret tt
     else ret tt) in
  let* has_sql := in_keys "sql" data in
  let* data :=
    (if has_sql then
       let* has_expression := in_keys "expression" data in
       if has_expression then
         raise (ValidationError duplicated_attribute_msg
                  [metric_name; PStr "sql"; PStr "expression"])
       else
         let* (x, data) := pop "sql" data in
         setitem "expression" x data
     else ret data) in
  let* has_type := in_keys "type" data in
  let* data :=
    (if has_type then
       let* has_calculation_method := in_keys "calculation_method" data in
       if has_calculation_method then
         raise (ValidationError duplicated_attribute_msg
                  [metric_name; PStr "type"; PStr "calculation_method"])
       else
         let* (calculation_method, data) := pop "type" data in
         setitem "calculation_method" calculation_method data
     else ret data) in
  let* cm := get "calculation_method" PNone data in
  if is_str "expression" cm
  then setitem "calculation_method" (PStr "derived") data
  else ret data.

Definition rename_sql_attr (node_content : pyval) : M pyval :=
  let* has_raw_sql := contains "raw_sql" node_content in
  let* node_content :=
    (if has_raw_sql then
       let* (x, node_content) := pop "raw_sql" node_content in
       setitem "raw_code" x node_content
     else ret node_content) in
  let* has_compiled_sql := contains "compiled_sql" node_content in
  let* node_content :=
    (if has_compiled_sql then
       let* (x, node_content) := pop "compiled_sql" node_content in
       setitem "compiled_code" x node_content
     else ret node_content) in
  setitem "language" (PStr "sql") node_content.

(** [if k in d: del d[k]] *)
Definition del_if_present (k : string) (d : pyval) : M pyval :=
  let* present := contains k d in
  if present then delitem k d else ret d.

Definition upgrade_node_content (node_content : pyval) : M pyval :=
  let* node_content := rename_sql_attr node_content in
  let* resource_type := getitem "resource_type" node_content in
  if negb (is_str "seed" resource_type) then
    del_if_present "root_path" node_content
  else ret node_content.

Definition seed_compilation_attributes : list string :=
  ["language"; "refs"; "sources"; "metrics"; "compiled_path"; "compiled";
   "compiled_code"; "extra_ctes_injected"; "extra_ctes"; "relation_name"].

(** One round of the loop of [upgrade_seed_content]. *)
Definition upgrade_seed_attr (attr_name : string) (node_content : pyval)
  : M pyval :=
  let* node_content := del_if_present attr_name node_content in
  let* depends_on := get "depends_on" (PDict []) node_content in
  let* depends_on := pop_default "nodes" depends_on in
  ret (write_back "depends_on" depends_on node_content).

Fixpoint upgrade_seed_loop (attrs : list string) (node_content : pyval)
  : M pyval :=
  match attrs with
  | [] => ret node_content
  | attr_name :: rest =>
      let* node_content := upgrade_seed_attr attr_name node_content in
      upgrade_seed_loop rest node_content
  end.

Definition upgrade_seed_content (node_content : pyval) : M pyval :=
  upgrade_seed_loop seed_compilation_attributes node_content.

(** The body shared by the loop over [nodes] and the loop over each
    [disabled] list. *)
Definition upgrade_node (node_content : pyval) : M pyval :=
  let* node_content := upgrade_node_content node_content in
  let* resource_type := getitem "resource_type" node_content in
  if is_str "seed" resource_type
  then upgrade_seed_content node_content
  else ret node_content.

(** [for x in manifest.get(section, {}).values(): x <- body x] *)
Definition upgrade_section (section : string) (body : pyval -> M pyval)
    (manifest : pyval) : M pyval :=
  let* contents := get section (PDict []) manifest in
  let* contents := for_values body contents in
  ret (write_back section contents manifest).

Definition upgrade_manifest_json (manifest : pyval) : M pyval :=
  let* manifest := upgrade_section "nodes" upgrade_node manifest in
  let* manifest :=
    upgrade_section "disabled" (for_elements upgrade_node) manifest in
  let* manifest :=
    upgrade_section "metrics"
      (fun metric_content =>
         let* metric_content := rename_metric_attr metric_content false in
         del_if_present "root_path" metric_content) manifest in
  let* manifest :=
    upgrade_section "exposures" (del_if_present "root_path") manifest in
  let* manifest :=
    upgrade_section "sources" (del_if_present "root_path") manifest in
  let* manifest :=
    upgrade_section "macros" (del_if_present "root_path") manifest in
  upgrade_section "docs"
    (fun doc_content =>
       let* doc_content := del_if_present "root_path" doc_content in
       setitem "resource_type" (PStr "doc") doc_content) manifest.

End upgrade.

End Util.

Module VersionedSchema.
Import Py Events PyOps.

(** What [read_and_check_versions] asks of the class it is called on.
    [dbt_schema_version] is [None] for a class without that attribute,
    [compatible_previous_versions] for one without that method. *)
Record cls : Type := {
  __name__ : string;
  dbt_schema_version : option SchemaVersion.t;
  compatible_previous_versions : option (list (string * Z))
}.

(** [is_compatible_version], for a class that has a [dbt_schema_version].
    [str()] of a value that is not a string (a number, [None], a list, a
    dict) never starts with [BASE_SCHEMAS_URL], so only a string can be
    found in [compatible_versions]. *)
Definition is_compatible_version (c : cls) (current : SchemaVersion.t)
    (schema_version : pyval) : bool :=
  let compatible_versions :=
    [SchemaVersion.str current]
    ++ match compatible_previous_versions c with
       | Some previous =>
           map (fun nv => SchemaVersion.str
                            {| SchemaVersion.name := fst nv;
                               SchemaVersion.version := snd nv |}) previous
       | None => []
       end in
  match schema_version with
  | PStr s => bool_decide (s ∈ compatible_versions)
  | _ => false
  end.

Section read.
Variable A : Type.
Variable deprecations_warn : string -> pyval -> M unit.
(** [read_json(path)], from [dbt/clients/system.py]. *)
Variable read_json : string -> M pyval.
(** [cls.from_dict(data)] *)
Variable from_dict : cls -> pyval -> M A.

Definition read_and_check_versions (c : cls) (path : string) : M A :=
  let* data :=
    (fun st =>
       match read_json path st with
       | (Raised (EnvironmentError exc), st')
       | (Raised (ValueError exc), st') =>
           (Raised (DbtRuntimeError
                      ("Could not read " +:+ __name__ c +:+ " at " +:+ dquote
                       +:+ path +:+ dquote +:+ " as JSON: " +:+ exc)), st')
       | other => other
       end) in
  let* _ :=
    match dbt_schema_version c with
    | Some current =>
        let* has_metadata := contains "metadata" data in
        let* has_version :=
          (if has_metadata then
             let* metadata := getitem "metadata" data in
             contains "dbt_schema_version" metadata
           else ret false) in
        if has_version then
          let* metadata := getitem "metadata" data in
          let* previous_schema_version := getitem "dbt_schema_version" metadata in
          if negb (is_compatible_version c current previous_schema_version)
          then raise (IncompatibleSchemaError (SchemaVersion.str current)
                        previous_schema_version)
          else ret tt
        else ret tt
    | None => ret tt
    end in
  let* version := Util.get_manifest_schema_version data in
  let* data :=
    (if (version <=? 7)%Z
     then Util.upgrade_manifest_json deprecations_warn data
     else ret data) in
  from_dict c data.

End read.
End VersionedSchema.

(** ** [dbt/config/runtime.py] *)

(** Modelled from the spec: [ComponentName] and [Policy] are declared in
    [dbt/contracts/relation.py], which is not among the sources.  A quote
    policy has one boolean per relation component (database, schema,
    identifier); [replace_dict] overrides it field by field with the
    entries of the dict it is given, and [to_dict] lists the three
    fields. *)
Module ComponentName.
Inductive t : Type := Database | Schema | Identifier.

(** The members, in the order [for key in ComponentName] visits them. *)
Definition members : list t := [Database; Schema; Identifier].

(** The string a member stands for as a dict key. *)
Definition value (k : t) : string :=
  match k with
  | Database => "database"
  | Schema => "schema"
  | Identifier => "identifier"
  end.

#[global] Instance eq_dec : EqDecision t.
Proof. solve_decision. Defined.
End ComponentName.

Module Policy.
Import Py.
Record t : Type := { database : bool; schema : bool; identifier : bool }.

Definition field (k : ComponentName.t) (p : t) : bool :=
  match k with
  | ComponentName.Database => database p
  | ComponentName.Schema => schema p
  | ComponentName.Identifier => identifier p
  end.

Definition replace (k : ComponentName.t) (v : bool) (p : t) : t :=
  match k with
  | ComponentName.Database =>
      {| database := v; schema := schema p; identifier := identifier p |}
  | ComponentName.Schema =>
      {| database := database p; schema := v; identifier := identifier p |}
  | ComponentName.Identifier =>
      {| database := database p; schema := schema p; identifier := v |}
  end.

(** [result[key] = value] on a dict keyed by component. *)
Fixpoint set_component (key : ComponentName.t) (value : bool)
    (result : list (ComponentName.t * bool)) : list (ComponentName.t * bool) :=
  match result with
  | [] => [(key, value)]
  | (key', value') :: rest =>
      if decide (key' = key) then (key', value) :: rest
      else (key', value') :: set_component key value rest
  end.

Definition replace_dict (p : t) (dct : list (ComponentName.t * bool)) : t :=
  foldl (fun p kv => replace (fst kv) (snd kv) p) p dct.

Definition to_dict (p : t) : pydict :=
  [("database", PBool (database p)); ("schema", PBool (schema p));
   ("identifier", PBool (identifier p))].
End Policy.

Module Project.
Import Py.
(** The attributes of a [Project] that the modelled code reads. *)
Record t : Type := {
  project_name : string;
  project_root : string;
  packages_install_path : string;
  quoting : pydict;
  models : pydict;
  seeds : pydict;
  snapshots : pydict;
  sources : pydict;
  tests : pydict;
  metrics : pydict;
  exposures : pydict;
  packages : list pyval
}.
End Project.

Module Profile.
(** The attributes of a [Profile] that the modelled code reads;
    [credentials_type] is [profile.credentials.type]. *)
Record t : Type := {
  profile_name : string;
  target_name : string;
  threads : Z;
  credentials_type : string
}.
End Profile.

Module RuntimeConfig.
Import Py Events.

(** The attributes of a [RuntimeConfig] that the modelled code reads.
    [packages] is [self.packages.packages].  The [dependencies] mapping
    keeps its insertion order. *)
Inductive t : Type := Build {
  project_name : string;
  project_root : string;
  packages_install_path : string;
  quoting : pydict;
  models : pydict;
  seeds : pydict;
  snapshots : pydict;
  sources : pydict;
  tests : pydict;
  metrics : pydict;
  exposures : pydict;
  packages : list pyval;
  profile_name : string;
  target_name : string;
  threads : Z;
  credentials_type : string;
  args : pydict;
  cli_vars : pydict;
  dependencies : option (list (string * t))
}.

Definition set_dependencies (self : t) (d : option (list (string * t))) : t :=
  Build (project_name self) (project_root self) (packages_install_path self)
    (quoting self) (models self) (seeds self) (snapshots self) (sources self)
    (tests self) (metrics self) (exposures self) (packages self)
    (profile_name self) (target_name self) (threads self)
    (credentials_type self) (args self) (cli_vars self) d.

(** [self.quoting = quoting] *)
Definition set_quoting (quoting : pydict) (self : t) : t :=
  Build (project_name self) (project_root self) (packages_install_path self)
    quoting (models self) (seeds self) (snapshots self) (sources self)
    (tests self) (metrics self) (exposures self) (packages self)
    (profile_name self) (target_name self) (threads self)
    (credentials_type self) (args self) (cli_vars self) (dependencies self).

Section from_parts.
(** [profile.credentials.translate_aliases], from
    [dbt/contracts/connection.py]. *)
Variable translate_aliases : Profile.t -> pydict -> pydict.
(** [get_relation_class_by_name(type).get_default_quote_policy()], from
    the adapter. *)
Variable get_default_quote_policy : string -> Policy.t.
(** [parse_cli_vars(getattr(args, "vars", "{}"))], from
    [dbt/config/utils.py]. *)
Variable parse_cli_vars : pydict -> pydict.
(** [self.validate()], run by [__post_init__]; it serializes the new
    object and checks it against the [Configuration] contract. *)
Variable validate : t -> M unit.

Definition _project_quoting_dict (proj : Project.t) (profile : Profile.t)
  : list (ComponentName.t * bool) :=
  let src := translate_aliases profile (Project.quoting proj) in
  foldl
    (fun result key =>
       if dict_in (ComponentName.value key) src then
         let value := default PNone (dict_get (ComponentName.value key) src) in
         match is_bool value with
         | Some b => Policy.set_component key b result
         | None => result
         end
       else result)
    [] ComponentName.members.

(** [RuntimeConfig.from_parts]; the attributes are copied from the project
    and the profile, [quoting] and [cli_vars] are computed. *)
Definition from_parts (project : Project.t) (profile : Profile.t)
    (args : pydict) (dependencies : option (list (string * t))) : M t :=
  let quoting :=
    Policy.to_dict
      (Policy.replace_dict
         (get_default_quote_policy (Profile.credentials_type profile))
         (_project_quoting_dict project profile)) in
  let cli_vars := parse_cli_vars args in
  let self :=
    {| project_name := Project.project_name project;
       project_root := Project.project_root project;
       packages_install_path := Project.packages_install_path project;
       quoting := quoting;
       models := Project.models project;
       seeds := Project.seeds project;
       snapshots := Project.snapshots project;
       sources := Project.sources project;
       tests := Project.tests project;
       metrics := Project.metrics project;
       exposures := Project.exposures project;
       packages := Project.packages project;
       profile_name := Profile.profile_name profile;
       target_name := Profile.target_name profile;
       threads := Profile.threads profile;
       credentials_type := Profile.credentials_type profile;
       args := args;
       cli_vars := cli_vars;
       dependencies := dependencies |} in
  let* _ := validate self in
  ret self.
End from_parts.

(** *** Unused resource config paths *)

Abbreviation FQNPath := (list string).
Abbreviation PathSet := (gset (list string)).

(** [_get_config_paths] and [_get_v2_config_paths] call each other on the
    nested dicts; both add to the one set [paths]. *)
Fixpoint _get_config_paths (config : pyval) (path : FQNPath) (paths : PathSet)
  {struct config} : PathSet :=
  match config with
  | PDict items =>
      (fix loop (items : pydict) (paths : PathSet) {struct items} : PathSet :=
         match items with
         | [] => paths
         | (key, value) :: rest =>
             loop rest
               (match value with
                | PDict _ =>
                    if negb (startswith "+" key)
                    then _get_v2_config_paths value (path ++ [key]) paths
                    else {[ path ]} ∪ paths
                | _ => {[ path ]} ∪ paths
                end)
         end) items paths
  | _ => paths
  end
with _get_v2_config_paths (config : pyval) (path : FQNPath) (paths : PathSet)
  {struct config} : PathSet :=
  match config with
  | PDict items =>
      (fix loop (items : pydict) (paths : PathSet) {struct items} : PathSet :=
         match items with
         | [] => paths
         | (key, value) :: rest =>
             loop rest
               (match value with
                | PDict _ =>
                    if negb (startswith "+" key)
                    then _get_config_paths value (path ++ [key]) paths
                    else {[ path ]} ∪ paths
                | _ => {[ path ]} ∪ paths
                end)
         end) items paths
  | _ => paths
  end.

(** The dict of [get_resource_config_paths], in the order it is written. *)
Definition get_resource_config_paths (self : t) : list (string * PathSet) :=
  [("models", _get_config_paths (PDict (models self)) [] ∅);
   ("seeds", _get_config_paths (PDict (seeds self)) [] ∅);
   ("snapshots", _get_config_paths (PDict (snapshots self)) [] ∅);
   ("sources", _get_config_paths (PDict (sources self)) [] ∅);
   ("tests", _get_config_paths (PDict (tests self)) [] ∅);
   ("metrics", _get_config_paths (PDict (metrics self)) [] ∅);
   ("exposures", _get_config_paths (PDict (exposures self)) [] ∅)].

(** [_is_config_used]; a set is visited in the order of [elements]. *)
Definition _is_config_used (path : FQNPath) (fqns : PathSet) : bool :=
  if negb (bool_decide (fqns = ∅)) then
    existsb
      (fun fqn =>
         (length path <=? length fqn)%nat
         && bool_decide (take (length path) fqn = path))
      (elements fqns)
  else false.

(** The list [unused_resource_config_paths] that the two loops of
    [warn_for_unused_resource_config_paths] build. *)
Definition unused_resource_config_paths (self : t)
    (resource_fqns : gmap string PathSet) (disabled : PathSet)
  : list string :=
  let disabled_fqns := disabled in
  let resource_config_paths := get_resource_config_paths self in
  flat_map
    (fun item =>
       let resource_type := fst item in
       let config_paths := snd item in
       let used_fqns := default ∅ (resource_fqns !! resource_type) in
       let fqns := used_fqns ∪ disabled_fqns in
       flat_map
         (fun config_path =>
            if negb (_is_config_used config_path fqns)
            then [join "." (resource_type :: config_path)]
            else [])
         (elements config_paths))
    resource_config_paths.

Definition warn_for_unused_resource_config_paths (self : t)
    (resource_fqns : gmap string PathSet) (disabled : PathSet) : M unit :=
  let unused := unused_resource_config_paths self resource_fqns disabled in
  if (length unused =? 0)%nat then ret tt
  else warn_or_error (UnusedResourceConfigPath unused) None.

(** *** Loading the installed packages *)

Section load_dependencies.
(** [get_include_paths(self.credentials.type)], from the adapter factory. *)
Variable get_include_paths : string -> list string.
(** [Path(a) / b] and the directory listing: [iterdir root] is [None] when
    [root] does not exist, else the entries of [root] by name, each with
    whether it is a directory. *)
Variable path_join : string -> string -> string.
Variable iterdir : string -> option (list (string * bool)).
(** [self.new_project(project_root)] *)
Variable new_project : t -> string -> M t.

Definition _get_project_directories (self : t) : list string :=
  let root := path_join (project_root self) (packages_install_path self) in
  match iterdir root with
  | Some entries =>
      flat_map
        (fun entry =>
           if snd entry && negb (startswith "__" (fst entry))
           then [path_join root (fst entry)]
           else [])
        entries
  | None => []
  end.

(** One step of the generator [load_projects]: the project at [path], or
    the project error wrapped. *)
Definition load_project (self : t) (path : string) : M (string * t) :=
  fun st =>
    match new_project self path st with
    | (Raised (DbtProjectError e _ _), st') =>
        (Raised (DbtProjectError ("Failed to read package: " +:+ e)
                   (Some "invalid_project") (Some path)), st')
    | (Raised e, st') => (Raised e, st')
    | (Returned project, st') => (Returned (project_name project, project), st')
    end.

(** The loop of [load_dependencies] over [load_projects(project_paths)]. *)
Fixpoint collect_projects (self : t) (project_paths : list string)
    (all_projects : list (string * t)) : M (list (string * t)) :=
  match project_paths with
  | [] => ret all_projects
  | path :: rest =>
      let* (project_name, project) := load_project self path in
      if dict_in project_name all_projects
      then raise (NonUniquePackageNameError project_name)
      else collect_projects self rest (dict_set project_name project all_projects)
  end.

(** [load_dependencies]: the mapping returned, next to [self] as the call
    leaves it.  The entry of [self] in its own mapping is [self] as it was
    on entry. *)
Definition load_dependencies (self : t) (base_only : bool)
  : M (list (string * t) * t) :=
  match dependencies self with
  | None =>
      let all_projects := [(project_name self, self)] in
      let internal_packages := get_include_paths (credentials_type self) in
      let* project_paths :=
        (if base_only then ret internal_packages
         else
           let count_packages_specified := length (packages self) in
           let count_packages_installed :=
             length (_get_project_directories self) in
           if (count_packages_installed <? count_packages_specified)%nat
           then raise (UninstalledPackagesFoundError
                         count_packages_specified
                         count_packages_installed
                         (packages_install_path self))
           else ret (internal_packages ++ _get_project_directories self)) in
      let* all_projects := collect_projects self project_paths all_projects in
      ret (all_projects, set_dependencies self (Some all_projects))
  | Some dependencies => ret (dependencies, self)
  end.

End load_dependencies.
End RuntimeConfig.


(** ** Sample data *)

Module Sample.
Import Py Events.

Definition quiet : Globals :=
  {| WARN_ERROR := false;
     WARN_ERROR_OPTIONS_includes := fun _ => false;
     MAXIMUM_SEED_SIZE_NAME := "1MB";
     warning_tag := fun msg => "[WARNING]: " +:+ msg |}.

Definition strict : Globals :=
  {| WARN_ERROR := true;
     WARN_ERROR_OPTIONS_includes := fun _ => false;
     MAXIMUM_SEED_SIZE_NAME := "1MB";
     warning_tag := fun msg => "[WARNING]: " +:+ msg |}.

Definition start : State := {| globals := quiet; fired := [] |}.
Definition start_strict : State := {| globals := strict; fired := [] |}.

Definition sha (digest : string) : FileHash.t :=
  {| FileHash.name := "sha256"; FileHash.checksum := digest |}.

Definition path_sentinel (location : string) : FileHash.t :=
  {| FileHash.name := "path"; FileHash.checksum := location |}.

Definition node_config : NodeConfig.t :=
  {| NodeConfig.persist_docs :=
       Some [("relation", PBool true); ("columns", PBool true)];
     NodeConfig.pre_hook := [];
     NodeConfig.post_hook := [] |}.

Definition test_config : NodeConfig.t :=
  {| NodeConfig.persist_docs := None;
     NodeConfig.pre_hook := [];
     NodeConfig.post_hook := [] |}.

Definition id_column : ColumnInfo.t :=
  {| ColumnInfo.name := "id";
     ColumnInfo.description := "primary key";
     ColumnInfo.meta := [];
     ColumnInfo.data_type := None;
     ColumnInfo.quote := None;
     ColumnInfo.tags := [] |}.

Definition trips_model : ParsedNode.t :=
  {| ParsedNode.cls := ModelNode;
     ParsedNode.name := "trips";
     ParsedNode.package_name := "taxi_rides_ny";
     ParsedNode.path := "core/trips.sql";
     ParsedNode.original_file_path := "models/core/trips.sql";
     ParsedNode.unique_id := "model.taxi_rides_ny.trips";
     ParsedNode.fqn := ["taxi_rides_ny"; "core"; "trips"];
     ParsedNode.database := Some "main";
     ParsedNode.schema := "main";
     ParsedNode.alias := "trips";
     ParsedNode.checksum := sha "0f3a";
     ParsedNode.config := node_config;
     ParsedNode.description := "one row per trip";
     ParsedNode.columns := [("id", id_column)];
     ParsedNode.unrendered_config :=
       [("materialized", PStr "table"); ("schema", PStr "core")];
     ParsedNode.raw_code := "select * from {{ ref('stg_trips') }}" |}.

(** A generic test, and the same test with another body. *)
Definition not_null_test (raw_code : string) : ParsedNode.t :=
  {| ParsedNode.cls := GenericTestNode;
     ParsedNode.name := "not_null_trips_id";
     ParsedNode.package_name := "taxi_rides_ny";
     ParsedNode.path := "not_null_trips_id.sql";
     ParsedNode.original_file_path := "models/core/schema.yml";
     ParsedNode.unique_id := "test.taxi_rides_ny.not_null_trips_id";
     ParsedNode.fqn := ["taxi_rides_ny"; "core"; "not_null_trips_id"];
     ParsedNode.database := Some "main";
     ParsedNode.schema := "main_dbt_test__audit";
     ParsedNode.alias := "not_null_trips_id";
     ParsedNode.checksum :=
       {| FileHash.name := "none"; FileHash.checksum := "" |};
     ParsedNode.config := test_config;
     ParsedNode.description := "";
     ParsedNode.columns := [];
     ParsedNode.unrendered_config := [("severity", PStr "warn")];
     ParsedNode.raw_code := raw_code |}.

Definition ref_hook : Hook.t :=
  {| Hook.sql := "select * from {{ ref('trips') }}";
     Hook.transaction := true;
     Hook.index := None |}.

Definition grant_hook : Hook.t :=
  {| Hook.sql := "grant select on {{ this }} to reporter";
     Hook.transaction := true;
     Hook.index := None |}.

Definition zones_seed (checksum : FileHash.t) : ParsedNode.t :=
  {| ParsedNode.cls := SeedNode;
     ParsedNode.name := "taxi_zone_lookup";
     ParsedNode.package_name := "taxi_rides_ny";
     ParsedNode.path := "taxi_zone_lookup.csv";
     ParsedNode.original_file_path := "seeds/taxi_zone_lookup.csv";
     ParsedNode.unique_id := "seed.taxi_rides_ny.taxi_zone_lookup";
     ParsedNode.fqn := ["taxi_rides_ny"; "taxi_zone_lookup"];
     ParsedNode.database := Some "main";
     ParsedNode.schema := "main";
     ParsedNode.alias := "taxi_zone_lookup";
     ParsedNode.checksum := checksum;
     ParsedNode.config :=
       {| NodeConfig.persist_docs := Some [];
          NodeConfig.pre_hook := [ref_hook];
          NodeConfig.post_hook := [grant_hook] |};
     ParsedNode.description := "";
     ParsedNode.columns := [];
     ParsedNode.unrendered_config := [];
     ParsedNode.raw_code := "" |}.

End Sample.

(** [self.replace(raw_code=...)] *)
Definition with_raw_code (raw_code : string) (n : ParsedNode.t) : ParsedNode.t :=
  {| ParsedNode.cls := ParsedNode.cls n;
     ParsedNode.name := ParsedNode.name n;
     ParsedNode.package_name := ParsedNode.package_name n;
     ParsedNode.path := ParsedNode.path n;
     ParsedNode.original_file_path := ParsedNode.original_file_path n;
     ParsedNode.unique_id := ParsedNode.unique_id n;
     ParsedNode.fqn := ParsedNode.fqn n;
     ParsedNode.database := ParsedNode.database n;
     ParsedNode.schema := ParsedNode.schema n;
     ParsedNode.alias := ParsedNode.alias n;
     ParsedNode.checksum := ParsedNode.checksum n;
     ParsedNode.config := ParsedNode.config n;
     ParsedNode.description := ParsedNode.description n;
     ParsedNode.columns := ParsedNode.columns n;
     ParsedNode.unrendered_config := ParsedNode.unrendered_config n;
     ParsedNode.raw_code := raw_code |}.


(** [x] occurs in [s] as a contiguous piece. *)
Definition occurs_in (x s : string) : Prop :=
  exists before after : string, s = before +:+ x +:+ after.

Module SampleProject.
Import Py Events.

Definition enabled : pyval := PDict [("+enabled", PBool true)].

(** A project whose [models] section configures the paths [a.b] and
    [a.c.d], with three declared packages. *)
Definition project (quoting : pydict) : Project.t :=
  {| Project.project_name := "taxi_rides_ny";
     Project.project_root := "/work/taxi_rides_ny";
     Project.packages_install_path := "dbt_packages";
     Project.quoting := quoting;
     Project.models :=
       [("a", PDict [("b", enabled); ("c", PDict [("d", enabled)])])];
     Project.seeds := [];
     Project.snapshots := [];
     Project.sources := [];
     Project.tests := [];
     Project.metrics := [];
     Project.exposures := [];
     Project.packages :=
       [PDict [("package", PStr "dbt-labs/dbt_utils")];
        PDict [("package", PStr "dbt-labs/codegen")];
        PDict [("package", PStr "calogica/dbt_expectations")]] |}.

Definition profile : Profile.t :=
  {| Profile.profile_name := "taxi_rides_ny";
     Profile.target_name := "dev";
     Profile.threads := 4;
     Profile.credentials_type := "duckdb" |}.

Definition all_quoted : Policy.t :=
  {| Policy.database := true; Policy.schema := true;
     Policy.identifier := true |}.

Definition no_aliases (profile : Profile.t) (quoting : pydict) : pydict :=
  quoting.

Definition always_valid (self : RuntimeConfig.t) : M unit := ret tt.

Definition config (quoting : pydict) : M RuntimeConfig.t :=
  RuntimeConfig.from_parts no_aliases (fun _ => all_quoted) (fun _ => [])
    always_valid (project quoting) profile [] None.

(** The configuration of the sample project when it has no quoting
    settings of its own. *)
Definition runtime_config : RuntimeConfig.t :=
  {| RuntimeConfig.project_name := "taxi_rides_ny";
     RuntimeConfig.project_root := "/work/taxi_rides_ny";
     RuntimeConfig.packages_install_path := "dbt_packages";
     RuntimeConfig.quoting := Policy.to_dict all_quoted;
     RuntimeConfig.models := Project.models (project []);
     RuntimeConfig.seeds := [];
     RuntimeConfig.snapshots := [];
     RuntimeConfig.sources := [];
     RuntimeConfig.tests := [];
     RuntimeConfig.metrics := [];
     RuntimeConfig.exposures := [];
     RuntimeConfig.packages := Project.packages (project []);
     RuntimeConfig.profile_name := "taxi_rides_ny";
     RuntimeConfig.target_name := "dev";
     RuntimeConfig.threads := 4;
     RuntimeConfig.credentials_type := "duckdb";
     RuntimeConfig.args := [];
     RuntimeConfig.cli_vars := [];
     RuntimeConfig.dependencies := None |}.

(** The install directory holds two packages, a file and a directory that
    does not count. *)
Definition iterdir (root : string) : option (list (string * bool)) :=
  if String.eqb root "/work/taxi_rides_ny/dbt_packages"
  then Some [("dbt_utils", true); ("codegen", true); ("README.md", false);
             ("__pycache__", true)]
  else None.

Definition path_join (a b : string) : string := a +:+ "/" +:+ b.

Definition new_project (self : RuntimeConfig.t) (project_root : string)
  : M RuntimeConfig.t :=
  ret (RuntimeConfig.Build project_root project_root "dbt_packages"
         (RuntimeConfig.quoting self) [] [] [] [] [] [] [] []
         (RuntimeConfig.profile_name self) (RuntimeConfig.target_name self)
         (RuntimeConfig.threads self) (RuntimeConfig.credentials_type self)
         (RuntimeConfig.args self) [] None).

End SampleProject.

(** ** Notions used to state the properties *)

(** [d[new] = d.pop(old)] when [old] is a key of [d]. *)
Definition rename_key (old new : string) (d : Py.pydict) : Py.pydict :=
  match Py.dict_get old d with
  | Some x => Py.dict_set new x (Py.dict_del old d)
  | None => d
  end.

(** A rewriting step that, once it has returned, returns its own output
    unchanged when run again, and that leaves the state alone. *)
Definition settles (f : Py.pyval -> Events.M Py.pyval) : Prop :=
  forall (v v' : Py.pyval) (st st' : Events.State),
    f v st = (Events.Returned v', st') ->
    st' = st /\ forall st2 : Events.State, f v' st2 = (Events.Returned v', st2).


Section upgrade_notions.
Import Py Events PyOps.

(** The [depends_on] of a seed, if it has one, is a dict without
    ["nodes"]. *)
Definition nodes_popped (d : pydict) : Prop :=
  match dict_get "depends_on" d with
  | None => True
  | Some (PDict depends_on) => dict_get "nodes" depends_on = None
  | Some _ => False
  end.

(** The section [k] of the manifest [d], if there is one, is left as it is
    by its loop. *)
Definition section_done (k : string) (body : pyval -> M pyval) (d : pydict)
  : Prop :=
  match dict_get k d with
  | Some contents =>
      forall st : State, for_values body contents st = (Returned contents, st)
  | None => True
  end.

(** The loops of [upgrade_manifest_json], one after the other. *)
Fixpoint upgrade_sections (sections : list (string * (pyval -> M pyval)))
    (manifest : pyval) : M pyval :=
  match sections with
  | [] => ret manifest
  | [(k, body)] => Util.upgrade_section k body manifest
  | (k, body) :: rest =>
      let* manifest := Util.upgrade_section k body manifest in
      upgrade_sections rest manifest
  end.

(** The sections [upgrade_manifest_json] visits, each with the body of its
    loop. *)
Definition manifest_sections (deprecations_warn : string -> pyval -> M unit)
  : list (string * (pyval -> M pyval)) :=
  [("nodes", Util.upgrade_node);
   ("disabled", for_elements Util.upgrade_node);
   ("metrics",
    fun metric_content =>
      let* metric_content :=
        Util.rename_metric_attr deprecations_warn metric_content false in
      Util.del_if_present "root_path" metric_content);
   ("exposures", Util.del_if_present "root_path");
   ("sources", Util.del_if_present "root_path");
   ("macros", Util.del_if_present "root_path");
   ("docs",
    fun doc_content =>
      let* doc_content := Util.del_if_present "root_path" doc_content in
      setitem "resource_type" (PStr "doc") doc_content)].
End upgrade_notions.

Module SampleManifest.
Import Py Events.

Definition version_url (version : Z) : string :=
  SchemaVersion.str
    {| SchemaVersion.name := "manifest"; SchemaVersion.version := version |}.

(** A manifest as dbt 1.2 wrote it, with the schema version given. *)
Definition written_by_1_2 (version : Z) : pyval :=
  PDict
    [("metadata", PDict [("dbt_schema_version", PStr (version_url version))]);
     ("nodes",
      PDict
        [("model.taxi_rides_ny.trips",
          PDict [("raw_sql", PStr "select 1");
                 ("compiled_sql", PStr "select 1");
                 ("resource_type", PStr "model");
                 ("root_path", PStr "/work/taxi_rides_ny")]);
         ("seed.taxi_rides_ny.taxi_zone_lookup",
          PDict [("resource_type", PStr "seed");
                 ("root_path", PStr "/work/taxi_rides_ny");
                 ("depends_on",
                  PDict [("macros", PList []); ("nodes", PList [])]);
                 ("compiled", PBool false)])]);
     ("disabled", PDict []);
     ("metrics",
      PDict
        [("metric.taxi_rides_ny.revenue",
          PDict [("name", PStr "revenue"); ("sql", PStr "total_amount");
                 ("type", PStr "expression");
                 ("root_path", PStr "/work/taxi_rides_ny")])]);
     ("docs",
      PDict
        [("doc.taxi_rides_ny.trips",
          PDict [("root_path", PStr "/work/taxi_rides_ny");
                 ("resource_type", PStr "docs")])])].

(** The same manifest after the upgrade. *)
Definition upgraded (version : Z) : pyval :=
  PDict
    [("metadata", PDict [("dbt_schema_version", PStr (version_url version))]);
     ("nodes",
      PDict
        [("model.taxi_rides_ny.trips",
          PDict [("resource_type", PStr "model");
                 ("raw_code", PStr "select 1");
                 ("compiled_code", PStr "select 1");
                 ("language", PStr "sql")]);
         ("seed.taxi_rides_ny.taxi_zone_lookup",
          PDict [("resource_type", PStr "seed");
                 ("root_path", PStr "/work/taxi_rides_ny");
                 ("depends_on", PDict [("macros", PList [])])])]);
     ("disabled", PDict []);
     ("metrics",
      PDict
        [("metric.taxi_rides_ny.revenue",
          PDict [("name", PStr "revenue"); ("expression", PStr "total_amount");
                 ("calculation_method", PStr "derived")])]);
     ("docs",
      PDict
        [("doc.taxi_rides_ny.trips", PDict [("resource_type", PStr "doc")])])].

Definition no_deprecation (name : string) (metric_name : pyval) : M unit :=
  ret tt.

(** A manifest class declared at the schema version given. *)
Definition manifest_class (version : Z) : VersionedSchema.cls :=
  {| VersionedSchema.__name__ := "WritableManifest";
     VersionedSchema.dbt_schema_version :=
       Some {| SchemaVersion.name := "manifest";
               SchemaVersion.version := version |};
     VersionedSchema.compatible_previous_versions :=
       Some [("manifest", 4%Z); ("manifest", 5%Z); ("manifest", 6%Z);
             ("manifest", 7%Z); ("manifest", 8%Z); ("manifest", 9%Z)] |}.

End SampleManifest.

(** ** More of [dbt/contracts/graph/nodes.py] *)

Module DependsOn.
(** [MacroDependsOn] with the [nodes] that [DependsOn] adds. *)
Record t : Type := { macros : list string; nodes : list string }.

(** [value in l] on a list of strings *)
Definition mem (value : string) (l : list string) : bool :=
  existsb (String.eqb value) l.

Definition add_macro (value : string) (self : t) : t :=
  if negb (mem value (macros self))
  then {| macros := macros self ++ [value]; nodes := nodes self |}
  else self.

Definition add_node (value : string) (self : t) : t :=
  if negb (mem value (nodes self))
  then {| macros := macros self; nodes := nodes self ++ [value] |}
  else self.
End DependsOn.

Module InjectedCTE.
Record t : Type := { id : string; sql : string }.
End InjectedCTE.

Module CompiledNode.
Import Py Events PyOps.

(** [set_cte], on the list [self.extra_ctes]: the first entry with the id
    gets the new text, and without such an entry a new one goes last. *)
Fixpoint set_cte (cte_id sql : string) (extra_ctes : list InjectedCTE.t)
  : list InjectedCTE.t :=
  match extra_ctes with
  | [] => [{| InjectedCTE.id := cte_id; InjectedCTE.sql := sql |}]
  | cte :: rest =>
      if String.eqb (InjectedCTE.id cte) cte_id
      then {| InjectedCTE.id := InjectedCTE.id cte; InjectedCTE.sql := sql |}
           :: rest
      else cte :: set_cte cte_id sql rest
  end.

(** [extra_ctes] read as the ordered mapping from id to text. *)
Definition as_mapping (extra_ctes : list InjectedCTE.t) : list (string * string) :=
  map (fun cte => (InjectedCTE.id cte, InjectedCTE.sql cte)) extra_ctes.

(** [v is False] *)
Definition is_False (v : pyval) : bool :=
  match v with
  | PBool false => true
  | _ => false
  end.

Section post_serialize.
(** [dbtClassMixin.__post_serialize__], the end of the [super()] chain,
    from [dbt/dataclass_schema.py]. *)
Variable base_post_serialize : pyval -> M pyval.

(** [ParsedNode.__post_serialize__] *)
Definition ParsedNode__post_serialize__ (dct : pyval) : M pyval :=
  let* dct := base_post_serialize dct in
  Util.del_if_present "_event_status" dct.

(** [CompiledNode.__post_serialize__] *)
Definition __post_serialize__ (dct : pyval) : M pyval :=
  let* dct := ParsedNode__post_serialize__ dct in
  let* dct := Util.del_if_present "_pre_injected_sql" dct in
  let* has_compiled := contains "compiled" dct in
  let* not_compiled :=
    (if has_compiled then
       let* compiled := getitem "compiled" dct in
       ret (is_False compiled)
     else ret false) in
  if not_compiled then
    let* dct := delitem "compiled" dct in
    let* dct := delitem "extra_ctes_injected" dct in
    let* dct := delitem "extra_ctes" dct in
    Util.del_if_present "compiled_code" dct
  else ret dct.
End post_serialize.
End CompiledNode.

Module ParsedNodePatch.
(** The attributes of a [ParsedNodePatch] that [ParsedNode.patch] reads. *)
Record t : Type := {
  file_id : string;
  description : string;
  columns : list (string * ColumnInfo.t)
}.
End ParsedNodePatch.

Module Patching.
Section patch.
(** The type of the clock values that [time.time()] returns. *)
Variable Time : Type.

(** A node next to the two attributes that [patch] sets and that the
    comparisons never read. *)
Record patched : Type := {
  node : ParsedNode.t;
  patch_path : option string;
  created_at : Time
}.

(** [ParsedNode.patch], with the value of [time.time()] at the call. *)
Definition patch (now : Time) (patch : ParsedNodePatch.t) (self : patched)
  : patched :=
  {| node :=
       {| ParsedNode.cls := ParsedNode.cls (node self);
          ParsedNode.name := ParsedNode.name (node self);
          ParsedNode.package_name := ParsedNode.package_name (node self);
          ParsedNode.path := ParsedNode.path (node self);
          ParsedNode.original_file_path :=
            ParsedNode.original_file_path (node self);
          ParsedNode.unique_id := ParsedNode.unique_id (node self);
          ParsedNode.fqn := ParsedNode.fqn (node self);
          ParsedNode.database := ParsedNode.database (node self);
          ParsedNode.schema := ParsedNode.schema (node self);
          ParsedNode.alias := ParsedNode.alias (node self);
          ParsedNode.checksum := ParsedNode.checksum (node self);
          ParsedNode.config := ParsedNode.config (node self);
          ParsedNode.description := ParsedNodePatch.description patch;
          ParsedNode.columns := ParsedNodePatch.columns patch;
          ParsedNode.unrendered_config :=
            ParsedNode.unrendered_config (node self);
          ParsedNode.raw_code := ParsedNode.raw_code (node self) |};
     patch_path := Some (ParsedNodePatch.file_id patch);
     created_at := now |}.
End patch.
Arguments node {Time} _.
Arguments patch_path {Time} _.
Arguments created_at {Time} _.
Arguments patch {Time} now patch self.
End Patching.

(** [normalize_test] *)
Definition normalize_test (testdef : Py.pyval) : Py.pyval :=
  match testdef with
  | Py.PStr name => Py.PDict [(name, Py.PDict [])]
  | _ => testdef
  end.

(** The parts of the unparsed source definitions of
    [dbt/contracts/graph/unparsed.py] that [get_tests] reads. *)
Module UnparsedColumn.
Record t : Type := { name : string; tests : option (list Py.pyval) }.
End UnparsedColumn.

Module UnparsedSourceTableDefinition.
Record t : Type := {
  name : string;
  columns : option (list UnparsedColumn.t);
  tests : option (list Py.pyval)
}.
End UnparsedSourceTableDefinition.

Module UnparsedSourceDefinition.
Record t : Type := { name : string }.
End UnparsedSourceDefinition.

Module UnpatchedSourceDefinition.
Import Py.

Record t : Type := {
  source : UnparsedSourceDefinition.t;
  table : UnparsedSourceTableDefinition.t
}.

Definition columns (self : t) : list UnparsedColumn.t :=
  match UnparsedSourceTableDefinition.columns (table self) with
  | None => []
  | Some columns => columns
  end.

Definition tests (self : t) : list pyval :=
  match UnparsedSourceTableDefinition.tests (table self) with
  | None => []
  | Some tests => tests
  end.

(** [get_tests], as the list of what the generator yields. *)
Definition get_tests (self : t) : list (pyval * option UnparsedColumn.t) :=
  map (fun test => (normalize_test test, None)) (tests self)
  ++ flat_map
       (fun column =>
          match UnparsedColumn.tests column with
          | Some tests =>
              map (fun test => (normalize_test test, Some column)) tests
          | None => []
          end)
       (columns self).
End UnpatchedSourceDefinition.

Module HasRelationMetadata.
Import Py Events PyOps.
Section pre_deserialize.
(** [dbtClassMixin.__pre_deserialize__], from [dbt/dataclass_schema.py]. *)
Variable base_pre_deserialize : pyval -> M pyval.

Definition __pre_deserialize__ (data : pyval) : M pyval :=
  let* data := base_pre_deserialize data in
  let* has_database := contains "database" data in
  if negb has_database then setitem "database" PNone data else ret data.
End pre_deserialize.
End HasRelationMetadata.

(** ** More of [dbt/config/runtime.py] *)

Module Packages.
Import Py Events.

(** [clear_dependencies] *)
Definition clear_dependencies (self : RuntimeConfig.t) : RuntimeConfig.t :=
  RuntimeConfig.set_dependencies self None.

(** Modelled from the spec: the [Profile] that [new_project] builds from
    [self.to_profile_info()] is a clone of the current profile;
    [to_profile_info] is defined in [dbt/config/profile.py], which is not
    among the sources. *)
Definition to_profile (self : RuntimeConfig.t) : Profile.t :=
  {| Profile.profile_name := RuntimeConfig.profile_name self;
     Profile.target_name := RuntimeConfig.target_name self;
     Profile.threads := RuntimeConfig.threads self;
     Profile.credentials_type := RuntimeConfig.credentials_type self |}.

Section new_project.
Variable translate_aliases : Profile.t -> pydict -> pydict.
Variable get_default_quote_policy : string -> Policy.t.
Variable parse_cli_vars : pydict -> pydict.
Variable validate : RuntimeConfig.t -> M unit.
(** [profile.validate()], from [dbt/config/profile.py]. *)
Variable profile_validate : Profile.t -> M unit.
(** [Project.from_project_root(project_root, DbtProjectYamlRenderer(profile),
    verify_version=bool(flags.VERSION_CHECK))], from
    [dbt/config/project.py]. *)
Variable from_project_root : string -> Profile.t -> M Project.t.

Definition new_project (self : RuntimeConfig.t) (project_root : string)
  : M RuntimeConfig.t :=
  let profile := to_profile self in
  let* _ := profile_validate profile in
  let* project := from_project_root project_root profile in
  let* runtime_config :=
    RuntimeConfig.from_parts translate_aliases get_default_quote_policy
      parse_cli_vars validate project profile (RuntimeConfig.args self) None in
  ret (RuntimeConfig.set_quoting (RuntimeConfig.quoting self) runtime_config).
End new_project.
End Packages.

(** The project paths that [load_dependencies] hands to [load_projects]
    when it gets that far. *)
Definition project_paths (get_include_paths : string -> list string)
    (path_join : string -> string -> string)
    (iterdir : string -> option (list (string * bool)))
    (self : RuntimeConfig.t) (base_only : bool) : list string :=
  get_include_paths (RuntimeConfig.credentials_type self)
  ++ (if base_only then []
      else RuntimeConfig._get_project_directories path_join iterdir self).

(** [key] with a dict value opens a nested level of a resource config;
    every other entry is a setting of the level it is in. *)
Definition is_setting (key : string) (value : Py.pyval) : bool :=
  match value with
  | Py.PDict _ => Py.startswith "+" key
  | _ => true
  end.

(** [suffix] leads through nested levels of [config] to a level that has a
    setting. *)
Fixpoint is_config_path (suffix : list string) (config : Py.pyval) : bool :=
  match config with
  | Py.PDict items =>
      match suffix with
      | [] => existsb (fun kv => is_setting (fst kv) (snd kv)) items
      | key :: rest =>
          existsb
            (fun kv =>
               String.eqb (fst kv) key
               && negb (is_setting (fst kv) (snd kv))
               && is_config_path rest (snd kv))
            items
      end
  | _ => false
  end.

(** ** More sample data *)

Module SampleGraph.
Import Py.

Definition zones_source (description : string) (tags : list string)
  : SourceDefinition.t :=
  {| SourceDefinition.name := "taxi_zone_lookup";
     SourceDefinition.package_name := "taxi_rides_ny";
     SourceDefinition.unique_id := "source.taxi_rides_ny.staging.taxi_zone_lookup";
     SourceDefinition.fqn := ["taxi_rides_ny"; "staging"; "taxi_zone_lookup"];
     SourceDefinition.database := Some "production";
     SourceDefinition.schema := "trips_data_all";
     SourceDefinition.source_name := "staging";
     SourceDefinition.identifier := "taxi_zone_lookup";
     SourceDefinition.quoting := PDict [("column", PNone)];
     SourceDefinition.loaded_at_field := None;
     SourceDefinition.freshness := None;
     SourceDefinition.external := None;
     SourceDefinition.description := description;
     SourceDefinition.meta := [];
     SourceDefinition.tags := tags;
     SourceDefinition.unrendered_config := [] |}.

Definition dashboard (fqn depends_on_nodes : list string) : Exposure.t :=
  {| Exposure.name := "trips_dashboard";
     Exposure.package_name := "taxi_rides_ny";
     Exposure.unique_id := "exposure.taxi_rides_ny.trips_dashboard";
     Exposure.fqn := fqn;
     Exposure.type := "dashboard";
     Exposure.owner := PDict [("email", PStr "data@example.com")];
     Exposure.description := "";
     Exposure.label := None;
     Exposure.maturity := None;
     Exposure.meta := [];
     Exposure.tags := [];
     Exposure.unrendered_config := [];
     Exposure.url := None;
     Exposure.depends_on_nodes := depends_on_nodes |}.

Definition revenue (fqn tags : list string) : Metric.t :=
  {| Metric.name := "revenue";
     Metric.package_name := "taxi_rides_ny";
     Metric.unique_id := "metric.taxi_rides_ny.revenue";
     Metric.fqn := fqn;
     Metric.description := "";
     Metric.label := "Revenue";
     Metric.calculation_method := "sum";
     Metric.expression := "total_amount";
     Metric.filters := [];
     Metric.time_grains := ["day"; "month"];
     Metric.dimensions := ["service_type"];
     Metric.timestamp := Some "pickup_datetime";
     Metric.window := None;
     Metric.model := Some "ref('fact_trips')";
     Metric.meta := [];
     Metric.tags := tags;
     Metric.unrendered_config := [] |}.

Definition locationid_column : UnparsedColumn.t :=
  {| UnparsedColumn.name := "locationid";
     UnparsedColumn.tests := Some [PStr "not_null"; PStr "unique"] |}.

(** A source table with one table-level test and one tested column. *)
Definition zones_table : UnpatchedSourceDefinition.t :=
  {| UnpatchedSourceDefinition.source :=
       {| UnparsedSourceDefinition.name := "staging" |};
     UnpatchedSourceDefinition.table :=
       {| UnparsedSourceTableDefinition.name := "taxi_zone_lookup";
          UnparsedSourceTableDefinition.columns :=
            Some [locationid_column;
                  {| UnparsedColumn.name := "borough";
                     UnparsedColumn.tests := None |}];
          UnparsedSourceTableDefinition.tests :=
            Some [PDict [("dbt_utils.at_least_one", PDict [])]] |} |}.

Definition trips_patch : ParsedNodePatch.t :=
  {| ParsedNodePatch.file_id := "taxi_rides_ny://models/core/schema.yml";
     ParsedNodePatch.description := "One row per trip.";
     ParsedNodePatch.columns := [] |}.

End SampleGraph.

Module SamplePackages.
Import Py Events.

(** A package read from [project_root]: named after its directory, with
    no quoting at all. *)
Definition from_project_root (project_root : string) (profile : Profile.t)
  : M Project.t :=
  ret {| Project.project_name := project_root;
         Project.project_root := project_root;
         Project.packages_install_path := "dbt_packages";
         Project.quoting :=
           [("database", PBool false); ("schema", PBool false);
            ("identifier", PBool false)];
         Project.models := [];
         Project.seeds := [];
         Project.snapshots := [];
         Project.sources := [];
         Project.tests := [];
         Project.metrics := [];
         Project.exposures := [];
         Project.packages := [] |}.

Definition new_project : RuntimeConfig.t -> string -> M RuntimeConfig.t :=
  Packages.new_project SampleProject.no_aliases
    (fun _ => SampleProject.all_quoted) (fun _ => [])
    SampleProject.always_valid (fun _ => ret tt) from_project_root.

Definition include_paths (credentials_type : string) : list string :=
  ["/site-packages/dbt/include/global_project";
   "/site-packages/dbt/include/" +:+ credentials_type].


End SamplePackages.

(** ** More of [dbt/contracts/util.py] *)

Module Mergeable.
Import Py.

(** An instance of a dataclass, read through [getattr]. *)
Abbreviation instance := (string -> pyval).

(** [v is not None] *)
Definition is_not_None (v : pyval) : bool :=
  match v with
  | PNone => false
  | _ => true
  end.

Section merged.
(** The names of [dataclasses.fields(cls)], in their order. *)
Variable fields : list string.

(** [dataclasses.replace(self, **changes)]: a new instance whose fields
    are those named in [changes], and those of [self] otherwise. *)
Definition replace (self : instance) (changes : pydict) : instance :=
  fun name => default (self name) (dict_get name changes).

(** The dict [replacements] after the two loops of [merged]. *)
Definition replacements (args : list instance) : pydict :=
  foldl
    (fun replacements arg =>
       foldl
         (fun replacements field =>
            let value := arg field in
            if is_not_None value then dict_set field value replacements
            else replacements)
         replacements fields)
    [] args.

Definition merged (self : instance) (args : list instance) : instance :=
  replace self (replacements args).
End merged.
End Mergeable.

Module AdditionalPropertiesMixin.
Import Py Events PyOps.

(** [data.update(other)] *)
Definition update (other : pydict) (data : pyval) : M pyval :=
  match data with
  | PDict d =>
      ret (PDict (foldl (fun d kv => dict_set (fst kv) (snd kv) d) d other))
  | _ => raise AttributeError
  end.

Section hooks.
(** [cls._get_field_names()], from [dbt/dataclass_schema.py]. *)
Variable cls_keys : list string.
(** The [super()] methods, from the same module. *)
Variable base_pre_deserialize : pyval -> M pyval.
Variable base_post_serialize : pyval -> M pyval.

(** The loop of [__pre_deserialize__] over [data.items()], on the dict
    [new_dict] it fills. *)
Fixpoint collect (items : pydict) (new_dict : pydict) : M pydict :=
  match items with
  | [] => ret new_dict
  | (key, value) :: rest =>
      let* new_dict :=
        (if negb (existsb (String.eqb key) cls_keys)
            && negb (String.eqb key "_extra")
         then
           let new_dict :=
             if negb (dict_in "_extra" new_dict)
             then dict_set "_extra" (PDict []) new_dict
             else new_dict in
           let* extra := getitem "_extra" (PDict new_dict) in
           let* extra := setitem key value extra in
           ret (dict_set "_extra" extra new_dict)
         else ret (dict_set key value new_dict)) in
      collect rest new_dict
  end.

Definition __pre_deserialize__ (data : pyval) : M pyval :=
  match data with
  | PDict items =>
      let* new_dict := collect items [] in
      base_pre_deserialize (PDict new_dict)
  | _ => raise AttributeError
  end.

(** [__post_serialize__], for an instance whose [extra] is given. *)
Definition __post_serialize__ (extra : pydict) (dct : pyval) : M pyval :=
  let* data := base_post_serialize dct in
  let* data := update extra data in
  Util.del_if_present "_extra" data.
End hooks.
End AdditionalPropertiesMixin.

(** ** More notions used to state the properties *)

(** A key that [__pre_deserialize__] of an extensible class leaves at the
    top level: a declared field name, or [_extra] itself. *)
Definition is_declared (cls_keys : list string) (key : string) : bool :=
  existsb (String.eqb key) cls_keys || String.eqb key "_extra".


(** [d.get(new)] after [d[new] = d.pop(old)], when that was done for an
    [old] that was present. *)
Definition renamed_value (old new : string) (d : Py.pydict) : option Py.pyval :=
  match Py.dict_get old d with
  | Some x => Some x
  | None => Py.dict_get new d
  end.

(** The [depends_on] of a node is missing or a dict. *)
Definition depends_on_is_dict (d : Py.pydict) : Prop :=
  match Py.dict_get "depends_on" d with
  | None => True
  | Some (Py.PDict _) => True
  | Some _ => False
  end.

(** The section [k] has the same keys, in the same order, in the
    manifests [d] and [d']; a manifest without the section has none in
    either. *)
Definition same_keys_at (k : string) (d d' : Py.pydict) : Prop :=
  match Py.dict_get k d, Py.dict_get k d' with
  | None, None => True
  | Some (Py.PDict s), Some (Py.PDict s') => Py.dict_keys s' = Py.dict_keys s
  | _, _ => False
  end.

(** The first of [names] that is among [seen] or repeats an earlier one. *)
Fixpoint first_collision (seen names : list string) : option string :=
  match names with
  | [] => None
  | name :: rest =>
      if existsb (String.eqb name) seen then Some name
      else first_collision (seen ++ [name]) rest
  end.

(** * Properties *)

Import Py Events PyOps.

(** ** Values and dicts *)

Lemma py_eq_refl (v : pyval) : py_eq v v = true.
Proof.
  induction v as [| b | z | s | l IH | d IH] using pyval_nested_ind; simpl.
  - reflexivity.
  - apply Bool.eqb_reflx.
  - apply Z.eqb_refl.
  - apply String.eqb_refl.
  - induction IH as [| x r Hx _ IHr]; [reflexivity |].
    rewrite Hx. exact IHr.
  - induction IH as [| [k x] r Hx _ IHr]; [reflexivity |].
    simpl in Hx. rewrite String.eqb_refl, Hx. exact IHr.
Qed.

Lemma dict_eq_refl (d : pydict) : dict_eq d d = true.
Proof. apply (py_eq_refl (PDict d)). Qed.

Lemma opt_py_eq_refl (o : option pyval) : opt_py_eq o o = true.
Proof. apply py_eq_refl. Qed.

Lemma FileHash_eq_refl (c : FileHash.t) : FileHash.eq c c = true.
Proof. unfold FileHash.eq. now rewrite !String.eqb_refl. Qed.

(** ** Running the monad *)

Lemma bind_returned {A B : Type} (m : M A) (f : A -> M B) (st st' : State)
    (b : B) :
  bind m f st = (Returned b, st') ->
  exists (a : A) (st1 : State),
    m st = (Returned a, st1) /\ f a st1 = (Returned b, st').
Proof.
  unfold bind. destruct (m st) as [[a | e] st1]; [eauto | discriminate].
Qed.

Lemma map_in_place_settles {A : Type} (f : A -> M A) :
  (forall (x x' : A) (st st' : State),
     f x st = (Returned x', st') ->
     st' = st /\ forall st2 : State, f x' st2 = (Returned x', st2)) ->
  forall (l l' : list A) (st st' : State),
    map_in_place f l st = (Returned l', st') ->
    st' = st /\ forall st2 : State, map_in_place f l' st2 = (Returned l', st2).
Proof.
  intros Hf. induction l as [| x r IH]; intros l' st st' Hrun; simpl in Hrun.
  - injection Hrun as <- <-. split; [reflexivity |]. reflexivity.
  - apply bind_returned in Hrun as [x' [st1 [Hx Hrun]]].
    apply bind_returned in Hrun as [r' [st2 [Hr Hrun]]].
    injection Hrun as <- <-.
    apply Hf in Hx as [-> Hx]. apply IH in Hr as [-> Hr].
    split; [reflexivity |]. intros st3. simpl. unfold bind.
    now rewrite Hx, Hr.
Qed.

(** ** Change detection on nodes *)

Lemma same_config_refl (n : ParsedNode.t) : ParsedNode.same_config n n = true.
Proof. apply dict_eq_refl. Qed.

Lemma same_fqn_refl (n : ParsedNode.t) : ParsedNode.same_fqn n n = true.
Proof. apply bool_decide_eq_true. reflexivity. Qed.

Lemma same_persisted_description_refl (n : ParsedNode.t) :
  ParsedNode.same_persisted_description n n = true.
Proof.
  unfold ParsedNode.same_persisted_description.
  rewrite String.eqb_refl.
  rewrite (bool_decide_eq_true_2 _ eq_refl). simpl.
  destruct (ParsedNode._persist_relation_docs n),
    (ParsedNode._persist_column_docs n); reflexivity.
Qed.

Lemma same_database_representation_refl (n : ParsedNode.t) :
  ParsedNode.same_database_representation n n = true.
Proof.
  unfold ParsedNode.same_database_representation.
  apply forallb_forall. intros key _. apply opt_py_eq_refl.
Qed.

(** A node of a compiled class compares its body by [raw_code]. *)
Lemma same_body_compiled (n old : ParsedNode.t) (st : State) :
  is_compiled_node (ParsedNode.cls n) = true ->
  ParsedNode.same_body n old st
  = (Returned (String.eqb (ParsedNode.raw_code n) (ParsedNode.raw_code old)), st).
Proof.
  unfold ParsedNode.same_body. destruct (ParsedNode.cls n); simpl;
    intros H; try reflexivity; discriminate H.
Qed.

(** When [same_seeds] returns, it returns the equality of the checksums. *)
Lemma same_seeds_returned (self other : ParsedNode.t) (st st' : State)
    (r : bool) :
  ParsedNode.same_seeds self other st = (Returned r, st') ->
  r = FileHash.eq (ParsedNode.checksum self) (ParsedNode.checksum other).
Proof.
  unfold ParsedNode.same_seeds. intros Hrun.
  apply bind_returned in Hrun as [[] [st1 [_ Hret]]].
  now injection Hret as <- _.
Qed.

(** C1.  A node of an executable (compiled) class compared with itself is
    unchanged: [n.same_contents(n)] returns [True], firing no event; for
    every node class [same_contents(None)] returns [False], and
    [n.same_contents(n)], seeds included, returns nothing but [True]; for a
    source, an exposure and a metric [same_contents(None)] returns
    [True]. *)
Theorem same_contents_self_and_none (n : ParsedNode.t) (st : State)
    (Hexec : is_compiled_node (ParsedNode.cls n) = true) :
  ParsedNode.same_contents n (Some n) st = (Returned true, st)
  /\ (forall m : ParsedNode.t,
        ParsedNode.same_contents m None st = (Returned false, st))
  /\ (forall (m : ParsedNode.t) (r : bool) (st' : State),
        ParsedNode.same_contents m (Some m) st = (Returned r, st') -> r = true)
  /\ (forall s : SourceDefinition.t, SourceDefinition.same_contents s None = true)
  /\ (forall e : Exposure.t, Exposure.same_contents e None = true)
  /\ (forall m : Metric.t, Metric.same_contents m None = true).
Proof.
  split; [| split; [| split; [| repeat split]]].
  - unfold ParsedNode.same_contents.
    assert (Hp : ParsedNode.ParsedNode_same_contents n (Some n) st
                 = (Returned true, st)).
    { unfold ParsedNode.ParsedNode_same_contents, bind.
      rewrite (same_body_compiled n n st Hexec).
      rewrite String.eqb_refl, same_config_refl,
        same_persisted_description_refl, same_fqn_refl,
        same_database_representation_refl.
      reflexivity. }
    destruct (ParsedNode.cls n); try exact Hp.
    unfold ParsedNode.GenericTestNode_same_contents.
    now rewrite same_config_refl, same_fqn_refl.
  - intros m. unfold ParsedNode.same_contents.
    destruct (ParsedNode.cls m); reflexivity.
  - intros m r st' Hrun.
    assert (Hp : forall r0 st0,
               ParsedNode.ParsedNode_same_contents m (Some m) st = (Returned r0, st0) ->
               r0 = true).
    { intros r0 st0 Hp. unfold ParsedNode.ParsedNode_same_contents in Hp.
      apply bind_returned in Hp as [body [st1 [Hbody Hret]]].
      injection Hret as <- _.
      rewrite same_config_refl, same_persisted_description_refl,
        same_fqn_refl, same_database_representation_refl, !andb_true_r.
      unfold ParsedNode.same_body in Hbody.
      destruct (ParsedNode.cls m);
        try (injection Hbody as <- _; apply String.eqb_refl).
      apply same_seeds_returned in Hbody. rewrite Hbody.
      apply FileHash_eq_refl. }
    unfold ParsedNode.same_contents in Hrun.
    destruct (ParsedNode.cls m); try exact (Hp _ _ Hrun).
    unfold ParsedNode.GenericTestNode_same_contents in Hrun.
    injection Hrun as <- _. now rewrite same_config_refl, same_fqn_refl.
Qed.

Lemma same_contents_self_and_none_witness :
  ParsedNode.same_contents Sample.trips_model (Some Sample.trips_model)
    Sample.start
  = (Returned true, Sample.start).
Proof.
  apply (same_contents_self_and_none Sample.trips_model Sample.start).
  reflexivity.
Defined.

(** C9.  For a generic test compared with an old version that is not
    [None], [same_contents] returns, without firing an event, a boolean
    that is true exactly when the configs are the same (by the unrendered
    config) and the two [fqn] lists are equal; the answer is the same
    whatever [raw_code] either version has. *)
Theorem generic_test_same_contents (n old : ParsedNode.t) (st : State)
    (Hcls : ParsedNode.cls n = GenericTestNode) :
  exists b : bool,
    ParsedNode.same_contents n (Some old) st = (Returned b, st)
    /\ (b = true <->
        BaseConfig.same_contents (ParsedNode.unrendered_config n)
          (ParsedNode.unrendered_config old) = true
        /\ ParsedNode.fqn n = ParsedNode.fqn old)
    /\ (forall body old_body : string,
          ParsedNode.same_contents (with_raw_code body n)
            (Some (with_raw_code old_body old)) st
          = (Returned b, st)).
Proof.
  exists (ParsedNode.same_config n old && ParsedNode.same_fqn n old).
  unfold ParsedNode.same_contents. rewrite Hcls.
  split; [| split].
  - unfold ParsedNode.GenericTestNode_same_contents.
    now rewrite andb_true_r.
  - unfold ParsedNode.same_config, ParsedNode.same_fqn, GraphNode.same_fqn.
    rewrite andb_true_iff, bool_decide_eq_true. reflexivity.
  - intros body old_body. simpl. rewrite Hcls.
    unfold ParsedNode.GenericTestNode_same_contents.
    now rewrite andb_true_r.
Qed.

Lemma generic_test_same_contents_witness :
  ParsedNode.same_contents (Sample.not_null_test "select 1")
    (Some (Sample.not_null_test "select 2")) Sample.start
  = (Returned true, Sample.start).
Proof.
  destruct (generic_test_same_contents (Sample.not_null_test "select 1")
              (Sample.not_null_test "select 1") Sample.start eq_refl)
    as [b [Hb [_ Hbody]]].
  etransitivity; [exact (Hbody "select 1" "select 2") |].
  rewrite <- Hb. reflexivity.
Defined.

(** ** Seeds *)

(** C3.  [same_seeds] returns, when it returns, the equality of the two
    checksums.  When the new checksum is not the path sentinel, no event is
    fired, and identical checksums compare equal.  When the new checksum is
    the path sentinel, a warning-level event goes through [warn_or_error]:
    either it is fired and the result returned after it, or the warning is
    raised as an error and no result is returned. *)
Theorem same_seeds_result_and_warning (self other : ParsedNode.t) (st : State) :
  let result :=
    FileHash.eq (ParsedNode.checksum self) (ParsedNode.checksum other) in
  (forall (r : bool) (st' : State),
     ParsedNode.same_seeds self other st = (Returned r, st') -> r = result)
  /\ (FileHash.name (ParsedNode.checksum self) <> "path" ->
      ParsedNode.same_seeds self other st = (Returned result, st))
  /\ (FileHash.name (ParsedNode.checksum self) <> "path" ->
      ParsedNode.checksum other = ParsedNode.checksum self ->
      ParsedNode.same_seeds self other st = (Returned true, st))
  /\ (FileHash.name (ParsedNode.checksum self) = "path" ->
      exists e : Event,
        level_tag e = WARN
        /\ (ParsedNode.same_seeds self other st
            = (Returned result,
               {| globals := globals st; fired := fired st ++ [e] |})
            \/ ParsedNode.same_seeds self other st
               = (Raised (EventCompilationError (message (globals st) e)
                            (Some (ParsedNode.unique_id self))), st))).
Proof.
  intros result.
  assert (Hquiet : FileHash.name (ParsedNode.checksum self) <> "path" ->
                   ParsedNode.same_seeds self other st = (Returned result, st)).
  { intros Hname. apply String.eqb_neq in Hname.
    unfold ParsedNode.same_seeds, bind. rewrite Hname. reflexivity. }
  assert (Hloud : FileHash.name (ParsedNode.checksum self) = "path" ->
      exists e : Event,
        level_tag e = WARN
        /\ (ParsedNode.same_seeds self other st
            = (Returned result,
               {| globals := globals st; fired := fired st ++ [e] |})
            \/ ParsedNode.same_seeds self other st
               = (Raised (EventCompilationError (message (globals st) e)
                            (Some (ParsedNode.unique_id self))), st))).
  { intros Hname. apply String.eqb_eq in Hname.
    unfold ParsedNode.same_seeds, bind. rewrite Hname. fold result.
    destruct (negb (String.eqb (FileHash.name (ParsedNode.checksum other)) "path"));
      [| destruct result; simpl];
      eexists; (split; [| unfold warn_or_error, raise, fire_event;
         match goal with
         | |- context [if ?c then _ else _] => destruct c
         end; [right | left]; reflexivity]); reflexivity. }
  split; [| split; [exact Hquiet | split; [| exact Hloud]]].
  - intros r st' Hrun.
    destruct (String.eqb_spec (FileHash.name (ParsedNode.checksum self)) "path")
      as [Hname | Hname].
    + destruct (Hloud Hname) as [e [_ [He | He]]]; rewrite He in Hrun;
        congruence.
    + rewrite (Hquiet Hname) in Hrun. congruence.
  - intros Hname Hsame. rewrite (Hquiet Hname). subst result.
    rewrite Hsame. now rewrite FileHash_eq_refl.
Qed.

Lemma same_seeds_result_and_warning_witness :
  ParsedNode.same_seeds (Sample.zones_seed (Sample.sha "9c1d"))
    (Sample.zones_seed (Sample.sha "9c1d")) Sample.start
  = (Returned true, Sample.start)
  /\ exists e : Event,
       level_tag e = WARN
       /\ (ParsedNode.same_seeds
             (Sample.zones_seed (Sample.path_sentinel "seeds/taxi_zone_lookup.csv"))
             (Sample.zones_seed (Sample.sha "9c1d")) Sample.start
           = (Returned false,
              {| globals := Sample.quiet; fired := [e] |})
           \/ ParsedNode.same_seeds
                (Sample.zones_seed (Sample.path_sentinel "seeds/taxi_zone_lookup.csv"))
                (Sample.zones_seed (Sample.sha "9c1d")) Sample.start
              = (Raised (EventCompilationError (message Sample.quiet e)
                           (Some "seed.taxi_rides_ny.taxi_zone_lookup")),
                 Sample.start)).
Proof.
  split.
  - apply (same_seeds_result_and_warning
             (Sample.zones_seed (Sample.sha "9c1d"))
             (Sample.zones_seed (Sample.sha "9c1d")) Sample.start).
    + discriminate.
    + reflexivity.
  - apply (same_seeds_result_and_warning
             (Sample.zones_seed (Sample.path_sentinel "seeds/taxi_zone_lookup.csv"))
             (Sample.zones_seed (Sample.sha "9c1d")) Sample.start).
    reflexivity.
Defined.

(** C10.  [same_seeds] is the program that hands at most one event to
    [warn_or_error], exactly one when the new checksum is the path
    sentinel, and that event is a [SeedIncreased], a
    [SeedExceedsLimitSamePath] or a [SeedExceedsLimitAndPathChanged]; the
    branch that would build [SeedExceedsLimitChecksumChanged] is never
    taken, so that event is never among the events fired. *)
Theorem same_seeds_never_checksum_changed (self other : ParsedNode.t) :
  exists e : Event,
    (e = SeedIncreased (ParsedNode.package_name self) (ParsedNode.name self)
     \/ e = SeedExceedsLimitSamePath (ParsedNode.package_name self)
              (ParsedNode.name self)
     \/ e = SeedExceedsLimitAndPathChanged (ParsedNode.package_name self)
              (ParsedNode.name self))
    /\ ParsedNode.same_seeds self other
       = (let* _ :=
            (if String.eqb (FileHash.name (ParsedNode.checksum self)) "path"
             then warn_or_error e (Some (ParsedNode.unique_id self))
             else ret tt) in
          ret (FileHash.eq (ParsedNode.checksum self) (ParsedNode.checksum other)))
    /\ forall st : State,
         fired (snd (ParsedNode.same_seeds self other st))
         = fired st
           ++ (if String.eqb (FileHash.name (ParsedNode.checksum self)) "path"
                  && negb (WARN_ERROR (globals st)
                           || WARN_ERROR_OPTIONS_includes (globals st)
                                (type_name e))
               then [e] else []).
Proof.
  unfold ParsedNode.same_seeds.
  destruct (String.eqb (FileHash.name (ParsedNode.checksum self)) "path").
  - destruct (negb (String.eqb (FileHash.name (ParsedNode.checksum other)) "path"));
      [| destruct (FileHash.eq (ParsedNode.checksum self)
                     (ParsedNode.checksum other)); simpl];
      eexists; (split; [| split; [reflexivity |]]); eauto;
      intros st; unfold bind, warn_or_error, raise, fire_event, ret;
      destruct (WARN_ERROR (globals st)
                || WARN_ERROR_OPTIONS_includes (globals st) _); simpl;
      rewrite ?app_nil_r; reflexivity.
  - exists (SeedIncreased (ParsedNode.package_name self) (ParsedNode.name self)).
    split; [auto | split; [reflexivity |]].
    intros st. simpl. now rewrite app_nil_r.
Qed.

(** ** Strings *)

Lemma str_app_cons (ch : ascii) (a b : string) :
  String ch a +:+ b = String ch (a +:+ b).
Proof. reflexivity. Qed.

Lemma str_app_assoc (a b c : string) : (a +:+ b) +:+ c = a +:+ (b +:+ c).
Proof.
  induction a as [| ch a IH]; [reflexivity |].
  now rewrite !str_app_cons, IH.
Qed.

Lemma str_app_nil_r (a : string) : a +:+ "" = a.
Proof.
  induction a as [| ch a IH]; [reflexivity |].
  now rewrite str_app_cons, IH.
Qed.

Lemma occurs_in_here (x after : string) : occurs_in x (x +:+ after).
Proof. exists "", after. reflexivity. Qed.

Lemma occurs_in_later (x before s : string) :
  occurs_in x s -> occurs_in x (before +:+ s).
Proof.
  intros [a [b ->]]. exists (before +:+ a), b. now rewrite str_app_assoc.
Qed.

Lemma occurs_in_self (x : string) : occurs_in x x.
Proof. exists "", "". simpl. now rewrite str_app_nil_r. Qed.

Lemma occurs_in_join (sep x : string) (l : list string) :
  In x l -> occurs_in x (join sep l).
Proof.
  induction l as [| y r IH]; intros Hin; [destruct Hin |].
  destruct r as [| z r].
  - destruct Hin as [-> | []]. apply occurs_in_self.
  - change (join sep (y :: z :: r)) with (y +:+ sep +:+ join sep (z :: r)).
    destruct Hin as [-> | Hin].
    + apply occurs_in_here.
    + apply occurs_in_later, occurs_in_later, IH, Hin.
Qed.

(** ** Seeds and implicit dependencies *)

(** C7.  Reading [refs], [sources] or [metrics] of a seed raises a
    [ParsingError], whatever hooks the seed has; the message contains the
    seed's [unique_id] and, for every pre-hook and every post-hook, a line
    with the hook's SQL text.  [depends_on_nodes] of a seed is the empty
    list. *)
Theorem seed_refs_raise_parsing_error (self : ParsedNode.t) (st : State) :
  exists message : string,
    ParsedNode.SeedNode_refs self st = (Raised (ParsingError message), st)
    /\ ParsedNode.SeedNode_sources self st = (Raised (ParsingError message), st)
    /\ ParsedNode.SeedNode_metrics self st = (Raised (ParsingError message), st)
    /\ occurs_in (ParsedNode.unique_id self) message
    /\ (forall hook : Hook.t,
          In hook (NodeConfig.pre_hook (ParsedNode.config self)) ->
          occurs_in ("- pre_hook: " +:+ dquote +:+ Hook.sql hook +:+ dquote)
            message)
    /\ (forall hook : Hook.t,
          In hook (NodeConfig.post_hook (ParsedNode.config self)) ->
          occurs_in ("- post_hook: " +:+ dquote +:+ Hook.sql hook +:+ dquote)
            message)
    /\ ParsedNode.SeedNode_depends_on_nodes self = [].
Proof.
  eexists. split; [reflexivity |]. split; [reflexivity |].
  split; [reflexivity |]. split; [| split; [| split; [| reflexivity]]].
  - do 7 apply occurs_in_later. apply occurs_in_here.
  - intros hook Hin. do 10 apply occurs_in_later.
    match goal with
    | |- occurs_in _ (join ?sep ?l +:+ _) =>
        destruct (occurs_in_join sep
                    ("- pre_hook: " +:+ dquote +:+ Hook.sql hook +:+ dquote) l)
          as [a [b Hab]]
    end.
    + apply in_or_app. left.
      apply (in_map (fun hook =>
                       "- pre_hook: " +:+ dquote +:+ Hook.sql hook +:+ dquote)).
      exact Hin.
    + rewrite Hab. exists a. eexists. rewrite !str_app_assoc. reflexivity.
  - intros hook Hin. do 10 apply occurs_in_later.
    match goal with
    | |- occurs_in _ (join ?sep ?l +:+ _) =>
        destruct (occurs_in_join sep
                    ("- post_hook: " +:+ dquote +:+ Hook.sql hook +:+ dquote) l)
          as [a [b Hab]]
    end.
    + apply in_or_app. right.
      apply (in_map (fun hook =>
                       "- post_hook: " +:+ dquote +:+ Hook.sql hook +:+ dquote)).
      exact Hin.
    + rewrite Hab. exists a. eexists. rewrite !str_app_assoc. reflexivity.
Qed.

Lemma seed_refs_raise_parsing_error_witness :
  exists message : string,
    ParsedNode.SeedNode_refs (Sample.zones_seed (Sample.sha "9c1d")) Sample.start
    = (Raised (ParsingError message), Sample.start)
    /\ occurs_in "seed.taxi_rides_ny.taxi_zone_lookup" message
    /\ occurs_in
         ("- pre_hook: " +:+ dquote +:+ "select * from {{ ref('trips') }}"
          +:+ dquote) message.
Proof.
  destruct (seed_refs_raise_parsing_error
              (Sample.zones_seed (Sample.sha "9c1d")) Sample.start)
    as [message [Hrefs [_ [_ [Hid [Hpre _]]]]]].
  exists message. split; [exact Hrefs |]. split; [exact Hid |].
  apply (Hpre Sample.ref_hook). simpl. left. reflexivity.
Defined.

(** ** Quoting policy *)

(** The policy [replace_dict] builds from the project quoting dict, one
    component at a time. *)
Lemma resolved_quoting_field (src : pydict) (dflt : Policy.t)
    (key : ComponentName.t) :
  Policy.field key
    (Policy.replace_dict dflt
       (foldl
          (fun result key =>
             if dict_in (ComponentName.value key) src then
               let value :=
                 default PNone (dict_get (ComponentName.value key) src) in
               match is_bool value with
               | Some b => Policy.set_component key b result
               | None => result
               end
             else result)
          [] ComponentName.members))
  = match dict_get (ComponentName.value key) src with
    | Some (PBool b) => b
    | _ => Policy.field key dflt
    end.
Proof.
  unfold dict_in. destruct key; simpl;
    destruct (dict_get "database" src) as [[| bd | | | |] |];
    destruct (dict_get "schema" src) as [[| bs | | | |] |];
    destruct (dict_get "identifier" src) as [[| bi | | | |] |];
    reflexivity.
Qed.

(** C4.  [from_parts] builds, and then validates, a configuration whose
    [quoting] is the dict form of the adapter's default quote policy with
    exactly those components replaced for which the profile-translated
    project quoting dict holds a boolean; any other value, or no value,
    leaves the adapter's default.  With all three defaults true, a project
    quoting of [{"schema": False}] resolves to database true, schema false,
    identifier true, and a string under ["schema"] changes nothing. *)
Theorem from_parts_quoting
    (translate_aliases : Profile.t -> pydict -> pydict)
    (get_default_quote_policy : string -> Policy.t)
    (parse_cli_vars : pydict -> pydict)
    (validate : RuntimeConfig.t -> M unit)
    (project : Project.t) (profile : Profile.t) (args : pydict)
    (dependencies : option (list (string * RuntimeConfig.t))) :
  let src := translate_aliases profile (Project.quoting project) in
  let dflt := get_default_quote_policy (Profile.credentials_type profile) in
  (exists (self : RuntimeConfig.t) (resolved : Policy.t),
     RuntimeConfig.from_parts translate_aliases get_default_quote_policy
       parse_cli_vars validate project profile args dependencies
     = (let* _ := validate self in ret self)
     /\ RuntimeConfig.quoting self = Policy.to_dict resolved
     /\ forall key : ComponentName.t,
          Policy.field key resolved
          = match dict_get (ComponentName.value key) src with
            | Some (PBool b) => b
            | _ => Policy.field key dflt
            end)
  /\ SampleProject.config [("schema", PBool false)] Sample.start
     = (Returned
          (RuntimeConfig.set_quoting
             [("database", PBool true); ("schema", PBool false);
              ("identifier", PBool true)] SampleProject.runtime_config),
        Sample.start)
  /\ SampleProject.config [("schema", PStr "false")] Sample.start
     = (Returned SampleProject.runtime_config, Sample.start)
  /\ RuntimeConfig.quoting SampleProject.runtime_config
     = [("database", PBool true); ("schema", PBool true);
        ("identifier", PBool true)].
Proof.
  intros src dflt. split; [| repeat split].
  eexists. eexists. split; [reflexivity |]. split; [reflexivity |].
  intros key. apply resolved_quoting_field.
Qed.

(** ** Unused resource config paths *)

Lemma take_length_prefix (path fqn : list string) :
  ((length path <=? length fqn)%nat
   && bool_decide (take (length path) fqn = path)) = true
  <-> path `prefix_of` fqn.
Proof.
  rewrite andb_true_iff, bool_decide_eq_true, Nat.leb_le. split.
  - intros [_ Htake]. exists (drop (length path) fqn).
    rewrite <- Htake at 1. symmetry. apply take_drop.
  - intros [rest ->]. split.
    + rewrite length_app. lia.
    + apply take_app_length.
Qed.

(** A config path is used when it is a prefix of some fqn of the set. *)
Lemma _is_config_used_prefix (path : list string) (fqns : gset (list string)) :
  RuntimeConfig._is_config_used path fqns = true
  <-> exists fqn : list string, fqn ∈ fqns /\ path `prefix_of` fqn.
Proof.
  unfold RuntimeConfig._is_config_used.
  destruct (bool_decide (fqns = ∅)) eqn:Hempty; simpl.
  - apply bool_decide_eq_true in Hempty. subst fqns. split; [discriminate |].
    intros [fqn [Hin _]]. exfalso. revert Hin. apply not_elem_of_empty.
  - rewrite existsb_exists. split.
    + intros [fqn [Hin Hp]]. exists fqn. split.
      * apply elem_of_elements, list_elem_of_In, Hin.
      * apply take_length_prefix, Hp.
    + intros [fqn [Hin Hp]]. exists fqn. split.
      * apply list_elem_of_In, elem_of_elements, Hin.
      * apply take_length_prefix, Hp.
Qed.

(** C5.  [warn_for_unused_resource_config_paths] returns silently when no
    path is unused and otherwise hands one [UnusedResourceConfigPath] event
    to [warn_or_error]; the paths it lists are, per resource type, exactly
    the declared config paths that are a prefix of no fqn among the
    resource's fqns and the disabled ones, each written as the resource
    type and the path joined by dots.  For the declared model paths [a.b]
    and [a.c.d] and the one model fqn [(a, b, model1)] the event lists
    [models.a.c.d] alone. *)
Theorem unused_config_paths_by_prefix (self : RuntimeConfig.t)
    (resource_fqns : gmap string (gset (list string)))
    (disabled : gset (list string)) :
  let unused :=
    RuntimeConfig.unused_resource_config_paths self resource_fqns disabled in
  RuntimeConfig.warn_for_unused_resource_config_paths self resource_fqns disabled
  = match unused with
    | [] => ret tt
    | _ :: _ => warn_or_error (UnusedResourceConfigPath unused) None
    end
  /\ (forall reported : string,
        In reported unused <->
        exists (resource_type : string) (config_paths : gset (list string))
               (config_path : list string),
          In (resource_type, config_paths)
            (RuntimeConfig.get_resource_config_paths self)
          /\ config_path ∈ config_paths
          /\ reported = join "." (resource_type :: config_path)
          /\ ~ exists fqn : list string,
                 fqn ∈ default ∅ (resource_fqns !! resource_type) ∪ disabled
                 /\ config_path `prefix_of` fqn)
  /\ RuntimeConfig._get_config_paths
       (PDict (RuntimeConfig.models SampleProject.runtime_config)) [] ∅
     = {[ ["a"; "b"]; ["a"; "c"; "d"] ]}
  /\ RuntimeConfig.warn_for_unused_resource_config_paths
       SampleProject.runtime_config
       {[ "models" := {[ ["a"; "b"; "model1"] ]} ]} ∅ Sample.start
     = (Returned tt,
        {| globals := Sample.quiet;
           fired := [UnusedResourceConfigPath ["models.a.c.d"]] |}).
Proof.
  intros unused. split; [| split; [| split]].
  - unfold RuntimeConfig.warn_for_unused_resource_config_paths. fold unused.
    destruct unused; reflexivity.
  - intros reported. unfold unused, RuntimeConfig.unused_resource_config_paths.
    rewrite in_flat_map. split.
    + intros [[resource_type config_paths] [Hitem Hin]]. simpl in Hin.
      apply in_flat_map in Hin as [config_path [Hpath Hin]].
      exists resource_type, config_paths, config_path.
      split; [exact Hitem |].
      split; [apply elem_of_elements, list_elem_of_In, Hpath |].
      destruct (RuntimeConfig._is_config_used config_path _) eqn:Hused;
        simpl in Hin; [destruct Hin |].
      destruct Hin as [<- | []]. split; [reflexivity |].
      intros Hex. apply _is_config_used_prefix in Hex. congruence.
    + intros [resource_type [config_paths [config_path
               [Hitem [Hpath [-> Hnone]]]]]].
      exists (resource_type, config_paths). split; [exact Hitem |]. simpl.
      apply in_flat_map. exists config_path.
      split; [apply list_elem_of_In, elem_of_elements, Hpath |].
      destruct (RuntimeConfig._is_config_used config_path _) eqn:Hused; simpl.
      * exfalso. apply Hnone. apply _is_config_used_prefix, Hused.
      * left. reflexivity.
  - vm_compute. reflexivity.
  - vm_compute. reflexivity.
Qed.

(** ** Loading the installed packages *)

Lemma length_flat_map_if {A B : Type} (p : A -> bool) (g : A -> B) (l : list A) :
  length (flat_map (fun x => if p x then [g x] else []) l)
  = length (List.filter p l).
Proof.
  induction l as [| x l IH]; [reflexivity |].
  simpl. destruct (p x); simpl; now rewrite IH.
Qed.

(** The directories counted as installed: the entries of the install
    directory that are directories and whose name does not start with two
    underscores; none when the install directory does not exist. *)
Lemma count_project_directories
    (path_join : string -> string -> string)
    (iterdir : string -> option (list (string * bool)))
    (self : RuntimeConfig.t) :
  length (RuntimeConfig._get_project_directories path_join iterdir self)
  = length
      (List.filter
         (fun entry => snd entry && negb (startswith "__" (fst entry)))
         (default []
            (iterdir (path_join (RuntimeConfig.project_root self)
                        (RuntimeConfig.packages_install_path self))))).
Proof.
  unfold RuntimeConfig._get_project_directories.
  destruct (iterdir _) as [entries |]; [| reflexivity].
  apply length_flat_map_if.
Qed.

Section loading.
Variable new_project : RuntimeConfig.t -> string -> M RuntimeConfig.t.
Hypothesis new_project_other_errors :
  forall (cfg : RuntimeConfig.t) (path : string) (st0 st1 : State)
         (a b : nat) (c : string),
    new_project cfg path st0 <> (Raised (UninstalledPackagesFoundError a b c), st1).

(** Loading the projects one by one raises what [new_project] raises, a
    wrapped project error or a name collision. *)
Lemma collect_projects_other_errors (self : RuntimeConfig.t)
    (project_paths : list string)
    (all_projects : list (string * RuntimeConfig.t)) (st st' : State)
    (a b : nat) (c : string) :
  RuntimeConfig.collect_projects new_project self project_paths all_projects st
  <> (Raised (UninstalledPackagesFoundError a b c), st').
Proof.
  revert all_projects st.
  induction project_paths as [| path rest IH]; intros all_projects st; simpl.
  - unfold ret. congruence.
  - unfold bind, RuntimeConfig.load_project.
    pose proof (new_project_other_errors self path st) as Hnew.
    destruct (new_project self path st) as [[project | e] st1].
    + destruct (dict_in (RuntimeConfig.project_name project) all_projects).
      * unfold raise. congruence.
      * apply IH.
    + destruct e; try congruence.
      intros Heq. injection Heq as He Hst. subst.
      exact (Hnew _ _ _ _ eq_refl).
Qed.
End loading.

(** C6.  With the dependencies not loaded yet, [load_dependencies] with
    [base_only] false raises the package-count-mismatch error exactly when
    more packages are declared than directories are installed (entries of
    the install directory that are directories and do not start with two
    underscores); the error carries the declared count, the installed
    count and the install path, and nothing has been loaded or fired when
    it is raised.  [new_project] is the loader of one package, which
    raises errors of other classes only. *)
Theorem load_dependencies_package_count
    (get_include_paths : string -> list string)
    (path_join : string -> string -> string)
    (iterdir : string -> option (list (string * bool)))
    (new_project : RuntimeConfig.t -> string -> M RuntimeConfig.t)
    (self : RuntimeConfig.t) (st : State)
    (Hunset : RuntimeConfig.dependencies self = None)
    (Hnew : forall (cfg : RuntimeConfig.t) (path : string) (st0 st1 : State)
                   (a b : nat) (c : string),
        new_project cfg path st0
        <> (Raised (UninstalledPackagesFoundError a b c), st1)) :
  let specified := length (RuntimeConfig.packages self) in
  let installed :=
    length
      (List.filter
         (fun entry => snd entry && negb (startswith "__" (fst entry)))
         (default []
            (iterdir (path_join (RuntimeConfig.project_root self)
                        (RuntimeConfig.packages_install_path self))))) in
  let run :=
    RuntimeConfig.load_dependencies get_include_paths path_join iterdir
      new_project self false st in
  ((installed < specified)%nat ->
   run = (Raised (UninstalledPackagesFoundError specified installed
                    (RuntimeConfig.packages_install_path self)), st))
  /\ ((exists (a b : nat) (c : string) (st' : State),
         run = (Raised (UninstalledPackagesFoundError a b c), st')) ->
      (installed < specified)%nat).
Proof.
  intros specified installed run.
  unfold run, RuntimeConfig.load_dependencies. rewrite Hunset.
  rewrite count_project_directories. fold specified installed.
  destruct (installed <? specified)%nat eqn:Hcount.
  - split; [reflexivity |]. intros _. apply Nat.ltb_lt, Hcount.
  - apply Nat.ltb_ge in Hcount. split; [lia |].
    intros [a [b [c [st' Hrun]]]]. exfalso.
    unfold bind, ret in Hrun. simpl in Hrun.
    match type of Hrun with
    | context [RuntimeConfig.collect_projects ?np ?s ?paths ?all ?st0] =>
        pose proof (collect_projects_other_errors np Hnew s paths all st0) as Hc;
        destruct (RuntimeConfig.collect_projects np s paths all st0)
          as [[projects | e] st1]
    end.
    + discriminate Hrun.
    + injection Hrun as He Hst. subst. exact (Hc _ _ _ _ eq_refl).
Qed.

Lemma load_dependencies_package_count_witness :
  RuntimeConfig.load_dependencies (fun _ => ["/site-packages/dbt/include/duckdb"])
    SampleProject.path_join SampleProject.iterdir SampleProject.new_project
    SampleProject.runtime_config false Sample.start
  = (Raised (UninstalledPackagesFoundError 3 2 "dbt_packages"), Sample.start).
Proof.
  apply (load_dependencies_package_count
           (fun _ => ["/site-packages/dbt/include/duckdb"])
           SampleProject.path_join SampleProject.iterdir
           SampleProject.new_project SampleProject.runtime_config Sample.start).
  - reflexivity.
  - intros cfg path st0 st1 a b c. unfold SampleProject.new_project, ret.
    discriminate.
  - vm_compute. lia.
Defined.

(** ** Dict lemmas *)

Section dict_facts.
Context {V : Type}.
Implicit Types (k : string) (d : list (string * V)) (v : V).

Lemma dict_get_set k k' v d :
  dict_get k (dict_set k' v d) = if String.eqb k' k then Some v else dict_get k d.
Proof.
  induction d as [| [k0 v0] r IH]; simpl; [reflexivity |].
  destruct (String.eqb_spec k0 k') as [-> | Hne]; simpl.
  - destruct (String.eqb k' k); reflexivity.
  - rewrite IH. destruct (String.eqb_spec k0 k) as [-> | Hne'];
      [| reflexivity].
    apply String.eqb_neq in Hne. rewrite String.eqb_sym in Hne.
    now rewrite Hne.
Qed.

Lemma dict_get_del k k' d :
  dict_get k (dict_del k' d) = if String.eqb k' k then None else dict_get k d.
Proof.
  unfold dict_del.
  induction d as [| [k0 v0] r IH]; simpl.
  - destruct (String.eqb k' k); reflexivity.
  - destruct (String.eqb_spec k0 k') as [-> | Hne]; simpl.
    + rewrite IH. destruct (String.eqb k' k); reflexivity.
    + rewrite IH. destruct (String.eqb_spec k0 k) as [-> | Hne'];
        [| reflexivity].
      apply String.eqb_neq in Hne. rewrite String.eqb_sym in Hne.
      now rewrite Hne.
Qed.

Lemma dict_set_same k v d : dict_get k d = Some v -> dict_set k v d = d.
Proof.
  induction d as [| [k0 v0] r IH]; simpl; [discriminate |].
  destruct (String.eqb k0 k).
  - now intros [= ->].
  - intros H. now rewrite IH.
Qed.

Lemma dict_del_absent k d : dict_get k d = None -> dict_del k d = d.
Proof.
  unfold dict_del.
  induction d as [| [k0 v0] r IH]; simpl; [reflexivity |].
  destruct (String.eqb k0 k); simpl; [discriminate |].
  intros H. now rewrite IH.
Qed.

Lemma dict_set_absent k v d :
  dict_get k d = None -> dict_set k v d = d ++ [(k, v)].
Proof.
  induction d as [| [k0 v0] r IH]; simpl; [reflexivity |].
  destruct (String.eqb k0 k); [discriminate |].
  intros H. now rewrite IH.
Qed.

Lemma dict_del_appended k v d :
  dict_get k d = None -> dict_del k (d ++ [(k, v)]) = d.
Proof.
  intros H. unfold dict_del. rewrite List.filter_app. simpl.
  rewrite String.eqb_refl. simpl. rewrite app_nil_r.
  now apply dict_del_absent.
Qed.

Lemma dict_in_get k d :
  dict_in k d = match dict_get k d with Some _ => true | None => false end.
Proof. reflexivity. Qed.
End dict_facts.

(** ** The manifest upgrade *)

Ltac run_step :=
  unfold Util.in_keys, bind, ret, raise, contains, getitem, setitem, delitem,
    get, keys, pop, pop_default, write_back.

Ltac run := repeat first [progress run_step | progress unfold dict_in | progress simpl].

Lemma del_if_present_dict (k : string) (d : pydict) (st : State) :
  Util.del_if_present k (PDict d) st = (Returned (PDict (dict_del k d)), st).
Proof.
  unfold Util.del_if_present. run_step. rewrite dict_in_get.
  destruct (dict_get k d) eqn:Hk; [reflexivity |].
  now rewrite dict_del_absent.
Qed.

Lemma rename_sql_attr_dict (d : pydict) (st : State) :
  Util.rename_sql_attr (PDict d) st
  = (Returned
       (PDict (dict_set "language" (PStr "sql")
                 (rename_key "compiled_sql" "compiled_code"
                    (rename_key "raw_sql" "raw_code" d)))), st).
Proof.
  unfold Util.rename_sql_attr, rename_key. run.
  destruct (dict_get "raw_sql" d); run;
    match goal with
    | |- context [dict_get "compiled_sql" ?x] =>
        destruct (dict_get "compiled_sql" x)
    end; reflexivity.
Qed.

Lemma rename_sql_attr_needs_dict (v v' : pyval) (st st' : State) :
  Util.rename_sql_attr v st = (Returned v', st') -> exists d, v = PDict d.
Proof.
  unfold Util.rename_sql_attr.
  destruct v; try (eexists; reflexivity); run;
    repeat match goal with
      | |- context [if ?c then _ else _] => destruct c; run
      end; discriminate.
Qed.

Lemma upgrade_seed_attr_dict (a : string) (d : pydict) (st : State) :
  Util.upgrade_seed_attr a (PDict d) st
  = match dict_get "depends_on" (dict_del a d) with
    | None => (Returned (PDict (dict_del a d)), st)
    | Some (PDict dd) =>
        (Returned
           (PDict (dict_set "depends_on" (PDict (dict_del "nodes" dd))
                     (dict_del a d))), st)
    | Some (PList _) => (Raised TypeError, st)
    | Some _ => (Raised AttributeError, st)
    end.
Proof.
  unfold Util.upgrade_seed_attr, bind. rewrite del_if_present_dict.
  run.
  destruct (dict_get "depends_on" (dict_del a d)) as [[] |]; reflexivity.
Qed.

Lemma dict_get_rename_key (k old new : string) (d : pydict) :
  dict_get k (rename_key old new d)
  = match dict_get old d with
    | Some x =>
        if String.eqb new k then Some x
        else if String.eqb old k then None else dict_get k d
    | None => dict_get k d
    end.
Proof.
  unfold rename_key. destruct (dict_get old d); [| reflexivity].
  now rewrite dict_get_set, dict_get_del.
Qed.

Lemma in_keys_dict (k : string) (d : pydict) :
  bool_decide (k ∈ dict_keys d) = dict_in k d.
Proof.
  rewrite dict_in_get. unfold dict_keys.
  induction d as [| [k0 v0] r IH]; simpl.
  - reflexivity.
  - destruct (String.eqb_spec k0 k) as [-> | Hne].
    + apply bool_decide_eq_true_2. apply elem_of_cons. now left.
    + rewrite <- IH. apply bool_decide_ext. rewrite elem_of_cons.
      split; [intros [Heq | Hin]; [congruence | exact Hin] | now right].
Qed.

(** Rewrite lookups through updates, and split on the lookups left. *)
Ltac dict_solve :=
  repeat (rewrite ?dict_get_del, ?dict_get_set, ?dict_get_rename_key; simpl);
  repeat match goal with
    | H : dict_get ?k ?d = _ |- context [dict_get ?k ?d] => rewrite H; simpl
    | |- context [match dict_get ?k ?d with _ => _ end] =>
        let E := fresh "E" in destruct (dict_get k d) eqn:E; simpl
    end;
  try congruence.

(** *** Seeds *)

Lemma upgrade_seed_attr_spec (a : string) (d : pydict) (st st1 : State)
    (v1 : pyval) :
  a <> "depends_on" ->
  Util.upgrade_seed_attr a (PDict d) st = (Returned v1, st1) ->
  st1 = st
  /\ exists d1 : pydict,
       v1 = PDict d1
       /\ nodes_popped d1
       /\ dict_get a d1 = None
       /\ (forall k, dict_get k d = None -> dict_get k d1 = None)
       /\ (forall k, k <> a -> k <> "depends_on" ->
                     dict_get k d1 = dict_get k d).
Proof.
  intros Ha. rewrite upgrade_seed_attr_dict.
  apply String.eqb_neq in Ha. rewrite String.eqb_sym in Ha.
  destruct (dict_get "depends_on" (dict_del a d)) as [[| | | | | dd] |] eqn:Hdep;
    intros [= <- <-]; (split; [reflexivity |]); eexists;
    (split; [reflexivity |]); unfold nodes_popped.
  - repeat split.
    + rewrite dict_get_set. simpl. now rewrite dict_get_del, String.eqb_refl.
    + rewrite dict_get_set, Ha, dict_get_del. now rewrite String.eqb_refl.
    + intros k Hk. rewrite dict_get_set.
      destruct (String.eqb_spec "depends_on" k) as [<- | Hne].
      * rewrite dict_get_del, Hk in Hdep. destruct (String.eqb a "depends_on");
          discriminate.
      * rewrite dict_get_del, Hk. now destruct (String.eqb a k).
    + intros k Hka Hkd. rewrite dict_get_set, dict_get_del.
      apply not_eq_sym, String.eqb_neq in Hka, Hkd. now rewrite Hka, Hkd.
  - repeat split.
    + now rewrite Hdep.
    + now rewrite dict_get_del, String.eqb_refl.
    + intros k Hk. rewrite dict_get_del, Hk. now destruct (String.eqb a k).
    + intros k Hka _. rewrite dict_get_del.
      apply not_eq_sym, String.eqb_neq in Hka. now rewrite Hka.
Qed.

Lemma upgrade_seed_loop_spec (attrs : list string) :
  Forall (fun a => a <> "depends_on") attrs ->
  forall (d : pydict) (st st' : State) (v' : pyval),
    Util.upgrade_seed_loop attrs (PDict d) st = (Returned v', st') ->
    st' = st
    /\ exists d' : pydict,
         v' = PDict d'
         /\ (attrs = [] -> d' = d)
         /\ (attrs <> [] -> nodes_popped d')
         /\ (forall a, In a attrs -> dict_get a d' = None)
         /\ (forall k, dict_get k d = None -> dict_get k d' = None)
         /\ (forall k, ~ In k attrs -> k <> "depends_on" ->
                       dict_get k d' = dict_get k d).
Proof.
  induction 1 as [| a rest Ha _ IH]; intros d st st' v' Hrun; simpl in Hrun.
  - injection Hrun as <- <-. split; [reflexivity |]. exists d.
    repeat split; try tauto. intros a [].
  - apply bind_returned in Hrun as [v1 [st1 [Hstep Hrun]]].
    apply upgrade_seed_attr_spec in Hstep
      as [-> [d1 [-> [Hpop [Hgone [Hkeep Hsame]]]]]]; [| exact Ha].
    apply IH in Hrun as [-> [d' [-> [Hnil [Hpop' [Hgone' [Hkeep' Hsame']]]]]]].
    split; [reflexivity |]. exists d'. split; [reflexivity |].
    split; [discriminate |]. split; [| split; [| split]].
    + intros _. destruct rest as [| b rest].
      * now rewrite (Hnil eq_refl).
      * apply Hpop'. discriminate.
    + intros b [<- | Hb]; [apply Hkeep', Hgone | apply Hgone', Hb].
    + intros k Hk. apply Hkeep', Hkeep, Hk.
    + intros k Hk Hkd. rewrite Hsame', Hsame; try tauto.
      * intros ->. apply Hk. now left.
      * intros Hin. apply Hk. now right.
Qed.

Lemma upgrade_seed_attr_done (a : string) (d0 d : pydict) (st : State) :
  dict_del a d0 = d -> nodes_popped d ->
  Util.upgrade_seed_attr a (PDict d0) st = (Returned (PDict d), st).
Proof.
  intros Hd Hpop. rewrite upgrade_seed_attr_dict, Hd.
  unfold nodes_popped in Hpop.
  destruct (dict_get "depends_on" d) as [[| | | | | dd] |] eqn:Hdep;
    try contradiction; [| reflexivity].
  rewrite (dict_del_absent "nodes" dd Hpop).
  now rewrite (dict_set_same _ _ _ Hdep).
Qed.

Lemma upgrade_seed_loop_cons (a : string) (rest : list string) (v : pyval)
    (st : State) :
  Util.upgrade_seed_loop (a :: rest) v st
  = match Util.upgrade_seed_attr a v st with
    | (Returned v1, st1) => Util.upgrade_seed_loop rest v1 st1
    | (Raised e, st1) => (Raised e, st1)
    end.
Proof. reflexivity. Qed.

Lemma upgrade_seed_loop_done (attrs : list string) (d : pydict) (st : State) :
  nodes_popped d ->
  (forall a, In a attrs -> dict_get a d = None) ->
  Util.upgrade_seed_loop attrs (PDict d) st = (Returned (PDict d), st).
Proof.
  intros Hpop. induction attrs as [| a rest IH]; intros Hgone; simpl.
  - reflexivity.
  - unfold bind. rewrite (upgrade_seed_attr_done a d d).
    + apply IH. intros b Hb. apply Hgone. now right.
    + apply dict_del_absent, Hgone. now left.
    + exact Hpop.
Qed.

(** *** Nodes *)

Lemma upgrade_node_done_other (d : pydict) (resource_type : pyval) (st : State) :
  dict_get "raw_sql" d = None ->
  dict_get "compiled_sql" d = None ->
  dict_get "language" d = Some (PStr "sql") ->
  dict_get "resource_type" d = Some resource_type ->
  is_str "seed" resource_type = false ->
  dict_get "root_path" d = None ->
  Util.upgrade_node (PDict d) st = (Returned (PDict d), st).
Proof.
  intros Hraw Hcompiled Hlanguage Htype Hseed Hroot.
  unfold Util.upgrade_node, Util.upgrade_node_content, bind.
  rewrite rename_sql_attr_dict. unfold rename_key.
  rewrite Hraw, Hcompiled, (dict_set_same _ _ _ Hlanguage).
  run. rewrite Htype, Hseed. simpl.
  rewrite del_if_present_dict, (dict_del_absent _ _ Hroot).
  run. now rewrite Htype, Hseed.
Qed.

Lemma upgrade_node_done_seed (d : pydict) (resource_type : pyval) (st : State) :
  dict_get "raw_sql" d = None ->
  dict_get "compiled_sql" d = None ->
  dict_get "resource_type" d = Some resource_type ->
  is_str "seed" resource_type = true ->
  (forall a, In a Util.seed_compilation_attributes -> dict_get a d = None) ->
  nodes_popped d ->
  Util.upgrade_node (PDict d) st = (Returned (PDict d), st).
Proof.
  intros Hraw Hcompiled Htype Hseed Hgone Hpop.
  assert (Hlanguage : dict_get "language" d = None).
  { apply Hgone. simpl. tauto. }
  unfold Util.upgrade_node, Util.upgrade_node_content, bind.
  rewrite rename_sql_attr_dict. unfold rename_key.
  rewrite Hraw, Hcompiled. run.
  rewrite !dict_get_set. simpl. rewrite Htype, Hseed. simpl.
  rewrite !dict_get_set. simpl. rewrite Htype, Hseed.
  unfold Util.upgrade_seed_content, Util.seed_compilation_attributes.
  rewrite upgrade_seed_loop_cons.
  rewrite (upgrade_seed_attr_done "language" _ d); [| | exact Hpop].
  - apply upgrade_seed_loop_done; [exact Hpop |].
    intros a Ha. apply Hgone. simpl. simpl in Ha. tauto.
  - rewrite (dict_set_absent _ _ _ Hlanguage). apply dict_del_appended, Hlanguage.
Qed.

Lemma upgrade_node_settles : settles Util.upgrade_node.
Proof.
  intros v v' st st' Hrun.
  unfold Util.upgrade_node in Hrun.
  apply bind_returned in Hrun as [v1 [st1 [Hcontent Hrun]]].
  unfold Util.upgrade_node_content in Hcontent.
  apply bind_returned in Hcontent as [v0 [st0 [Hrename Hcontent]]].
  destruct (rename_sql_attr_needs_dict _ _ _ _ Hrename) as [d ->].
  rewrite rename_sql_attr_dict in Hrename. injection Hrename as <- <-.
  set (d0 := dict_set "language" (PStr "sql")
               (rename_key "compiled_sql" "compiled_code"
                  (rename_key "raw_sql" "raw_code" d))) in *.
  assert (Hraw0 : dict_get "raw_sql" d0 = None) by (unfold d0; dict_solve).
  assert (Hcompiled0 : dict_get "compiled_sql" d0 = None)
    by (unfold d0; dict_solve).
  assert (Hlanguage0 : dict_get "language" d0 = Some (PStr "sql"))
    by (unfold d0; dict_solve).
  clearbody d0.
  apply bind_returned in Hcontent as [rt [st2 [Htype Hcontent]]].
  unfold getitem in Htype.
  destruct (dict_get "resource_type" d0) as [rt0 |] eqn:Hrt; [| discriminate].
  injection Htype as <- <-.
  destruct (is_str "seed" rt0) eqn:Hseed; simpl in Hcontent.
  - (* a seed *)
    injection Hcontent as <- <-.
    apply bind_returned in Hrun as [rt [st2 [Htype Hrun]]].
    unfold getitem in Htype. rewrite Hrt in Htype. injection Htype as <- <-.
    rewrite Hseed in Hrun.
    apply upgrade_seed_loop_spec in Hrun
      as [-> [d' [-> [_ [Hpop [Hgone [Hkeep Hsame]]]]]]].
    + split; [reflexivity |]. intros st2.
      assert (Hrt' : dict_get "resource_type" d' = Some rt0).
      { rewrite Hsame; [exact Hrt | | discriminate].
        simpl. intuition discriminate. }
      assert (Hpop' : nodes_popped d') by (apply Hpop; discriminate).
      exact (upgrade_node_done_seed d' rt0 st2 (Hkeep _ Hraw0)
               (Hkeep _ Hcompiled0) Hrt' Hseed Hgone Hpop').
    + repeat constructor; discriminate.
  - (* any other node *)
    rewrite del_if_present_dict in Hcontent. injection Hcontent as <- <-.
    apply bind_returned in Hrun as [rt [st2 [Htype Hrun]]].
    unfold getitem in Htype. rewrite dict_get_del in Htype. simpl in Htype.
    rewrite Hrt in Htype. injection Htype as <- <-.
    rewrite Hseed in Hrun. injection Hrun as <- <-.
    split; [reflexivity |]. intros st2.
    apply (upgrade_node_done_other _ rt0); dict_solve.
Qed.

Lemma upgrade_node_needs_dict (v v' : pyval) (st st' : State) :
  Util.upgrade_node v st = (Returned v', st') -> exists d, v = PDict d.
Proof.
  intros Hrun. unfold Util.upgrade_node, Util.upgrade_node_content in Hrun.
  apply bind_returned in Hrun as [v1 [st1 [Hrun _]]].
  apply bind_returned in Hrun as [v0 [st0 [Hrun _]]].
  exact (rename_sql_attr_needs_dict _ _ _ _ Hrun).
Qed.

Lemma for_each_none_returns (f : pyval -> M pyval) (l : list pyval)
    (st st' : State) :
  (forall x v' st0 st1, In x l -> f x st0 <> (Returned v', st1)) ->
  for_each (fun x => let* _ := f x in ret tt) l st = (Returned tt, st') ->
  l = [].
Proof.
  intros Hf Hrun. destruct l as [| x r]; [reflexivity |]. exfalso.
  simpl in Hrun. apply bind_returned in Hrun as [[] [st1 [Hx _]]].
  apply bind_returned in Hx as [v' [st2 [Hx _]]].
  exact (Hf x v' st st2 (or_introl eq_refl) Hx).
Qed.

Lemma upgrade_node_not_on_str (s : string) (v' : pyval) (st st' : State) :
  Util.upgrade_node (PStr s) st <> (Returned v', st').
Proof.
  intros Hrun. apply upgrade_node_needs_dict in Hrun as [d Hd]. discriminate.
Qed.

Lemma for_elements_upgrade_node_settles :
  settles (for_elements Util.upgrade_node).
Proof.
  intros v v' st st' Hrun. destruct v as [| | | s | l | d]; try discriminate.
  - (* the characters of a string *)
    simpl in Hrun. apply bind_returned in Hrun as [[] [st1 [Hloop Hrun]]].
    injection Hrun as <- <-.
    apply for_each_none_returns in Hloop as Hnil.
    + destruct s; [| discriminate]. simpl in Hloop.
      injection Hloop as <-. split; reflexivity.
    + intros x w st0 st2 Hin. clear - Hin.
      induction s as [| c s IH]; simpl in Hin; [destruct Hin |].
      destruct Hin as [<- | Hin]; [apply upgrade_node_not_on_str | auto].
  - (* a list of nodes *)
    simpl in Hrun. apply bind_returned in Hrun as [l' [st1 [Hloop Hrun]]].
    injection Hrun as <- <-.
    apply (map_in_place_settles _ upgrade_node_settles) in Hloop as [-> Hl].
    split; [reflexivity |]. intros st2. simpl. unfold bind. now rewrite Hl.
  - (* the keys of a dict *)
    simpl in Hrun. apply bind_returned in Hrun as [[] [st1 [Hloop Hrun]]].
    injection Hrun as <- <-.
    apply for_each_none_returns in Hloop as Hnil.
    + destruct d; [| discriminate]. simpl in Hloop.
      injection Hloop as <-. split; reflexivity.
    + intros x w st0 st2 Hin. apply in_map_iff in Hin as [k [<- _]].
      apply upgrade_node_not_on_str.
Qed.

(** *** Sources, exposures, macros, docs *)

Lemma del_if_present_settles (k : string) : settles (Util.del_if_present k).
Proof.
  intros v v' st st' Hrun. destruct v as [| | | s | l | d].
  1-3: discriminate.
  - unfold Util.del_if_present in *. run_step. simpl in *.
    destruct (str_contains k s) eqn:Hin; [discriminate |].
    injection Hrun as <- <-. split; [reflexivity |]. intros st2.
    simpl. now rewrite Hin.
  - unfold Util.del_if_present in *. run_step. simpl in *.
    destruct (existsb (is_str k) l) eqn:Hin; [discriminate |].
    injection Hrun as <- <-. split; [reflexivity |]. intros st2.
    simpl. now rewrite Hin.
  - rewrite del_if_present_dict in Hrun. injection Hrun as <- <-.
    split; [reflexivity |]. intros st2. rewrite del_if_present_dict.
    rewrite (dict_del_absent k (dict_del k d)); [reflexivity |].
    now rewrite dict_get_del, String.eqb_refl.
Qed.

Lemma doc_settles :
  settles (fun doc_content =>
             let* doc_content := Util.del_if_present "root_path" doc_content in
             setitem "resource_type" (PStr "doc") doc_content).
Proof.
  intros v v' st st' Hrun.
  apply bind_returned in Hrun as [v1 [st1 [Hdel Hset]]].
  destruct v1 as [| | | | | d1]; try discriminate.
  injection Hset as <- <-.
  apply del_if_present_settles in Hdel as [-> Hdel].
  split; [reflexivity |]. intros st2. unfold bind.
  rewrite del_if_present_dict.
  assert (Hroot : dict_get "root_path" d1 = None).
  { specialize (Hdel st). rewrite del_if_present_dict in Hdel.
    injection Hdel as Hd. rewrite <- Hd.
    now rewrite dict_get_del, String.eqb_refl. }
  rewrite (dict_del_absent "root_path"); [| now rewrite dict_get_set].
  simpl. rewrite (dict_set_same "resource_type" (PStr "doc")); [reflexivity |].
  now rewrite dict_get_set.
Qed.

(** *** Metrics *)

Lemma in_keys_run (k : string) (d : pydict) (st : State) :
  Util.in_keys k (PDict d) st = (Returned (dict_in k d), st).
Proof. unfold Util.in_keys, bind, keys, ret. now rewrite in_keys_dict. Qed.

(** The renaming of a deprecated metric property, as [rename_metric_attr]
    writes it twice. *)
Lemma move_key_run (old new : string) (e : exn) (d : pydict) (st st1 : State)
    (v1 : pyval) :
  (if dict_in old d then
     let* has_new := Util.in_keys new (PDict d) in
     if has_new then raise e
     else
       let* (x, data) := pop old (PDict d) in
       setitem new x data
   else ret (PDict d)) st = (Returned v1, st1) ->
  st1 = st /\ v1 = PDict (rename_key old new d).
Proof.
  unfold rename_key. rewrite dict_in_get.
  destruct (dict_get old d) as [x |] eqn:Hold.
  - intros Hrun. apply bind_returned in Hrun as [has_new [st0 [Hnew Hrun]]].
    rewrite in_keys_run in Hnew. injection Hnew as <- <-.
    destruct (dict_in new d); [discriminate |].
    apply bind_returned in Hrun as [[y data] [st0 [Hpop Hset]]].
    unfold pop in Hpop. rewrite Hold in Hpop. injection Hpop as <- <- <-.
    injection Hset as <- <-. split; reflexivity.
  - intros [= <- <-]. split; reflexivity.
Qed.

Lemma bind_run {A B : Type} (m : M A) (f : A -> M B) (st st1 : State) (a : A) :
  m st = (Returned a, st1) -> bind m f st = f a st1.
Proof. intros H. unfold bind. now rewrite H. Qed.

Section metrics.
Variable deprecations_warn : string -> pyval -> M unit.

Lemma rename_metric_attr_done (d : pydict) (metric_name : pyval) (st : State) :
  dict_get "name" d = Some metric_name ->
  dict_get "sql" d = None ->
  dict_get "type" d = None ->
  is_str "expression" (default PNone (dict_get "calculation_method" d)) = false ->
  Util.rename_metric_attr deprecations_warn (PDict d) false st
  = (Returned (PDict d), st).
Proof.
  intros Hname Hsql Htype Hmethod.
  assert (Hsql' : dict_in "sql" d = false) by now rewrite dict_in_get, Hsql.
  assert (Htype' : dict_in "type" d = false) by now rewrite dict_in_get, Htype.
  unfold Util.rename_metric_attr.
  erewrite bind_run by (unfold getitem; rewrite Hname; reflexivity).
  cbv beta. erewrite bind_run by reflexivity.
  cbv beta. erewrite bind_run by apply in_keys_run.
  cbv beta. rewrite Hsql'. erewrite bind_run by reflexivity.
  cbv beta. erewrite bind_run by apply in_keys_run.
  cbv beta. rewrite Htype'. erewrite bind_run by reflexivity.
  cbv beta. erewrite bind_run by reflexivity.
  cbv beta. now rewrite Hmethod.
Qed.

Lemma rename_metric_attr_spec (v v1 : pyval) (st st1 : State) :
  Util.rename_metric_attr deprecations_warn v false st = (Returned v1, st1) ->
  st1 = st
  /\ exists (d1 : pydict) (metric_name : pyval),
       v1 = PDict d1
       /\ dict_get "name" d1 = Some metric_name
       /\ dict_get "sql" d1 = None
       /\ dict_get "type" d1 = None
       /\ is_str "expression"
            (default PNone (dict_get "calculation_method" d1)) = false.
Proof.
  intros Hrun. destruct v as [| | | | | d]; try discriminate.
  unfold Util.rename_metric_attr in Hrun.
  apply bind_returned in Hrun as [metric_name [st0 [Hname Hrun]]].
  unfold getitem in Hname.
  destruct (dict_get "name" d) as [name |] eqn:Hd; [| discriminate].
  injection Hname as <- <-.
  apply bind_returned in Hrun as [[] [st0 [Hwarn Hrun]]].
  injection Hwarn as <-.
  apply bind_returned in Hrun as [has_sql [st0 [Hsql Hrun]]].
  rewrite in_keys_run in Hsql. injection Hsql as <- <-.
  apply bind_returned in Hrun as [v2 [st0 [Hmove Hrun]]].
  apply move_key_run in Hmove as [-> ->].
  apply bind_returned in Hrun as [has_type [st0 [Htype Hrun]]].
  rewrite in_keys_run in Htype. injection Htype as <- <-.
  apply bind_returned in Hrun as [v3 [st0 [Hmove Hrun]]].
  apply move_key_run in Hmove as [-> ->].
  apply bind_returned in Hrun as [cm [st0 [Hget Hrun]]].
  injection Hget as <- <-.
  destruct (is_str "expression" _) eqn:Hmethod; injection Hrun as <- <-;
    (split; [reflexivity |]); eexists; exists name;
    (split; [reflexivity |]); repeat split; try exact Hmethod; dict_solve.
Qed.

Lemma metric_settles :
  settles (fun metric_content =>
             let* metric_content :=
               Util.rename_metric_attr deprecations_warn metric_content false in
             Util.del_if_present "root_path" metric_content).
Proof.
  intros v v' st st' Hrun.
  apply bind_returned in Hrun as [v1 [st1 [Hrename Hdel]]].
  apply rename_metric_attr_spec in Hrename
    as [-> [d1 [metric_name [-> [Hname [Hsql [Htype Hmethod]]]]]]].
  rewrite del_if_present_dict in Hdel. injection Hdel as <- <-.
  split; [reflexivity |]. intros st2. unfold bind.
  rewrite (rename_metric_attr_done _ metric_name).
  - rewrite del_if_present_dict.
    rewrite (dict_del_absent "root_path" (dict_del _ _)); [reflexivity |].
    now rewrite dict_get_del, String.eqb_refl.
  - now rewrite dict_get_del.
  - now rewrite dict_get_del.
  - now rewrite dict_get_del.
  - now rewrite dict_get_del.
Qed.
End metrics.

(** *** Sections of the manifest *)

Lemma for_values_settles (body : pyval -> M pyval) :
  settles body -> settles (for_values body).
Proof.
  intros Hbody v v' st st' Hrun. destruct v as [| | | | | d]; try discriminate.
  simpl in Hrun. apply bind_returned in Hrun as [d' [st1 [Hloop Hrun]]].
  injection Hrun as <- <-.
  apply map_in_place_settles in Hloop as [-> Hd'].
  - split; [reflexivity |]. intros st2. simpl. unfold bind. now rewrite Hd'.
  - intros [k x] [k' x'] st0 st1' Hx. simpl in Hx.
    apply bind_returned in Hx as [y [st2 [Hy Hx]]].
    injection Hx as <- <- <-. apply Hbody in Hy as [-> Hy].
    split; [reflexivity |]. intros st3. simpl. unfold bind. now rewrite Hy.
Qed.

Lemma upgrade_section_done (k : string) (body : pyval -> M pyval) (d : pydict)
    (st : State) :
  section_done k body d ->
  Util.upgrade_section k body (PDict d) st = (Returned (PDict d), st).
Proof.
  unfold section_done, Util.upgrade_section, bind, get, write_back, ret.
  rewrite dict_in_get.
  destruct (dict_get k d) as [contents |] eqn:Hk; simpl.
  - intros Hdone. rewrite Hdone. now rewrite (dict_set_same _ _ _ Hk).
  - reflexivity.
Qed.

Lemma upgrade_section_spec (k : string) (body : pyval -> M pyval)
    (m m' : pyval) (st st' : State) :
  settles body ->
  Util.upgrade_section k body m st = (Returned m', st') ->
  st' = st
  /\ exists d d' : pydict,
       m = PDict d /\ m' = PDict d'
       /\ section_done k body d'
       /\ (forall k', k' <> k -> dict_get k' d' = dict_get k' d).
Proof.
  intros Hbody Hrun. unfold Util.upgrade_section in Hrun.
  apply bind_returned in Hrun as [contents [st1 [Hget Hrun]]].
  destruct m as [| | | | | d]; try discriminate.
  injection Hget as <- <-.
  apply bind_returned in Hrun as [contents' [st1 [Hloop Hrun]]].
  apply (for_values_settles body Hbody) in Hloop as [-> Hdone].
  injection Hrun as <- <-. split; [reflexivity |].
  exists d. unfold write_back, section_done. rewrite dict_in_get.
  destruct (dict_get k d) as [contents |] eqn:Hk.
  - eexists. split; [reflexivity |]. split; [reflexivity |]. split.
    + rewrite dict_get_set, String.eqb_refl. exact Hdone.
    + intros k' Hne. rewrite dict_get_set.
      apply not_eq_sym, String.eqb_neq in Hne. now rewrite Hne.
  - exists d. split; [reflexivity |]. split; [reflexivity |].
    rewrite Hk. split; [exact I | reflexivity].
Qed.

Lemma upgrade_sections_cons (k : string) (body : pyval -> M pyval)
    (rest : list (string * (pyval -> M pyval))) (manifest : pyval) (st : State) :
  upgrade_sections ((k, body) :: rest) manifest st
  = match Util.upgrade_section k body manifest st with
    | (Returned manifest', st') => upgrade_sections rest manifest' st'
    | (Raised e, st') => (Raised e, st')
    end.
Proof.
  destruct rest as [| [k' body'] rest]; [| reflexivity].
  simpl. destruct (Util.upgrade_section k body manifest st) as [[] ?];
    reflexivity.
Qed.

Lemma upgrade_sections_done (sections : list (string * (pyval -> M pyval)))
    (d : pydict) (st : State) :
  Forall (fun kb => section_done (fst kb) (snd kb) d) sections ->
  upgrade_sections sections (PDict d) st = (Returned (PDict d), st).
Proof.
  induction 1 as [| [k body] rest Hk _ IH]; [reflexivity |].
  rewrite upgrade_sections_cons, (upgrade_section_done k body d st Hk).
  exact IH.
Qed.

Lemma upgrade_sections_spec (sections : list (string * (pyval -> M pyval))) :
  NoDup (map fst sections) ->
  Forall (fun kb => settles (snd kb)) sections ->
  forall (m m' : pyval) (st st' : State),
    upgrade_sections sections m st = (Returned m', st') ->
    st' = st
    /\ (sections = [] /\ m' = m
        \/ exists d d' : pydict,
             m = PDict d /\ m' = PDict d'
             /\ Forall (fun kb => section_done (fst kb) (snd kb) d') sections
             /\ (forall k', ~ In k' (map fst sections) ->
                            dict_get k' d' = dict_get k' d)).
Proof.
  induction sections as [| [k body] rest IH]; intros Hkeys Hsettle m m' st st' Hrun.
  - injection Hrun as <- <-. split; [reflexivity |]. left. split; reflexivity.
  - rewrite upgrade_sections_cons in Hrun.
    destruct (Util.upgrade_section k body m st) as [[m1 | e] st1] eqn:Hsection;
      [| discriminate].
    apply NoDup_cons in Hkeys as [Hk Hkeys].
    apply Forall_cons in Hsettle as [Hbody Hsettle].
    apply upgrade_section_spec in Hsection
      as [-> [d [d1 [-> [-> [Hdone Hsame]]]]]]; [| exact Hbody].
    apply IH in Hrun as [-> Hrest]; [| exact Hkeys | exact Hsettle].
    split; [reflexivity |]. right. exists d.
    destruct Hrest as [[-> ->] | [d1' [d' [Heq [-> [Hall Hsame']]]]]].
    + exists d1. split; [reflexivity |]. split; [reflexivity |]. split.
      * constructor; [exact Hdone | constructor].
      * intros k' Hk'. apply Hsame. intros ->. apply Hk'. now left.
    + injection Heq as <-. exists d'.
      split; [reflexivity |]. split; [reflexivity |]. split.
      * constructor; [| exact Hall]. unfold section_done in *. simpl.
        rewrite Hsame'; [exact Hdone |].
        intros Hin. apply Hk. apply list_elem_of_In. exact Hin.
      * intros k' Hk'. rewrite Hsame'.
        -- apply Hsame. intros ->. apply Hk'. now left.
        -- intros Hin. apply Hk'. now right.
Qed.

Section manifest.
Variable deprecations_warn : string -> pyval -> M unit.

Lemma upgrade_manifest_json_sections (manifest : pyval) :
  Util.upgrade_manifest_json deprecations_warn manifest
  = upgrade_sections (manifest_sections deprecations_warn) manifest.
Proof. reflexivity. Qed.

(** C8.  When [upgrade_manifest_json] returns on a manifest, it has fired
    no event, and run again on its own output, in any state, it returns
    that output unchanged, key order included; in particular it does not
    raise on data it has already upgraded.  The manifest is a tree, as
    [json.load] builds it: no dict is reachable twice. *)
Theorem upgrade_manifest_json_idempotent (manifest upgraded : pyval)
    (st st' : State)
    (Hrun : Util.upgrade_manifest_json deprecations_warn manifest st
            = (Returned upgraded, st')) :
  st' = st
  /\ forall st2 : State,
       Util.upgrade_manifest_json deprecations_warn upgraded st2
       = (Returned upgraded, st2).
Proof.
  rewrite upgrade_manifest_json_sections in Hrun.
  apply upgrade_sections_spec in Hrun as [-> Hdone].
  - split; [reflexivity |]. intros st2.
    destruct Hdone as [[Hnil _] | [d [d' [-> [-> [Hall _]]]]]];
      [discriminate |].
    rewrite upgrade_manifest_json_sections.
    apply upgrade_sections_done, Hall.
  - simpl. repeat constructor; simpl; rewrite ?elem_of_cons, ?elem_of_nil;
      intuition discriminate.
  - constructor; [exact upgrade_node_settles |].
    constructor; [exact for_elements_upgrade_node_settles |].
    constructor; [exact (metric_settles deprecations_warn) |].
    constructor; [exact (del_if_present_settles "root_path") |].
    constructor; [exact (del_if_present_settles "root_path") |].
    constructor; [exact (del_if_present_settles "root_path") |].
    constructor; [exact doc_settles | constructor].
Qed.
End manifest.

Lemma upgrade_manifest_json_idempotent_witness :
  Util.upgrade_manifest_json SampleManifest.no_deprecation
    (SampleManifest.upgraded 7) Sample.start
  = (Returned (SampleManifest.upgraded 7), Sample.start).
Proof.
  apply (upgrade_manifest_json_idempotent SampleManifest.no_deprecation
           (SampleManifest.written_by_1_2 7) (SampleManifest.upgraded 7)
           Sample.start Sample.start).
  vm_compute. reflexivity.
Defined.

(** ** Schema versions *)

Lemma split_not_nil (c : ascii) (s : string) : Util.split c s <> [].
Proof.
  destruct s as [| a s]; simpl; [discriminate |].
  destruct (Ascii.eqb a c); [discriminate |].
  destruct (Util.split c s); discriminate.
Qed.

Lemma split_app_sep (c : ascii) (a b : string) :
  Util.split c (a +:+ String c b) = Util.split c a ++ Util.split c b.
Proof.
  induction a as [| x a IH].
  - change ("" +:+ String c b) with (String c b). simpl.
    now rewrite Ascii.eqb_refl.
  - rewrite str_app_cons. simpl. rewrite IH.
    destruct (Ascii.eqb x c); [reflexivity |].
    pose proof (split_not_nil c a) as Hne.
    destruct (Util.split c a) as [| h t]; [contradiction | reflexivity].
Qed.

Lemma rev_lookup_0_last {A : Type} (l : list A) : rev l !! 0%nat = last l.
Proof.
  induction l as [| x l IH]; [reflexivity |].
  simpl. destruct l as [| y l]; [reflexivity |].
  rewrite lookup_app_l.
  - exact IH.
  - rewrite length_rev. simpl. lia.
Qed.

Lemma from_end_2_snoc {A : Type} (l : list A) (x : A) :
  Util.from_end 2 (l ++ [x]) = last l.
Proof.
  unfold Util.from_end. rewrite rev_unit. simpl. apply rev_lookup_0_last.
Qed.

(** The last piece of a split text keeps whatever follows without a
    separator. *)
Lemma split_last_app (c : ascii) (q r : string) :
  Util.split c r = [r] ->
  exists seg : string, last (Util.split c (q +:+ r)) = Some (seg +:+ r).
Proof.
  intros Hr. induction q as [| x q [seg IH]].
  - exists "". change ("" +:+ r) with r. now rewrite Hr.
  - rewrite str_app_cons. simpl.
    pose proof (split_not_nil c (q +:+ r)) as Hne.
    destruct (Ascii.eqb x c).
    + exists seg. destruct (Util.split c (q +:+ r)); [contradiction | exact IH].
    + destruct (Util.split c (q +:+ r)) as [| h [| h' t]]; [contradiction | |].
      * injection IH as ->. exists (String x seg). reflexivity.
      * exists seg. exact IH.
Qed.

Lemma last_char_cons (x : ascii) (r : string) :
  r <> "" -> Util.last_char (String x r) = Util.last_char r.
Proof. destruct r; [contradiction | reflexivity]. Qed.

Lemma last_char_app (q r : string) :
  r <> "" -> Util.last_char (q +:+ r) = Util.last_char r.
Proof.
  intros Hr. induction q as [| x q IH]; [reflexivity |].
  rewrite str_app_cons, last_char_cons; [exact IH |].
  destruct q; [exact Hr | discriminate].
Qed.

Lemma pretty_N_char_not_dot (d : N) : Ascii.eqb (pretty_N_char d) Util.dot = false.
Proof. unfold pretty_N_char. repeat case_match; reflexivity. Qed.

(** Digits are put in front of [s]: what [s] ends with and the absence of
    dots are kept. *)
Lemma pretty_N_go_tail (x : N) (s : string) :
  s <> "" ->
  Util.split Util.dot s = [s] ->
  Util.last_char (pretty_N_go x s) = Util.last_char s
  /\ Util.split Util.dot (pretty_N_go x s) = [pretty_N_go x s]
  /\ pretty_N_go x s <> "".
Proof.
  revert s. induction (N.lt_wf_0 x) as [x _ IH]. intros s Hs Hsplit.
  assert (x = 0 \/ 0 < x)%N as [-> | Hpos] by lia.
  - rewrite pretty_N_go_0. auto.
  - rewrite pretty_N_go_step by exact Hpos.
    destruct (IH (x `div` 10)%N (N.div_lt x 10 Hpos eq_refl)
                 (String (pretty_N_char (x `mod` 10)) s)) as [Hlast [Hsp Hne]].
    + discriminate.
    + simpl. rewrite pretty_N_char_not_dot, Hsplit. reflexivity.
    + rewrite Hlast, last_char_cons by exact Hs. auto.
Qed.

Lemma pretty_N_tail (v : N) :
  Util.last_char (pretty v) = Some (pretty_N_char (v `mod` 10))
  /\ Util.split Util.dot (pretty v) = [pretty v]
  /\ pretty v <> "".
Proof.
  unfold pretty, pretty_N. destruct (decide (v = 0%N)) as [-> | Hv].
  - repeat split; discriminate.
  - rewrite pretty_N_go_step by lia.
    destruct (pretty_N_go_tail (v `div` 10)%N
                (String (pretty_N_char (v `mod` 10)) ""))
      as [Hlast [Hsp Hne]].
    + discriminate.
    + simpl. now rewrite pretty_N_char_not_dot.
    + rewrite Hlast. auto.
Qed.

Lemma pretty_Z_of_N (v : N) : pretty (Z.of_N v) = pretty v.
Proof. destruct v; reflexivity. Qed.

Lemma int_of_char_digit (d : N) :
  (d < 10)%N -> Util.int_of_char (pretty_N_char d) = Some (Z.of_N d).
Proof.
  intros Hd.
  assert (d = 0 \/ d = 1 \/ d = 2 \/ d = 3 \/ d = 4 \/ d = 5 \/ d = 6
          \/ d = 7 \/ d = 8 \/ d = 9)%N as H by lia.
  repeat destruct H as [-> | H]; try subst d; reflexivity.
Qed.

(** What [split(".")[-2][-1]] finds in a schema version URL: the last
    digit of the version. *)
Lemma version_url_last_char (name : string) (v : N) :
  exists part : string,
    Util.from_end 2
      (Util.split Util.dot
         (SchemaVersion.str
            {| SchemaVersion.name := name;
               SchemaVersion.version := Z.of_N v |})) = Some part
    /\ Util.last_char part = Some (pretty_N_char (v `mod` 10)).
Proof.
  unfold SchemaVersion.str, SchemaVersion.path, SchemaVersion.BASE_SCHEMAS_URL.
  simpl SchemaVersion.name. simpl SchemaVersion.version.
  rewrite pretty_Z_of_N.
  destruct (pretty_N_tail v) as [Hlast [Hsp Hne]].
  set (digits := pretty v) in *.
  replace ("https://schemas.getdbt.com/"
           +:+ "dbt/" +:+ name +:+ "/v" +:+ digits +:+ ".json")
    with (("https://schemas.getdbt.com/dbt/" +:+ name +:+ "/v" +:+ digits)
          +:+ String Util.dot "json").
  2:{ rewrite !str_app_assoc. reflexivity. }
  rewrite split_app_sep.
  change (Util.split Util.dot "json") with ["json"].
  rewrite from_end_2_snoc.
  destruct (split_last_app Util.dot ("https://schemas.getdbt.com/dbt/" +:+ name)
              ("/v" +:+ digits)) as [seg Hseg].
  { change ("/v" +:+ digits) with (String "/" (String "v" digits)).
    simpl. now rewrite Hsp. }
  rewrite str_app_assoc in Hseg. exists (seg +:+ "/v" +:+ digits).
  split; [exact Hseg |].
  rewrite <- Hlast. rewrite <- str_app_assoc. apply last_char_app, Hne.
Qed.

Lemma version_url_truthy (sv : SchemaVersion.t) :
  truthy (PStr (SchemaVersion.str sv)) = true.
Proof. reflexivity. Qed.

(** [get_manifest_schema_version] returns the last decimal digit of the
    version in the URL. *)
Lemma get_manifest_schema_version_last_digit (name : string) (v : N)
    (dct metadata : pydict) (st : State) :
  dict_get "metadata" dct = Some (PDict metadata) ->
  dict_get "dbt_schema_version" metadata
  = Some (PStr (SchemaVersion.str
                  {| SchemaVersion.name := name;
                     SchemaVersion.version := Z.of_N v |})) ->
  Util.get_manifest_schema_version (PDict dct) st
  = (Returned (Z.of_N (v `mod` 10)), st).
Proof.
  intros Hmeta Hversion. unfold Util.get_manifest_schema_version.
  erewrite bind_run by (unfold get; rewrite Hmeta; simpl; reflexivity).
  cbv beta.
  erewrite bind_run by (unfold get; rewrite Hversion; simpl; reflexivity).
  cbv beta. rewrite version_url_truthy.
  destruct (version_url_last_char name v) as [part [Hpart Hlast]].
  cbn [negb]. cbv iota. rewrite Hpart, Hlast.
  rewrite int_of_char_digit; [reflexivity |].
  apply N.mod_lt. discriminate.
Qed.

(** C2.  For a stored [dbt_schema_version] of the documented form that the
    class accepts, [get_manifest_schema_version] returns the last decimal
    digit of the version, not the version, and [read_and_check_versions]
    runs the manifest upgrade before [from_dict] exactly when that digit
    is at most 7.  The two agree with the version for versions 0 to 9
    only: a version 10 manifest is parsed as 0 and upgraded. *)
Theorem read_and_check_versions_last_digit (A : Type)
    (deprecations_warn : string -> pyval -> M unit)
    (read_json : string -> M pyval)
    (from_dict : VersionedSchema.cls -> pyval -> M A)
    (c : VersionedSchema.cls) (path name : string) (v : N)
    (dct metadata : pydict) (st st1 : State)
    (Hread : read_json path st = (Returned (PDict dct), st1))
    (Hmeta : dict_get "metadata" dct = Some (PDict metadata))
    (Hversion :
       dict_get "dbt_schema_version" metadata
       = Some (PStr (SchemaVersion.str
                       {| SchemaVersion.name := name;
                          SchemaVersion.version := Z.of_N v |})))
    (Hcompatible :
       match VersionedSchema.dbt_schema_version c with
       | Some current =>
           VersionedSchema.is_compatible_version c current
             (PStr (SchemaVersion.str
                      {| SchemaVersion.name := name;
                         SchemaVersion.version := Z.of_N v |})) = true
       | None => True
       end) :
  Util.get_manifest_schema_version (PDict dct) st1
  = (Returned (Z.of_N (v `mod` 10)), st1)
  /\ VersionedSchema.read_and_check_versions A deprecations_warn read_json
       from_dict c path st
     = (if (v `mod` 10 <=? 7)%N
        then
          (let* data := Util.upgrade_manifest_json deprecations_warn (PDict dct) in
           from_dict c data) st1
        else from_dict c (PDict dct) st1).
Proof.
  pose proof (get_manifest_schema_version_last_digit name v dct metadata st1
                Hmeta Hversion) as Hparse.
  split; [exact Hparse |].
  unfold VersionedSchema.read_and_check_versions.
  erewrite bind_run by (rewrite Hread; reflexivity).
  cbv beta.
  erewrite (bind_run _ _ st1 st1 tt).
  - cbv beta. erewrite bind_run by exact Hparse. cbv beta.
    replace (Z.of_N (v `mod` 10) <=? 7)%Z with (v `mod` 10 <=? 7)%N.
    + destruct (v `mod` 10 <=? 7)%N; [reflexivity |].
      unfold bind, ret. reflexivity.
    + destruct (N.leb_spec (v `mod` 10) 7); symmetry;
        [apply Z.leb_le | apply Z.leb_gt]; lia.
  - destruct (VersionedSchema.dbt_schema_version c) as [current |];
      [| reflexivity].
    erewrite bind_run
      by (unfold contains; rewrite dict_in_get, Hmeta; reflexivity).
    cbv beta.
    erewrite bind_run.
    2:{ cbv iota. erewrite bind_run by (unfold getitem; rewrite Hmeta; reflexivity).
        cbv beta. unfold contains. rewrite dict_in_get, Hversion. reflexivity. }
    cbv beta iota.
    erewrite bind_run by (unfold getitem; rewrite Hmeta; reflexivity).
    cbv beta.
    erewrite bind_run by (unfold getitem; rewrite Hversion; reflexivity).
    cbv beta. rewrite Hcompatible. reflexivity.
Qed.

Lemma read_and_check_versions_last_digit_witness :
  Util.get_manifest_schema_version (SampleManifest.written_by_1_2 10)
    Sample.start
  = (Returned 0%Z, Sample.start)
  /\ VersionedSchema.read_and_check_versions pyval
       SampleManifest.no_deprecation
       (fun path => ret (SampleManifest.written_by_1_2 10))
       (fun c data => ret data)
       (SampleManifest.manifest_class 10) "target/manifest.json" Sample.start
     = (Returned (SampleManifest.upgraded 10), Sample.start).
Proof.
  destruct (read_and_check_versions_last_digit pyval
              SampleManifest.no_deprecation
              (fun path => ret (SampleManifest.written_by_1_2 10))
              (fun c data => ret data)
              (SampleManifest.manifest_class 10) "target/manifest.json" "manifest" 10%N
              _ _ Sample.start Sample.start eq_refl eq_refl eq_refl)
    as [Hparse Hread].
  - vm_compute. reflexivity.
  - split; [exact Hparse |]. rewrite Hread. vm_compute. reflexivity.
Defined.

(** * Further properties of the code *)

(** ** Dependency lists *)

Lemma mem_elem_of (value : string) (l : list string) :
  DependsOn.mem value l = true <-> In value l.
Proof.
  unfold DependsOn.mem. rewrite existsb_exists. split.
  - intros [x [Hin Heq]]. apply String.eqb_eq in Heq. now subst.
  - intros Hin. exists value. split; [exact Hin | apply String.eqb_refl].
Qed.

(** X1.  Recording dependencies with [add_node], one call after the
    other, only ever appends: the entries already there stay in place, each
    value that was missing is added once, and the macro list is not
    touched; so a list without duplicates stays without duplicates.
    [add_macro] keeps the node list in the same way. *)
Theorem add_node_appends_new_once (values : list string) (self : DependsOn.t) :
  let after := foldl (fun self value => DependsOn.add_node value self) self values in
  DependsOn.macros after = DependsOn.macros self
  /\ (exists added : list string,
        DependsOn.nodes after = DependsOn.nodes self ++ added
        /\ List.NoDup added
        /\ (forall x, In x added <->
                      In x values /\ ~ In x (DependsOn.nodes self)))
  /\ (List.NoDup (DependsOn.nodes self) -> List.NoDup (DependsOn.nodes after))
  /\ (forall value : string,
        DependsOn.nodes (DependsOn.add_macro value self) = DependsOn.nodes self
        /\ In value (DependsOn.macros (DependsOn.add_macro value self))
        /\ DependsOn.add_macro value (DependsOn.add_macro value self)
           = DependsOn.add_macro value self).
Proof.
  cbv zeta.
  assert (Hmain : forall values self,
            DependsOn.macros
              (foldl (fun self value => DependsOn.add_node value self) self values)
            = DependsOn.macros self
            /\ exists added : list string,
                 DependsOn.nodes
                   (foldl (fun self value => DependsOn.add_node value self)
                      self values)
                 = DependsOn.nodes self ++ added
                 /\ List.NoDup added
                 /\ (forall x, In x added <->
                               In x values /\ ~ In x (DependsOn.nodes self))).
  { clear. intros values.
    induction values as [| v values IH]; intros self; simpl.
    - split; [reflexivity |]. exists []. rewrite app_nil_r.
      split; [reflexivity |]. split; [constructor |]. simpl. tauto.
    - destruct (IH (DependsOn.add_node v self)) as [Hm [added [Hn [Hnd Hin]]]].
      unfold DependsOn.add_node in *.
      destruct (DependsOn.mem v (DependsOn.nodes self)) eqn:Hv; simpl in *.
      + apply mem_elem_of in Hv. split; [exact Hm |]. exists added.
        split; [exact Hn |]. split; [exact Hnd |].
        intros x. rewrite Hin. split; [tauto |].
        intros [[-> | Hx] Hnot]; [contradiction | tauto].
      + assert (Hnv : ~ In v (DependsOn.nodes self)).
        { intros Hc. apply mem_elem_of in Hc. congruence. }
        split; [exact Hm |]. exists (v :: added).
        split; [now rewrite Hn, <- app_assoc |].
        assert (Hva : ~ In v added).
        { intros Hc. apply Hin in Hc as [_ Hc]. apply Hc.
          apply in_or_app. right. now left. }
        split; [constructor; assumption |].
        intros x. simpl. rewrite Hin. rewrite in_app_iff. simpl.
        destruct (String.eqb_spec v x) as [-> | Hne]; [tauto |].
        split.
        * intros [Hc | [Hx Hnot]]; [contradiction | tauto].
        * intros [[Hc | Hx] Hnot]; [contradiction |]. right. tauto. }
  destruct (Hmain values self) as [Hm [added [Hn [Hnd Hin]]]].
  split; [exact Hm |]. split; [exists added; auto |]. split.
  - intros Hnodup. rewrite Hn.
    apply List.NoDup_app; [exact Hnodup | exact Hnd |].
    intros x Hx Hadded. apply Hin in Hadded. tauto.
  - intros value. unfold DependsOn.add_macro.
    destruct (DependsOn.mem value (DependsOn.macros self)) eqn:Hv; simpl.
    + rewrite Hv. simpl. split; [reflexivity |].
      split; [now apply mem_elem_of | reflexivity].
    + split; [reflexivity |].
      assert (Hin' : In value (DependsOn.macros self ++ [value])).
      { apply in_or_app. right. now left. }
      split; [exact Hin' |].
      apply mem_elem_of in Hin'. now rewrite Hin'.
Qed.

Lemma add_node_appends_new_once_witness :
  List.NoDup
    (DependsOn.nodes
       (foldl (fun self value => DependsOn.add_node value self)
          {| DependsOn.macros := [];
             DependsOn.nodes := ["model.taxi_rides_ny.stg_green_tripdata"] |}
          ["seed.taxi_rides_ny.taxi_zone_lookup";
           "model.taxi_rides_ny.stg_green_tripdata";
           "seed.taxi_rides_ny.taxi_zone_lookup"])).
Proof.
  apply (add_node_appends_new_once
           ["seed.taxi_rides_ny.taxi_zone_lookup";
            "model.taxi_rides_ny.stg_green_tripdata";
            "seed.taxi_rides_ny.taxi_zone_lookup"]
           {| DependsOn.macros := [];
              DependsOn.nodes := ["model.taxi_rides_ny.stg_green_tripdata"] |}).
  simpl. constructor; [intros [] | constructor].
Defined.

(** ** Injected CTEs *)

(** X2.  [set_cte] does what the assignment [extra_ctes[cte_id] = sql]
    would do on an ordered dict: read as a mapping from id to text, the
    new list is the old mapping with [cte_id] set; so the id is then bound
    to the new text, every other id keeps its text, and the list grows by
    one entry exactly when the id was not bound before. *)
Theorem set_cte_is_ordered_dict_assignment (cte_id sql : string)
    (extra_ctes : list InjectedCTE.t) :
  CompiledNode.as_mapping (CompiledNode.set_cte cte_id sql extra_ctes)
  = dict_set cte_id sql (CompiledNode.as_mapping extra_ctes)
  /\ dict_get cte_id
       (CompiledNode.as_mapping (CompiledNode.set_cte cte_id sql extra_ctes))
     = Some sql
  /\ (forall other : string,
        other <> cte_id ->
        dict_get other
          (CompiledNode.as_mapping (CompiledNode.set_cte cte_id sql extra_ctes))
        = dict_get other (CompiledNode.as_mapping extra_ctes))
  /\ length (CompiledNode.set_cte cte_id sql extra_ctes)
     = (if dict_in cte_id (CompiledNode.as_mapping extra_ctes)
        then length extra_ctes else S (length extra_ctes)).
Proof.
  assert (Hmap : CompiledNode.as_mapping (CompiledNode.set_cte cte_id sql extra_ctes)
                 = dict_set cte_id sql (CompiledNode.as_mapping extra_ctes)).
  { induction extra_ctes as [| cte rest IH]; simpl; [reflexivity |].
    destruct (String.eqb (InjectedCTE.id cte) cte_id); simpl;
      [reflexivity | now rewrite IH]. }
  split; [exact Hmap |]. rewrite Hmap. split; [| split].
  - now rewrite dict_get_set, String.eqb_refl.
  - intros other Hne. rewrite dict_get_set.
    apply not_eq_sym, String.eqb_neq in Hne. now rewrite Hne.
  - clear Hmap. rewrite dict_in_get.
    induction extra_ctes as [| cte rest IH]; simpl; [reflexivity |].
    destruct (String.eqb (InjectedCTE.id cte) cte_id); simpl; [reflexivity |].
    rewrite IH. now destruct (dict_get cte_id (CompiledNode.as_mapping rest)).
Qed.

Lemma set_cte_is_ordered_dict_assignment_witness :
  dict_get "__dbt__cte__dim_zones"
    (CompiledNode.as_mapping
       (CompiledNode.set_cte "__dbt__cte__stg_trips" "select 2"
          [{| InjectedCTE.id := "__dbt__cte__stg_trips";
              InjectedCTE.sql := "select 1" |};
           {| InjectedCTE.id := "__dbt__cte__dim_zones";
              InjectedCTE.sql := "select * from zones" |}]))
  = dict_get "__dbt__cte__dim_zones"
      (CompiledNode.as_mapping
         [{| InjectedCTE.id := "__dbt__cte__stg_trips";
             InjectedCTE.sql := "select 1" |};
          {| InjectedCTE.id := "__dbt__cte__dim_zones";
             InjectedCTE.sql := "select * from zones" |}]).
Proof.
  apply (set_cte_is_ordered_dict_assignment "__dbt__cte__stg_trips" "select 2"
           [{| InjectedCTE.id := "__dbt__cte__stg_trips";
               InjectedCTE.sql := "select 1" |};
            {| InjectedCTE.id := "__dbt__cte__dim_zones";
               InjectedCTE.sql := "select * from zones" |}]).
  discriminate.
Defined.

(** ** Serialized nodes *)

Lemma delitem_dict (k : string) (d : pydict) (st : State) :
  delitem k (PDict d) st
  = if dict_in k d then (Returned (PDict (dict_del k d)), st)
    else (Raised (KeyError k), st).
Proof. unfold delitem. now destruct (dict_in k d). Qed.

Lemma post_serialize_run (base : pyval -> M pyval) (dct : pyval) (d0 : pydict)
    (st st1 : State) :
  base dct st = (Returned (PDict d0), st1) ->
  CompiledNode.__post_serialize__ base dct st
  = let d1 := dict_del "_pre_injected_sql" (dict_del "_event_status" d0) in
    if CompiledNode.is_False (default PNone (dict_get "compiled" d0)) then
      if dict_in "extra_ctes_injected" d0 then
        if dict_in "extra_ctes" d0 then
          (Returned
             (PDict (dict_del "compiled_code"
                       (dict_del "extra_ctes"
                          (dict_del "extra_ctes_injected"
                             (dict_del "compiled" d1))))), st1)
        else (Raised (KeyError "extra_ctes"), st1)
      else (Raised (KeyError "extra_ctes_injected"), st1)
    else (Returned (PDict d1), st1).
Proof.
  intros Hbase. cbv zeta.
  unfold CompiledNode.__post_serialize__, CompiledNode.ParsedNode__post_serialize__.
  erewrite bind_run.
  2:{ erewrite bind_run by exact Hbase. cbv beta. apply del_if_present_dict. }
  cbv beta. erewrite bind_run by apply del_if_present_dict.
  cbv beta. erewrite bind_run by reflexivity. cbv beta.
  set (d1 := dict_del "_pre_injected_sql" (dict_del "_event_status" d0)).
  assert (Hc : dict_get "compiled" d1 = dict_get "compiled" d0).
  { unfold d1. now rewrite !dict_get_del. }
  assert (Hi : dict_in "extra_ctes_injected" (dict_del "compiled" d1)
               = dict_in "extra_ctes_injected" d0).
  { unfold d1. now rewrite !dict_in_get, !dict_get_del. }
  assert (He : dict_in "extra_ctes"
                 (dict_del "extra_ctes_injected" (dict_del "compiled" d1))
               = dict_in "extra_ctes" d0).
  { unfold d1. now rewrite !dict_in_get, !dict_get_del. }
  rewrite dict_in_get, Hc.
  destruct (dict_get "compiled" d0) as [compiled |] eqn:Hcompiled.
  - erewrite bind_run.
    2:{ erewrite bind_run by (unfold getitem; rewrite Hc; reflexivity).
        reflexivity. }
    cbv beta. simpl default.
    destruct (CompiledNode.is_False compiled); [| reflexivity].
    assert (Hin : dict_in "compiled" d1 = true)
      by now rewrite dict_in_get, Hc.
    unfold bind at 1. rewrite delitem_dict, Hin.
    unfold bind at 1. rewrite delitem_dict, Hi.
    destruct (dict_in "extra_ctes_injected" d0); [| reflexivity].
    unfold bind at 1. rewrite delitem_dict, He.
    destruct (dict_in "extra_ctes" d0); [| reflexivity].
    apply del_if_present_dict.
  - erewrite bind_run by reflexivity. reflexivity.
Qed.

(** X3.  Serializing a compiled node drops the two private attributes
    [_event_status] and [_pre_injected_sql] in every case.  When [compiled]
    is [False] it also drops [compiled], [extra_ctes_injected], [extra_ctes]
    and [compiled_code], and raises [KeyError] when [extra_ctes_injected]
    or [extra_ctes] is missing; otherwise the compilation attributes stay.
    Every other entry is passed on as the base serialization left it. *)
Theorem post_serialize_strips_compilation (base : pyval -> M pyval)
    (dct : pyval) (d0 : pydict) (st st1 : State)
    (Hbase : base dct st = (Returned (PDict d0), st1)) :
  let run := CompiledNode.__post_serialize__ base dct st in
  let private := ["_event_status"; "_pre_injected_sql"] in
  let compilation :=
    ["compiled"; "extra_ctes_injected"; "extra_ctes"; "compiled_code"] in
  (dict_get "compiled" d0 <> Some (PBool false) ->
   exists d' : pydict,
     run = (Returned (PDict d'), st1)
     /\ forall k, dict_get k d'
                  = if DependsOn.mem k private then None else dict_get k d0)
  /\ (dict_get "compiled" d0 = Some (PBool false) ->
      (dict_get "extra_ctes_injected" d0 = None ->
       run = (Raised (KeyError "extra_ctes_injected"), st1))
      /\ (dict_get "extra_ctes_injected" d0 <> None ->
          dict_get "extra_ctes" d0 = None ->
          run = (Raised (KeyError "extra_ctes"), st1))
      /\ (dict_get "extra_ctes_injected" d0 <> None ->
          dict_get "extra_ctes" d0 <> None ->
          exists d' : pydict,
            run = (Returned (PDict d'), st1)
            /\ forall k, dict_get k d'
                         = if DependsOn.mem k (private ++ compilation)
                           then None else dict_get k d0)).
Proof.
  intros run private compilation. unfold run.
  rewrite (post_serialize_run base dct d0 st st1 Hbase). cbv zeta.
  assert (Hmem : forall k l, DependsOn.mem k l = existsb (String.eqb k) l)
    by reflexivity.
  split.
  - intros Hnot.
    assert (Hf : CompiledNode.is_False (default PNone (dict_get "compiled" d0))
                 = false).
    { destruct (dict_get "compiled" d0) as [[| [] | | | |] |]; try reflexivity.
      now contradiction Hnot. }
    rewrite Hf. eexists. split; [reflexivity |].
    intros k. rewrite !dict_get_del. unfold private, DependsOn.mem.
    cbn [existsb].
    rewrite (String.eqb_sym k "_event_status"),
      (String.eqb_sym k "_pre_injected_sql").
    destruct (String.eqb "_event_status" k), (String.eqb "_pre_injected_sql" k);
      reflexivity.
  - intros Hfalse. rewrite Hfalse. cbn [default CompiledNode.is_False].
    rewrite !dict_in_get.
    split; [| split].
    + intros ->. reflexivity.
    + intros Hi ->. destruct (dict_get "extra_ctes_injected" d0);
        [reflexivity | contradiction].
    + intros Hi He.
      destruct (dict_get "extra_ctes_injected" d0); [| contradiction].
      destruct (dict_get "extra_ctes" d0); [| contradiction].
      eexists. split; [reflexivity |].
      intros k. rewrite !dict_get_del.
      unfold private, compilation, DependsOn.mem. cbn [existsb app].
      rewrite (String.eqb_sym k "_event_status"),
        (String.eqb_sym k "_pre_injected_sql"),
        (String.eqb_sym k "compiled"),
        (String.eqb_sym k "extra_ctes_injected"),
        (String.eqb_sym k "extra_ctes"),
        (String.eqb_sym k "compiled_code").
      destruct (String.eqb "_event_status" k),
        (String.eqb "_pre_injected_sql" k), (String.eqb "compiled" k),
        (String.eqb "extra_ctes_injected" k), (String.eqb "extra_ctes" k),
        (String.eqb "compiled_code" k); reflexivity.
Qed.

Lemma post_serialize_strips_compilation_witness :
  exists d' : pydict,
    CompiledNode.__post_serialize__ ret
      (PDict [("name", PStr "trips"); ("_event_status", PDict []);
              ("compiled", PBool false); ("extra_ctes_injected", PBool false);
              ("extra_ctes", PList [])]) Sample.start
    = (Returned (PDict d'), Sample.start)
    /\ dict_get "name" d' = Some (PStr "trips")
    /\ dict_get "compiled" d' = None.
Proof.
  destruct (post_serialize_strips_compilation ret
              (PDict [("name", PStr "trips"); ("_event_status", PDict []);
                      ("compiled", PBool false);
                      ("extra_ctes_injected", PBool false);
                      ("extra_ctes", PList [])])
              [("name", PStr "trips"); ("_event_status", PDict []);
               ("compiled", PBool false); ("extra_ctes_injected", PBool false);
               ("extra_ctes", PList [])]
              Sample.start Sample.start eq_refl) as [_ Hfalse].
  destruct (Hfalse eq_refl) as [_ [_ Hboth]].
  destruct Hboth as [d' [Hrun Hkeys]]; [discriminate | discriminate |].
  exists d'. split; [exact Hrun |].
  split; [exact (Hkeys "name") | exact (Hkeys "compiled")].
Defined.

(** ** Patching *)

(** X4.  [patch] replaces the description and the columns of a node and
    nothing that the other comparisons read: body, configuration, fqn and
    database representation compare as before.  So a patched generic test,
    and a patched node whose config persists neither relation nor column
    docs, has the [same_contents] it had; with relation docs persisted, a
    patch whose description differs from the old node's makes
    [same_contents] false. *)
Theorem patch_keeps_contents_unless_docs_persisted (Time : Type) (now : Time)
    (patch : ParsedNodePatch.t) (self : Patching.patched Time)
    (old : ParsedNode.t) (st : State) :
  let before := Patching.node self in
  let after := Patching.node (Patching.patch now patch self) in
  ParsedNode.same_body after old st = ParsedNode.same_body before old st
  /\ ParsedNode.same_config after old = ParsedNode.same_config before old
  /\ ParsedNode.same_fqn after old = ParsedNode.same_fqn before old
  /\ ParsedNode.same_database_representation after old
     = ParsedNode.same_database_representation before old
  /\ (ParsedNode.cls before = GenericTestNode ->
      ParsedNode.same_contents after (Some old) st
      = ParsedNode.same_contents before (Some old) st)
  /\ (ParsedNode._persist_relation_docs before = false ->
      ParsedNode._persist_column_docs before = false ->
      ParsedNode.same_contents after (Some old) st
      = ParsedNode.same_contents before (Some old) st)
  /\ (ParsedNode._persist_relation_docs before = true ->
      ParsedNodePatch.description patch <> ParsedNode.description old ->
      ParsedNode.cls before <> GenericTestNode ->
      forall (r : bool) (st' : State),
        ParsedNode.same_contents after (Some old) st = (Returned r, st') ->
        r = false).
Proof.
  intros before after.
  assert (Hbody : ParsedNode.same_body after old = ParsedNode.same_body before old).
  { unfold ParsedNode.same_body, after, before. simpl.
    destruct (ParsedNode.cls (Patching.node self)); reflexivity. }
  split; [now rewrite Hbody |].
  split; [reflexivity |]. split; [reflexivity |]. split; [reflexivity |].
  split; [| split].
  - intros Hcls. unfold ParsedNode.same_contents.
    change (ParsedNode.cls after) with (ParsedNode.cls before).
    rewrite Hcls. reflexivity.
  - intros Hrel Hcol.
    assert (Hdesc : forall n,
              ParsedNode.config n = ParsedNode.config before ->
              ParsedNode.same_persisted_description n old = true).
    { intros n Hn. unfold ParsedNode.same_persisted_description,
        ParsedNode._persist_relation_docs, ParsedNode._persist_column_docs in *.
      rewrite Hn. now rewrite Hrel, Hcol. }
    unfold ParsedNode.same_contents.
    change (ParsedNode.cls after) with (ParsedNode.cls before).
    destruct (ParsedNode.cls before) eqn:Hcls; try reflexivity;
      unfold ParsedNode.ParsedNode_same_contents;
      rewrite Hbody, (Hdesc after eq_refl), (Hdesc before eq_refl);
      reflexivity.
  - intros Hrel Hdiff Hcls r st' Hrun.
    assert (Hdesc : ParsedNode.same_persisted_description after old = false).
    { unfold ParsedNode.same_persisted_description.
      change (ParsedNode._persist_relation_docs after)
        with (ParsedNode._persist_relation_docs before).
      rewrite Hrel.
      change (ParsedNode.description after)
        with (ParsedNodePatch.description patch).
      apply String.eqb_neq in Hdiff. now rewrite Hdiff. }
    unfold ParsedNode.same_contents in Hrun.
    change (ParsedNode.cls after) with (ParsedNode.cls before) in Hrun.
    assert (Hparsed : ParsedNode.ParsedNode_same_contents after (Some old) st
                      = (Returned r, st')).
    { destruct (ParsedNode.cls before); try exact Hrun. now contradiction Hcls. }
    unfold ParsedNode.ParsedNode_same_contents in Hparsed.
    apply bind_returned in Hparsed as [body [st1 [_ Hret]]].
    unfold ret in Hret. injection Hret as <- _.
    rewrite Hdesc. now rewrite !andb_false_r, ?andb_false_l.
Qed.

Lemma patch_keeps_contents_unless_docs_persisted_witness :
  ParsedNode.same_contents
    (Patching.node
       (Patching.patch 1%Z SampleGraph.trips_patch
          {| Patching.node := Sample.not_null_test "select 1";
             Patching.patch_path := None;
             Patching.created_at := 0%Z |}))
    (Some (Sample.not_null_test "select 1")) Sample.start
  = ParsedNode.same_contents (Sample.not_null_test "select 1")
      (Some (Sample.not_null_test "select 1")) Sample.start.
Proof.
  destruct (patch_keeps_contents_unless_docs_persisted Z 1%Z
              SampleGraph.trips_patch
              {| Patching.node := Sample.not_null_test "select 1";
                 Patching.patch_path := None;
                 Patching.created_at := 0%Z |}
              (Sample.not_null_test "select 1") Sample.start)
    as [_ [_ [_ [_ [Htest _]]]]].
  apply Htest. reflexivity.
Defined.

(** ** Source tests *)

(** X5.  [get_tests] yields every table-level test first, without a
    column, and then the tests of each column in turn, with that column; a
    column whose [tests] is [None] yields nothing.  What it yields is never
    a bare string: [normalize_test] has turned a name into the dict with
    that one key, has left every other value as it is, and changes nothing
    when applied again. *)
Theorem get_tests_normalized (self : UnpatchedSourceDefinition.t) :
  (forall (test : pyval) (column : option UnparsedColumn.t),
     In (test, column) (UnpatchedSourceDefinition.get_tests self) <->
     (column = None
      /\ exists testdef : pyval,
           In testdef (UnpatchedSourceDefinition.tests self)
           /\ test = normalize_test testdef)
     \/ (exists (col : UnparsedColumn.t) (tests : list pyval) (testdef : pyval),
           column = Some col
           /\ In col (UnpatchedSourceDefinition.columns self)
           /\ UnparsedColumn.tests col = Some tests
           /\ In testdef tests
           /\ test = normalize_test testdef))
  /\ (forall (test : pyval) (column : option UnparsedColumn.t) (name : string),
        In (test, column) (UnpatchedSourceDefinition.get_tests self) ->
        test <> PStr name)
  /\ (forall testdef : pyval,
        normalize_test (normalize_test testdef) = normalize_test testdef)
  /\ map snd (firstn (length (UnpatchedSourceDefinition.tests self))
                (UnpatchedSourceDefinition.get_tests self))
     = map (fun _ => None) (UnpatchedSourceDefinition.tests self)
  /\ length (UnpatchedSourceDefinition.get_tests self)
     = (length (UnpatchedSourceDefinition.tests self)
        + list_sum
            (map (fun col => length (default [] (UnparsedColumn.tests col)))
               (UnpatchedSourceDefinition.columns self)))%nat.
Proof.
  assert (Hmem : forall (test : pyval) (column : option UnparsedColumn.t),
     In (test, column) (UnpatchedSourceDefinition.get_tests self) <->
     (column = None
      /\ exists testdef : pyval,
           In testdef (UnpatchedSourceDefinition.tests self)
           /\ test = normalize_test testdef)
     \/ (exists (col : UnparsedColumn.t) (tests : list pyval) (testdef : pyval),
           column = Some col
           /\ In col (UnpatchedSourceDefinition.columns self)
           /\ UnparsedColumn.tests col = Some tests
           /\ In testdef tests
           /\ test = normalize_test testdef)).
  { intros test column. unfold UnpatchedSourceDefinition.get_tests.
    rewrite in_app_iff, in_map_iff, in_flat_map. split.
    - intros [[testdef [Heq Hin]] | [col [Hcol Hin]]].
      + injection Heq as <- <-. left. split; [reflexivity |]. now exists testdef.
      + right. destruct (UnparsedColumn.tests col) as [tests |] eqn:Htests;
          [| contradiction].
        apply in_map_iff in Hin as [testdef [Heq Hin]].
        injection Heq as <- <-. now exists col, tests, testdef.
    - intros [[-> [testdef [Hin ->]]]
             | [col [tests [testdef [-> [Hcol [Htests [Hin ->]]]]]]]].
      + left. now exists testdef.
      + right. exists col. split; [exact Hcol |]. rewrite Htests.
        apply in_map_iff. now exists testdef. }
  assert (Hnorm : forall (testdef : pyval) (name : string),
            normalize_test testdef <> PStr name).
  { intros [] name; simpl; discriminate. }
  split; [exact Hmem |]. split; [| split; [| split]].
  - intros test column name Hin.
    apply Hmem in Hin
      as [[_ [testdef [_ ->]]] | [_ [_ [testdef [_ [_ [_ [_ ->]]]]]]]];
      apply Hnorm.
  - intros []; reflexivity.
  - unfold UnpatchedSourceDefinition.get_tests.
    rewrite <- (length_map
                  (fun test => (normalize_test test, @None UnparsedColumn.t))
                  (UnpatchedSourceDefinition.tests self)) at 1.
    rewrite firstn_app, Nat.sub_diag, firstn_all. simpl.
    rewrite app_nil_r, map_map. reflexivity.
  - unfold UnpatchedSourceDefinition.get_tests.
    rewrite length_app, length_map. f_equal. clear Hmem.
    induction (UnpatchedSourceDefinition.columns self) as [| col cols IH];
      simpl; [reflexivity |].
    rewrite length_app, IH. f_equal.
    destruct (UnparsedColumn.tests col); simpl;
      [apply length_map | reflexivity].
Qed.

Lemma get_tests_normalized_witness :
  In (PDict [("unique", PDict [])], Some SampleGraph.locationid_column)
    (UnpatchedSourceDefinition.get_tests SampleGraph.zones_table).
Proof.
  apply (proj1 (get_tests_normalized SampleGraph.zones_table)).
  right.
  exists SampleGraph.locationid_column, [PStr "not_null"; PStr "unique"],
    (PStr "unique").
  repeat split; simpl; tauto.
Defined.

(** ** Source, exposure and metric changes *)

(** X6.  Whether a source counts as changed depends only on its database,
    schema, identifier, fqn, unrendered config, quoting, freshness,
    [loaded_at_field] and external table: a source that agrees with [self]
    on these compares to [old] as [self] does, whatever its description,
    meta or tags; and a source has the same contents as itself. *)
Theorem source_same_contents_ignores_docs (self other old : SourceDefinition.t)
    (Hdatabase : SourceDefinition.database other = SourceDefinition.database self)
    (Hschema : SourceDefinition.schema other = SourceDefinition.schema self)
    (Hidentifier :
       SourceDefinition.identifier other = SourceDefinition.identifier self)
    (Hfqn : SourceDefinition.fqn other = SourceDefinition.fqn self)
    (Hconfig : SourceDefinition.unrendered_config other
               = SourceDefinition.unrendered_config self)
    (Hquoting : SourceDefinition.quoting other = SourceDefinition.quoting self)
    (Hfreshness :
       SourceDefinition.freshness other = SourceDefinition.freshness self)
    (Hloaded : SourceDefinition.loaded_at_field other
               = SourceDefinition.loaded_at_field self)
    (Hexternal : SourceDefinition.external other = SourceDefinition.external self) :
  SourceDefinition.same_contents other (Some old)
  = SourceDefinition.same_contents self (Some old)
  /\ SourceDefinition.same_contents old (Some other)
     = SourceDefinition.same_contents old (Some self)
  /\ SourceDefinition.same_contents self (Some other) = true.
Proof.
  unfold SourceDefinition.same_contents,
    SourceDefinition.same_database_representation, SourceDefinition.same_fqn,
    SourceDefinition.same_config, SourceDefinition.same_quoting,
    SourceDefinition.same_freshness, SourceDefinition.same_external,
    GraphNode.same_fqn, BaseConfig.same_contents.
  rewrite Hdatabase, Hschema, Hidentifier, Hfqn, Hconfig, Hquoting, Hfreshness,
    Hloaded, Hexternal.
  split; [reflexivity |]. split; [reflexivity |].
  rewrite !bool_decide_eq_true_2 by reflexivity.
  now rewrite dict_eq_refl, py_eq_refl, !opt_py_eq_refl.
Qed.

Lemma source_same_contents_ignores_docs_witness :
  SourceDefinition.same_contents
    (SampleGraph.zones_source "Taxi zones, one row per zone." ["reference"])
    (Some (SampleGraph.zones_source "" []))
  = SourceDefinition.same_contents (SampleGraph.zones_source "" [])
      (Some (SampleGraph.zones_source "" [])).
Proof.
  exact (proj1 (source_same_contents_ignores_docs
                  (SampleGraph.zones_source "" [])
                  (SampleGraph.zones_source "Taxi zones, one row per zone."
                     ["reference"])
                  (SampleGraph.zones_source "" [])
                  eq_refl eq_refl eq_refl eq_refl eq_refl eq_refl eq_refl
                  eq_refl eq_refl)).
Defined.

(** X7.  An exposure compares its dependencies as sets: [same_depends_on]
    holds exactly when both exposures depend on the same nodes, in whatever
    order and however often each is listed.  So an exposure whose
    dependencies are those of [self] reordered or repeated, and that agrees
    with [self] on fqn, type, owner, maturity, url, description, label and
    unrendered config, compares to [old] as [self] does; meta and tags play
    no part.  An exposure has the same contents as itself. *)
Theorem exposure_depends_on_as_set (self old : Exposure.t) :
  (Exposure.same_depends_on self old = true <->
   forall node : string,
     In node (Exposure.depends_on_nodes self)
     <-> In node (Exposure.depends_on_nodes old))
  /\ Exposure.same_contents self (Some self) = true
  /\ (forall other : Exposure.t,
        Exposure.fqn other = Exposure.fqn self ->
        Exposure.type other = Exposure.type self ->
        Exposure.owner other = Exposure.owner self ->
        Exposure.maturity other = Exposure.maturity self ->
        Exposure.url other = Exposure.url self ->
        Exposure.description other = Exposure.description self ->
        Exposure.label other = Exposure.label self ->
        Exposure.unrendered_config other = Exposure.unrendered_config self ->
        (forall node : string,
           In node (Exposure.depends_on_nodes other)
           <-> In node (Exposure.depends_on_nodes self)) ->
        Exposure.same_contents other (Some old)
        = Exposure.same_contents self (Some old)).
Proof.
  assert (Hsets : forall a b : list string,
            (list_to_set a : gset string) = list_to_set b <->
            forall node : string, In node a <-> In node b).
  { intros a b. split.
    - intros Heq node.
      rewrite <- !(list_elem_of_In), <- !(elem_of_list_to_set (C := gset string)).
      now rewrite Heq.
    - intros Hin. apply set_eq. intros node.
      rewrite !elem_of_list_to_set, !list_elem_of_In. apply Hin. }
  split; [| split].
  - unfold Exposure.same_depends_on. rewrite bool_decide_eq_true. apply Hsets.
  - unfold Exposure.same_contents, Exposure.same_depends_on,
      Exposure.same_fqn, GraphNode.same_fqn, Exposure.same_exposure_type,
      Exposure.same_owner, Exposure.same_maturity, Exposure.same_url,
      Exposure.same_description, Exposure.same_label, Exposure.same_config,
      BaseConfig.same_contents.
    rewrite !bool_decide_eq_true_2 by reflexivity.
    now rewrite dict_eq_refl, py_eq_refl.
  - intros other Hf Ht Ho Hm Hu Hd Hl Hc Hdep.
    apply Hsets in Hdep.
    unfold Exposure.same_contents, Exposure.same_depends_on,
      Exposure.same_fqn, GraphNode.same_fqn, Exposure.same_exposure_type,
      Exposure.same_owner, Exposure.same_maturity, Exposure.same_url,
      Exposure.same_description, Exposure.same_label, Exposure.same_config,
      BaseConfig.same_contents.
    now rewrite Hf, Ht, Ho, Hm, Hu, Hd, Hl, Hc, Hdep.
Qed.

Lemma exposure_depends_on_as_set_witness :
  Exposure.same_depends_on
    (SampleGraph.dashboard ["taxi_rides_ny"; "trips_dashboard"]
       ["model.taxi_rides_ny.fact_trips"; "model.taxi_rides_ny.dim_zones";
        "model.taxi_rides_ny.fact_trips"])
    (SampleGraph.dashboard ["taxi_rides_ny"; "trips_dashboard"]
       ["model.taxi_rides_ny.dim_zones"; "model.taxi_rides_ny.fact_trips"])
  = true.
Proof.
  apply (proj1 (exposure_depends_on_as_set
                  (SampleGraph.dashboard ["taxi_rides_ny"; "trips_dashboard"]
                     ["model.taxi_rides_ny.fact_trips";
                      "model.taxi_rides_ny.dim_zones";
                      "model.taxi_rides_ny.fact_trips"])
                  (SampleGraph.dashboard ["taxi_rides_ny"; "trips_dashboard"]
                     ["model.taxi_rides_ny.dim_zones";
                      "model.taxi_rides_ny.fact_trips"]))).
  intros node. simpl. tauto.
Defined.

(** X8.  Whether a metric counts as changed depends only on its model,
    window, dimensions, filters, description, label, calculation method,
    expression, timestamp, time grains and unrendered config.  Unlike an
    exposure, a metric is not compared by fqn: a metric that agrees with
    [self] on the eleven attributes compares to [old] as [self] does,
    whatever its fqn, meta or tags, and has the same contents as [self]. *)
Theorem metric_same_contents_ignores_fqn (self other old : Metric.t)
    (Hmodel : Metric.model other = Metric.model self)
    (Hwindow : Metric.window other = Metric.window self)
    (Hdimensions : Metric.dimensions other = Metric.dimensions self)
    (Hfilters : Metric.filters other = Metric.filters self)
    (Hdescription : Metric.description other = Metric.description self)
    (Hlabel : Metric.label other = Metric.label self)
    (Hmethod : Metric.calculation_method other = Metric.calculation_method self)
    (Hexpression : Metric.expression other = Metric.expression self)
    (Htimestamp : Metric.timestamp other = Metric.timestamp self)
    (Hgrains : Metric.time_grains other = Metric.time_grains self)
    (Hconfig : Metric.unrendered_config other = Metric.unrendered_config self) :
  Metric.same_contents other (Some old) = Metric.same_contents self (Some old)
  /\ Metric.same_contents old (Some other) = Metric.same_contents old (Some self)
  /\ Metric.same_contents self (Some other) = true.
Proof.
  unfold Metric.same_contents, Metric.same_model, Metric.same_window,
    Metric.same_dimensions, Metric.same_filters, Metric.same_description,
    Metric.same_label, Metric.same_calculation_method, Metric.same_expression,
    Metric.same_timestamp, Metric.same_time_grains, Metric.same_config,
    BaseConfig.same_contents.
  rewrite Hmodel, Hwindow, Hdimensions, Hfilters, Hdescription, Hlabel, Hmethod,
    Hexpression, Htimestamp, Hgrains, Hconfig.
  split; [reflexivity |]. split; [reflexivity |].
  rewrite !bool_decide_eq_true_2 by reflexivity.
  now rewrite dict_eq_refl, py_eq_refl, opt_py_eq_refl.
Qed.

Lemma metric_same_contents_ignores_fqn_witness :
  Metric.same_contents
    (SampleGraph.revenue ["taxi_rides_ny"; "revenue"] [])
    (Some (SampleGraph.revenue ["taxi_rides_ny"; "finance"; "revenue"]
             ["finance"]))
  = true.
Proof.
  destruct (metric_same_contents_ignores_fqn
              (SampleGraph.revenue ["taxi_rides_ny"; "revenue"] [])
              (SampleGraph.revenue ["taxi_rides_ny"; "finance"; "revenue"]
                 ["finance"])
              (SampleGraph.revenue ["taxi_rides_ny"; "revenue"] [])
              eq_refl eq_refl eq_refl eq_refl eq_refl eq_refl eq_refl eq_refl
              eq_refl eq_refl eq_refl) as [_ [_ Hself]].
  exact Hself.
Defined.

(** ** Merging optional values *)

Lemma replacements_field_loop (fields : list string) (arg : Mergeable.instance)
    (acc : pydict) (name : string) :
  dict_get name
    (foldl
       (fun replacements field =>
          let value := arg field in
          if Mergeable.is_not_None value then dict_set field value replacements
          else replacements)
       acc fields)
  = if existsb (String.eqb name) fields && Mergeable.is_not_None (arg name)
    then Some (arg name) else dict_get name acc.
Proof.
  revert acc. induction fields as [| f fields IH]; intros acc; simpl;
    [reflexivity |].
  rewrite IH.
  destruct (existsb (String.eqb name) fields && Mergeable.is_not_None (arg name))
    eqn:Hrest.
  - now rewrite andb_orb_distrib_l, Hrest, orb_true_r.
  - rewrite andb_orb_distrib_l, Hrest, orb_false_r.
    destruct (String.eqb_spec name f) as [-> | Hne]; simpl.
    + destruct (Mergeable.is_not_None (arg f)); [| reflexivity].
      now rewrite dict_get_set, String.eqb_refl.
    + destruct (Mergeable.is_not_None (arg f)); [| reflexivity].
      rewrite dict_get_set. apply not_eq_sym, String.eqb_neq in Hne.
      now rewrite Hne.
Qed.

Lemma replacements_from (fields : list string) (args : list Mergeable.instance)
    (acc : pydict) (name : string) :
  dict_get name
    (foldl
       (fun replacements arg =>
          foldl
            (fun replacements field =>
               let value := arg field in
               if Mergeable.is_not_None value
               then dict_set field value replacements
               else replacements)
            replacements fields)
       acc args)
  = foldl
      (fun found arg =>
         if existsb (String.eqb name) fields && Mergeable.is_not_None (arg name)
         then Some (arg name) else found)
      (dict_get name acc) args.
Proof.
  revert acc. induction args as [| arg args IH]; intros acc; simpl;
    [reflexivity |].
  now rewrite IH, replacements_field_loop.
Qed.

(** X9.  [merged] is a shallow merge in which the last write that is not
    [None] wins: a field of the result holds the value of the last argument
    whose value for that field is not [None], and the value of [self] when
    there is none; an attribute that is not a field is never replaced.
    Merging nothing changes nothing, and merging in two steps is merging
    the two argument lists at once. *)
Theorem merged_last_not_none_wins (fields : list string)
    (self : Mergeable.instance) (args : list Mergeable.instance)
    (name : string) :
  Mergeable.merged fields self args name
  = (if existsb (String.eqb name) fields
     then foldl (fun found arg =>
                   if Mergeable.is_not_None (arg name) then arg name else found)
            (self name) args
     else self name)
  /\ Mergeable.merged fields self [] name = self name
  /\ (forall more : list Mergeable.instance,
        Mergeable.merged fields (Mergeable.merged fields self args) more name
        = Mergeable.merged fields self (args ++ more) name)
  /\ (forall last : Mergeable.instance,
        existsb (String.eqb name) fields = true ->
        last name <> PNone ->
        Mergeable.merged fields self (args ++ [last]) name = last name).
Proof.
  assert (Hget : forall (self : Mergeable.instance) args,
            Mergeable.merged fields self args name
            = if existsb (String.eqb name) fields
              then foldl (fun found arg =>
                            if Mergeable.is_not_None (arg name)
                            then arg name else found)
                     (self name) args
              else self name).
  { clear. intros self args.
    unfold Mergeable.merged, Mergeable.replace, Mergeable.replacements.
    rewrite replacements_from. simpl (dict_get name []).
    destruct (existsb (String.eqb name) fields); simpl.
    - assert (Hgen : forall found dflt,
                default dflt
                  (foldl (fun found arg =>
                            if Mergeable.is_not_None (arg name)
                            then Some (arg name) else found) found args)
                = foldl (fun found arg =>
                           if Mergeable.is_not_None (arg name)
                           then arg name else found)
                    (default dflt found) args).
      { induction args as [| arg args IH]; intros found dflt; simpl;
          [reflexivity |].
        rewrite IH. now destruct (Mergeable.is_not_None (arg name)). }
      apply Hgen.
    - assert (Hnone : foldl (fun (found : option pyval) (arg : Mergeable.instance) => found)
                        None args = None).
      { induction args as [| arg args IH]; simpl; [reflexivity | exact IH]. }
      now rewrite Hnone. }
  split; [apply Hget |]. split; [reflexivity |]. split.
  - intros more. rewrite !Hget.
    destruct (existsb (String.eqb name) fields); [| reflexivity].
    now rewrite foldl_app.
  - intros last Hfield Hlast. rewrite Hget, Hfield, foldl_app. simpl.
    destruct (last name); try reflexivity. now contradiction Hlast.
Qed.

Lemma merged_last_not_none_wins_witness :
  Mergeable.merged ["column"; "schema"]
    (fun name => if String.eqb name "column" then PBool true else PNone)
    ([] ++ [fun name => if String.eqb name "column" then PBool false else PNone])
    "column"
  = PBool false.
Proof.
  apply (merged_last_not_none_wins ["column"; "schema"]
           (fun name => if String.eqb name "column" then PBool true else PNone)
           [] "column").
  - reflexivity.
  - simpl. discriminate.
Defined.

(** ** Additional properties *)

Section additional_properties.
Variable cls_keys : list string.
Local Abbreviation is_declared := (is_declared cls_keys).

Lemma collect_spec (items : pydict) :
  forall (new_dict extra : pydict) (st : State),
    NoDup (dict_keys items) ->
    dict_get "_extra" items = None ->
    (forall k, dict_in k items = true -> dict_get k extra = None) ->
    dict_get "_extra" new_dict
    = match extra with [] => None | _ :: _ => Some (PDict extra) end ->
    exists result : pydict,
      AdditionalPropertiesMixin.collect cls_keys items new_dict st
      = (Returned result, st)
      /\ (forall k, k <> "_extra" ->
            dict_get k result
            = if is_declared k
              then match dict_get k items with
                   | Some v => Some v
                   | None => dict_get k new_dict
                   end
              else dict_get k new_dict)
      /\ dict_get "_extra" result
         = match extra ++ List.filter (fun kv => negb (is_declared (fst kv))) items
           with
           | [] => None
           | all => Some (PDict all)
           end.
Proof.
  induction items as [| [key value] rest IH];
    intros new_dict extra st Hnodup Hnoextra Hfresh Hacc.
  - exists new_dict. simpl. split; [reflexivity |]. split.
    + intros k _. now destruct (is_declared k).
    + rewrite app_nil_r. rewrite Hacc. now destruct extra.
  - simpl in Hnoextra.
    destruct (String.eqb_spec key "_extra") as [-> | Hkey]; [discriminate |].
    apply NoDup_cons in Hnodup as [Hnotin Hnodup].
    assert (Hrest_key : dict_get key rest = None).
    { destruct (dict_get key rest) eqn:Hget; [| reflexivity].
      exfalso. apply Hnotin. apply list_elem_of_In. clear - Hget.
      induction rest as [| [k0 v0] r IHr]; simpl in *; [discriminate |].
      destruct (String.eqb_spec k0 key) as [-> | Hne]; [now left |].
      right. now apply IHr. }
    cbn [AdditionalPropertiesMixin.collect].
    unfold is_declared.
    assert (Hkey' : String.eqb key "_extra" = false) by now apply String.eqb_neq.
    rewrite Hkey'. rewrite andb_true_r.
    destruct (existsb (String.eqb key) cls_keys) eqn:Hdeclared; simpl negb;
      cbv iota.
    + (* a declared key stays at the top level *)
      erewrite bind_run by reflexivity.
      destruct (IH (dict_set key value new_dict) extra st Hnodup Hnoextra)
        as [result [Hrun [Hget Hextra]]].
      * intros k Hk. apply Hfresh. unfold dict_in in *. simpl.
        destruct (String.eqb key k); [reflexivity | exact Hk].
      * rewrite dict_get_set.
        apply String.eqb_neq in Hkey. now rewrite Hkey.
      * exists result. split; [exact Hrun |]. split.
        -- intros k Hk. rewrite (Hget k Hk). unfold is_declared. simpl.
           destruct (String.eqb_spec key k) as [-> | Hne].
           ++ rewrite Hdeclared. simpl. rewrite Hrest_key.
              now rewrite dict_get_set, String.eqb_refl.
           ++ rewrite dict_get_set. apply String.eqb_neq in Hne.
              now rewrite Hne.
        -- rewrite Hextra. simpl. unfold is_declared.
           now rewrite Hdeclared.
    + (* any other key goes under _extra *)
      assert (Hfresh_key : dict_get key extra = None).
      { apply Hfresh. unfold dict_in. simpl. now rewrite String.eqb_refl. }
      set (prepared := if negb (dict_in "_extra" new_dict)
                       then dict_set "_extra" (PDict []) new_dict
                       else new_dict).
      assert (Hprepared : dict_get "_extra" prepared = Some (PDict extra)).
      { unfold prepared. rewrite dict_in_get, Hacc.
        destruct extra; simpl; [| exact Hacc].
        now rewrite dict_get_set. }
      erewrite bind_run.
      2:{ erewrite bind_run by (unfold getitem; rewrite Hprepared; reflexivity).
          cbv beta. erewrite bind_run by reflexivity. reflexivity. }
      rewrite (dict_set_absent key value extra Hfresh_key).
      destruct (IH (dict_set "_extra" (PDict (extra ++ [(key, value)])) prepared)
                  (extra ++ [(key, value)]) st Hnodup Hnoextra)
        as [result [Hrun [Hget Hextra]]].
      * intros k Hk.
        assert (Hne : key <> k).
        { intros ->. unfold dict_in in Hk. now rewrite Hrest_key in Hk. }
        assert (Hk' : dict_get k extra = None).
        { apply Hfresh. unfold dict_in in *. simpl.
          destruct (String.eqb key k); [reflexivity | exact Hk]. }
        clear - Hne Hk'.
        induction extra as [| [k0 v0] r IHr]; simpl in *.
        -- apply String.eqb_neq in Hne. now rewrite Hne.
        -- destruct (String.eqb k0 k); [discriminate | now apply IHr].
      * rewrite dict_get_set. simpl. now destruct extra.
      * exists result. split; [exact Hrun |]. split.
        -- intros k Hk. rewrite (Hget k Hk). rewrite dict_get_set.
           assert (Hk2 : String.eqb "_extra" k = false).
           { apply String.eqb_neq. intros Heq. now apply Hk. }
           rewrite Hk2.
           assert (Hprep : dict_get k prepared = dict_get k new_dict).
           { unfold prepared. destruct (negb (dict_in "_extra" new_dict));
               [| reflexivity].
             now rewrite dict_get_set, Hk2. }
           rewrite Hprep. unfold is_declared. simpl.
           destruct (String.eqb_spec key k) as [-> | Hne]; [| reflexivity].
           rewrite Hdeclared.
           assert (Hk3 : String.eqb k "_extra" = false)
             by now apply String.eqb_neq.
           now rewrite Hk3.
        -- rewrite Hextra. simpl. unfold is_declared.
           rewrite Hdeclared, Hkey'. simpl. now rewrite <- app_assoc.
Qed.

Lemma pre_deserialize_normal_form (data : pydict) (st : State) :
  NoDup (dict_keys data) ->
  dict_get "_extra" data = None ->
  exists new_dict : pydict,
    AdditionalPropertiesMixin.collect cls_keys data [] st
    = (Returned new_dict, st)
    /\ (forall k, k <> "_extra" ->
          dict_get k new_dict = if is_declared k then dict_get k data else None)
    /\ dict_get "_extra" new_dict
       = match List.filter (fun kv => negb (is_declared (fst kv))) data with
         | [] => None
         | all => Some (PDict all)
         end.
Proof.
  intros Hkeys Hnoextra.
  destruct (collect_spec data [] [] st Hkeys Hnoextra)
    as [new_dict [Hrun [Hget Hextra]]]; [reflexivity | reflexivity |].
  exists new_dict. split; [exact Hrun |]. split; [| exact Hextra].
  intros k Hk. rewrite (Hget k Hk). simpl.
  destruct (is_declared k); [| reflexivity].
  now destruct (dict_get k data).
Qed.

(** X10.  [__pre_deserialize__] of an extensible class sorts the entries
    of a dict that has no [_extra] of its own: an entry under a declared
    field name stays where it is, and all the others are moved, in their
    order, into one new dict under [_extra]; without such entries no
    [_extra] is made.  The dict handed on is a new one, every entry of the
    input is in exactly one of the two places, and a value that is not a
    dict raises [AttributeError]. *)
Theorem pre_deserialize_collects_extras (base : pyval -> M pyval)
    (data : pydict) (st : State)
    (Hkeys : NoDup (dict_keys data))
    (Hnoextra : dict_get "_extra" data = None) :
  let others := List.filter (fun kv => negb (is_declared (fst kv))) data in
  (exists new_dict : pydict,
     AdditionalPropertiesMixin.__pre_deserialize__ cls_keys base (PDict data) st
     = base (PDict new_dict) st
     /\ (forall k, k <> "_extra" ->
           dict_get k new_dict = if is_declared k then dict_get k data else None)
     /\ dict_get "_extra" new_dict
        = match others with [] => None | _ :: _ => Some (PDict others) end
     /\ (forall k v, dict_get k data = Some v ->
           if is_declared k then dict_get k new_dict = Some v
           else dict_get k others = Some v))
  /\ (forall v : pyval,
        (forall d, v <> PDict d) ->
        AdditionalPropertiesMixin.__pre_deserialize__ cls_keys base v st
        = (Raised AttributeError, st)).
Proof.
  intros others. split.
  - destruct (collect_spec data [] [] st Hkeys Hnoextra)
      as [new_dict [Hrun [Hget Hextra]]]; [reflexivity | reflexivity |].
    exists new_dict. split; [| split; [| split]].
    + unfold AdditionalPropertiesMixin.__pre_deserialize__.
      now erewrite bind_run by exact Hrun.
    + intros k Hk. rewrite (Hget k Hk). simpl.
      destruct (is_declared k); [| reflexivity].
      now destruct (dict_get k data).
    + rewrite Hextra. unfold others. simpl.
      now destruct (List.filter (fun kv => negb (is_declared (fst kv))) data).
    + intros k v Hk.
      assert (Hne : k <> "_extra").
      { intros ->. rewrite Hnoextra in Hk. discriminate. }
      destruct (is_declared k) eqn:Hdeclared.
      * rewrite (Hget k Hne), Hdeclared, Hk. reflexivity.
      * unfold others. clear - Hk Hdeclared.
        induction data as [| [k0 v0] r IH]; simpl in *; [discriminate |].
        destruct (String.eqb_spec k0 k) as [-> | Hne].
        -- rewrite Hdeclared. simpl. now rewrite String.eqb_refl.
        -- destruct (negb (is_declared k0)); simpl; [| now apply IH].
           apply String.eqb_neq in Hne. rewrite Hne. now apply IH.
  - intros v Hv. destruct v; try reflexivity. now contradiction (Hv d).
Qed.

End additional_properties.

Lemma pre_deserialize_collects_extras_witness :
  exists new_dict : pydict,
    AdditionalPropertiesMixin.__pre_deserialize__ ["name"; "description"] ret
      (PDict [("name", PStr "id"); ("policy_tags", PList []);
              ("description", PStr "primary key")]) Sample.start
    = (Returned (PDict new_dict), Sample.start)
    /\ dict_get "_extra" new_dict = Some (PDict [("policy_tags", PList [])]).
Proof.
  destruct (pre_deserialize_collects_extras ["name"; "description"] ret
              [("name", PStr "id"); ("policy_tags", PList []);
               ("description", PStr "primary key")] Sample.start)
    as [[new_dict [Hrun [_ [Hextra _]]]] _].
  - apply (bool_decide_unpack _). vm_compute. exact I.
  - reflexivity.
  - exists new_dict. split; [exact Hrun | exact Hextra].
Defined.


Lemma dict_get_None_keys (k : string) (d : pydict) :
  dict_get k d = None <-> k ∉ dict_keys d.
Proof.
  induction d as [| [k0 v0] r IH]; simpl.
  - split; [intros _; apply not_elem_of_nil | reflexivity].
  - rewrite not_elem_of_cons, <- IH.
    destruct (String.eqb_spec k0 k) as [-> | Hne].
    + split; [discriminate | intros [Hc _]; now contradiction Hc].
    + split; [intros H; split; [now apply not_eq_sym | exact H] | tauto].
Qed.

Lemma dict_get_None_keys_any {V : Type} (k : string) (d : list (string * V)) :
  dict_get k d = None -> k ∉ dict_keys d.
Proof.
  induction d as [| [k0 v0] r IH]; simpl.
  - intros _. apply not_elem_of_nil.
  - destruct (String.eqb_spec k0 k) as [-> | Hne]; [discriminate |].
    intros Hget. apply not_elem_of_cons. split; [now apply not_eq_sym | auto].
Qed.

Lemma update_get (other d : pydict) (k : string) :
  NoDup (dict_keys other) ->
  dict_get k (foldl (fun d kv => dict_set (fst kv) (snd kv) d) d other)
  = match dict_get k other with
    | Some v => Some v
    | None => dict_get k d
    end.
Proof.
  revert d. induction other as [| [k0 v0] rest IH]; intros d Hnodup; simpl;
    [reflexivity |].
  apply NoDup_cons in Hnodup as [Hnotin Hnodup].
  rewrite (IH _ Hnodup), dict_get_set.
  destruct (String.eqb_spec k0 k) as [-> | Hne]; [| reflexivity].
  apply dict_get_None_keys in Hnotin. simpl in Hnotin. now rewrite Hnotin.
Qed.

Lemma dict_get_filter_keys (p : string -> bool) (d : pydict) (k : string) :
  dict_get k (List.filter (fun kv => p (fst kv)) d)
  = if p k then dict_get k d else None.
Proof.
  induction d as [| [k0 v0] r IH]; simpl; [now destruct (p k) |].
  destruct (String.eqb_spec k0 k) as [-> | Hne].
  - destruct (p k) eqn:Hp; simpl.
    + now rewrite String.eqb_refl.
    + rewrite IH. now rewrite ?Hp.
  - destruct (p k0); simpl; [| exact IH].
    apply String.eqb_neq in Hne. now rewrite Hne.
Qed.

Lemma NoDup_filter_keys (p : string * pyval -> bool) (d : pydict) :
  NoDup (dict_keys d) -> NoDup (dict_keys (List.filter p d)).
Proof.
  induction d as [| [k0 v0] r IH]; simpl; [trivial |].
  intros Hnodup. apply NoDup_cons in Hnodup as [Hnotin Hnodup].
  destruct (p (k0, v0)); simpl; [| now apply IH].
  apply NoDup_cons. split; [| now apply IH].
  intros Hin. apply Hnotin. clear - Hin.
  induction r as [| [k1 v1] r IHr]; simpl in *; [exact Hin |].
  destruct (p (k1, v1)); simpl in *.
  - apply elem_of_cons in Hin as [-> | Hin];
      [apply elem_of_cons; now left | apply elem_of_cons; right; now apply IHr].
  - apply elem_of_cons. right. now apply IHr.
Qed.

(** X11.  [__post_serialize__] of an extensible class flattens: the
    entries of [extra] are written over the serialized dict and the key
    [_extra] is never left in the result.  It undoes what
    [__pre_deserialize__] did: after sorting the entries of a dict and
    flattening the outcome with the collected extras, every key is bound
    as it was in the input. *)
Theorem extras_round_trip (cls_keys : list string) (base : pyval -> M pyval)
    (extra : pydict) (dct : pyval) (serialized : pydict) (st st1 : State)
    (Hbase : base dct st = (Returned (PDict serialized), st1))
    (Hextra : NoDup (dict_keys extra)) :
  (exists flat : pydict,
     AdditionalPropertiesMixin.__post_serialize__ base extra dct st
     = (Returned (PDict flat), st1)
     /\ dict_get "_extra" flat = None
     /\ forall k, k <> "_extra" ->
          dict_get k flat
          = match dict_get k extra with
            | Some v => Some v
            | None => dict_get k serialized
            end)
  /\ (forall data : pydict,
        NoDup (dict_keys data) ->
        dict_get "_extra" data = None ->
        exists new_dict flat : pydict,
          AdditionalPropertiesMixin.__pre_deserialize__ cls_keys ret
            (PDict data) st
          = (Returned (PDict new_dict), st)
          /\ AdditionalPropertiesMixin.__post_serialize__ ret
               (List.filter (fun kv => negb (is_declared cls_keys (fst kv))) data)
               (PDict new_dict) st
             = (Returned (PDict flat), st)
          /\ forall k, dict_get k flat = dict_get k data).
Proof.
  assert (Hflat : forall (base : pyval -> M pyval) extra dct serialized st st1,
            base dct st = (Returned (PDict serialized), st1) ->
            NoDup (dict_keys extra) ->
            exists flat : pydict,
              AdditionalPropertiesMixin.__post_serialize__ base extra dct st
              = (Returned (PDict flat), st1)
              /\ dict_get "_extra" flat = None
              /\ forall k, k <> "_extra" ->
                   dict_get k flat
                   = match dict_get k extra with
                     | Some v => Some v
                     | None => dict_get k serialized
                     end).
  { clear. intros base extra dct serialized st st1 Hbase Hextra.
    eexists. split; [| split].
    - unfold AdditionalPropertiesMixin.__post_serialize__.
      erewrite bind_run by exact Hbase. cbv beta.
      erewrite bind_run by reflexivity. cbv beta.
      apply del_if_present_dict.
    - now rewrite dict_get_del, String.eqb_refl.
    - intros k Hk. rewrite dict_get_del.
      assert (Hk2 : String.eqb "_extra" k = false).
      { apply String.eqb_neq. intros Heq. now apply Hk. }
      rewrite Hk2. now apply update_get. }
  split; [now apply Hflat |].
  intros data Hkeys Hnoextra.
  destruct (pre_deserialize_normal_form cls_keys data st Hkeys Hnoextra)
    as [new_dict [Hrun [Hget _]]].
  destruct (Hflat ret
              (List.filter (fun kv => negb (is_declared cls_keys (fst kv))) data)
              (PDict new_dict) new_dict st st eq_refl)
    as [flat [Hpost [Hno Hflat_get]]]; [now apply NoDup_filter_keys |].
  exists new_dict, flat. split; [| split; [exact Hpost |]].
  - unfold AdditionalPropertiesMixin.__pre_deserialize__.
    now erewrite bind_run by exact Hrun.
  - intros k. destruct (String.eqb_spec k "_extra") as [-> | Hne].
    + now rewrite Hno, Hnoextra.
    + rewrite (Hflat_get k Hne), (Hget k Hne).
      rewrite (dict_get_filter_keys (fun key => negb (is_declared cls_keys key))).
      destruct (is_declared cls_keys k); simpl; [reflexivity |].
      now destruct (dict_get k data).
Qed.

Lemma extras_round_trip_witness :
  exists flat : pydict,
    AdditionalPropertiesMixin.__post_serialize__ ret
      [("policy_tags", PList [])]
      (PDict [("name", PStr "id");
              ("_extra", PDict [("policy_tags", PList [])])]) Sample.start
    = (Returned (PDict flat), Sample.start)
    /\ dict_get "_extra" flat = None.
Proof.
  destruct (extras_round_trip ["name"] ret [("policy_tags", PList [])]
              (PDict [("name", PStr "id");
                      ("_extra", PDict [("policy_tags", PList [])])])
              [("name", PStr "id");
               ("_extra", PDict [("policy_tags", PList [])])]
              Sample.start Sample.start eq_refl)
    as [[flat [Hrun [Hno _]]] _].
  - apply (bool_decide_unpack _). vm_compute. exact I.
  - exists flat. split; [exact Hrun | exact Hno].
Defined.

(** ** Renamed attributes *)





Ltac other_key k :=
  repeat match goal with
    | |- context [String.eqb ?s k] =>
        destruct (String.eqb_spec s k) as [<- | ?];
        [exfalso; simpl in *; tauto |]
    end.

(** X13.  [rename_sql_attr] returns for every dict, and the result has no
    [raw_sql] and no [compiled_sql]: their values are under [raw_code] and
    [compiled_code], where they silently replace a value that was already
    there.  [language] is set to ["sql"] whatever it was, every other
    entry is kept, and no event is fired.  Called on anything but a dict it
    raises. *)
Theorem rename_sql_attr_renames (d : pydict) (st : State) :
  (exists d' : pydict,
     Util.rename_sql_attr (PDict d) st = (Returned (PDict d'), st)
     /\ dict_get "language" d' = Some (PStr "sql")
     /\ dict_get "raw_sql" d' = None
     /\ dict_get "compiled_sql" d' = None
     /\ dict_get "raw_code" d' = renamed_value "raw_sql" "raw_code" d
     /\ dict_get "compiled_code" d'
        = renamed_value "compiled_sql" "compiled_code" d
     /\ forall k : string,
          ~ In k ["raw_sql"; "raw_code"; "compiled_sql"; "compiled_code";
                  "language"] ->
          dict_get k d' = dict_get k d)
  /\ (forall (v v' : pyval) (st' : State),
        (forall items, v <> PDict items) ->
        Util.rename_sql_attr v st <> (Returned v', st')).
Proof.
  split.
  - eexists. split; [apply rename_sql_attr_dict |].
    unfold renamed_value.
    repeat split.
    + now rewrite dict_get_set.
    + rewrite dict_get_set, !dict_get_rename_key. simpl.
      destruct (dict_get "raw_sql" d) eqn:Hraw; simpl;
        destruct (dict_get "compiled_sql" d); simpl; try reflexivity;
        exact Hraw.
    + rewrite dict_get_set, !dict_get_rename_key. simpl.
      destruct (dict_get "raw_sql" d); simpl;
        destruct (dict_get "compiled_sql" d) eqn:Hcompiled; simpl;
        try reflexivity; exact Hcompiled.
    + rewrite dict_get_set, !dict_get_rename_key. simpl.
      destruct (dict_get "raw_sql" d); simpl;
        destruct (dict_get "compiled_sql" d); simpl; reflexivity.
    + rewrite dict_get_set, !dict_get_rename_key. simpl.
      destruct (dict_get "raw_sql" d); simpl;
        destruct (dict_get "compiled_sql" d); simpl; reflexivity.
    + intros k Hk. rewrite dict_get_set, !dict_get_rename_key.
      other_key k.
      destruct (dict_get "raw_sql" d);
        destruct (dict_get "compiled_sql" d); reflexivity.
  - intros v v' st' Hv Hrun.
    apply rename_sql_attr_needs_dict in Hrun as [items ->].
    now apply (Hv items).
Qed.

Lemma upgrade_seed_loop_returns (attrs : list string) :
  Forall (fun a => a <> "depends_on") attrs ->
  forall (d : pydict) (st : State),
    depends_on_is_dict d ->
    exists d' : pydict,
      Util.upgrade_seed_loop attrs (PDict d) st = (Returned (PDict d'), st).
Proof.
  induction 1 as [| a attrs Ha _ IH]; intros d st Hd.
  - exists d. reflexivity.
  - rewrite upgrade_seed_loop_cons, upgrade_seed_attr_dict.
    unfold depends_on_is_dict in Hd.
    assert (Hget : dict_get "depends_on" (dict_del a d) = dict_get "depends_on" d).
    { rewrite dict_get_del. apply String.eqb_neq in Ha. now rewrite Ha. }
    rewrite Hget.
    destruct (dict_get "depends_on" d) as [[| | | | | dd] |];
      try contradiction; apply IH; unfold depends_on_is_dict.
    + now rewrite dict_get_set.
    + now rewrite Hget.
Qed.

Lemma seed_attributes_not_depends_on :
  Forall (fun a => a <> "depends_on") Util.seed_compilation_attributes.
Proof. repeat constructor; discriminate. Qed.

(** X14.  [upgrade_node] needs a [resource_type]: without one it raises
    [KeyError].  A node that is not a seed comes back with its SQL
    attributes renamed, [language] set to ["sql"] and no [root_path].  A
    seed, whose [depends_on] is missing or a dict, keeps its [root_path]
    and loses every compilation attribute, [language] and [compiled_code]
    among them, and the [nodes] of its [depends_on]; its [raw_sql] is kept
    under [raw_code].  The resource type stays, and no event is fired. *)
Theorem upgrade_node_by_resource_type (d : pydict) (st : State) :
  let run := Util.upgrade_node (PDict d) st in
  (dict_get "resource_type" d = None ->
   run = (Raised (KeyError "resource_type"), st))
  /\ (forall resource_type : pyval,
        dict_get "resource_type" d = Some resource_type ->
        is_str "seed" resource_type = false ->
        exists d' : pydict,
          run = (Returned (PDict d'), st)
          /\ dict_get "root_path" d' = None
          /\ dict_get "language" d' = Some (PStr "sql")
          /\ dict_get "resource_type" d' = Some resource_type
          /\ dict_get "raw_code" d' = renamed_value "raw_sql" "raw_code" d
          /\ dict_get "compiled_code" d'
             = renamed_value "compiled_sql" "compiled_code" d)
  /\ (forall resource_type : pyval,
        dict_get "resource_type" d = Some resource_type ->
        is_str "seed" resource_type = true ->
        depends_on_is_dict d ->
        exists d' : pydict,
          run = (Returned (PDict d'), st)
          /\ dict_get "root_path" d' = dict_get "root_path" d
          /\ (forall a, In a Util.seed_compilation_attributes ->
                        dict_get a d' = None)
          /\ nodes_popped d'
          /\ dict_get "resource_type" d' = Some resource_type
          /\ dict_get "raw_code" d' = renamed_value "raw_sql" "raw_code" d).
Proof.
  intros run. subst run.
  remember (dict_set "language" (PStr "sql")
              (rename_key "compiled_sql" "compiled_code"
                 (rename_key "raw_sql" "raw_code" d))) as d1 eqn:Hd1.
  assert (Hget1 : forall k,
            ~ In k ["raw_sql"; "raw_code"; "compiled_sql"; "compiled_code";
                    "language"] ->
            dict_get k d1 = dict_get k d).
  { intros k Hk. rewrite Hd1, dict_get_set, !dict_get_rename_key.
    other_key k.
    destruct (dict_get "raw_sql" d);
      destruct (dict_get "compiled_sql" d); reflexivity. }
  assert (Hraw1 : dict_get "raw_code" d1 = renamed_value "raw_sql" "raw_code" d).
  { unfold renamed_value. rewrite Hd1, dict_get_set, !dict_get_rename_key. simpl.
    destruct (dict_get "raw_sql" d); simpl;
      destruct (dict_get "compiled_sql" d); simpl; reflexivity. }
  assert (Hcompiled1 : dict_get "compiled_code" d1
                       = renamed_value "compiled_sql" "compiled_code" d).
  { unfold renamed_value. rewrite Hd1, dict_get_set, !dict_get_rename_key. simpl.
    destruct (dict_get "raw_sql" d); simpl;
      destruct (dict_get "compiled_sql" d); simpl; reflexivity. }
  assert (Htype1 : dict_get "resource_type" d1 = dict_get "resource_type" d).
  { apply Hget1. simpl. intros H.
    repeat (destruct H as [H | H]; [discriminate |]). exact H. }
  assert (Hstart : Util.upgrade_node (PDict d) st
            = match dict_get "resource_type" d with
              | None => (Raised (KeyError "resource_type"), st)
              | Some resource_type =>
                  if is_str "seed" resource_type
                  then Util.upgrade_seed_content (PDict d1) st
                  else (Returned (PDict (dict_del "root_path" d1)), st)
              end).
  { unfold Util.upgrade_node.
    destruct (dict_get "resource_type" d) as [resource_type |] eqn:Htype.
    - assert (Hcontent : Util.upgrade_node_content (PDict d) st
                = (Returned
                     (PDict (if is_str "seed" resource_type then d1
                             else dict_del "root_path" d1)), st)).
      { unfold Util.upgrade_node_content.
        erewrite bind_run by apply rename_sql_attr_dict.
        cbv beta. rewrite <- Hd1.
        erewrite bind_run by (unfold getitem; rewrite Htype1; reflexivity).
        cbv beta.
        destruct (is_str "seed" resource_type); simpl;
          [reflexivity | apply del_if_present_dict]. }
      erewrite bind_run by exact Hcontent. cbv beta.
      destruct (is_str "seed" resource_type) eqn:Hseed.
      + erewrite bind_run by (unfold getitem; rewrite Htype1; reflexivity).
        cbv beta. now rewrite Hseed.
      + erewrite bind_run
          by (unfold getitem; rewrite dict_get_del; simpl; rewrite Htype1;
              reflexivity).
        cbv beta. now rewrite Hseed.
    - unfold Util.upgrade_node_content, bind.
      rewrite rename_sql_attr_dict, <- Hd1. unfold getitem.
      now rewrite Htype1. }
  split; [| split].
  - intros Htype. now rewrite Hstart, Htype.
  - intros resource_type Htype Hseed. rewrite Hstart, Htype, Hseed.
    eexists. split; [reflexivity |].
    rewrite !dict_get_del. simpl.
    split; [reflexivity |]. split; [now rewrite Hd1, dict_get_set |].
    split; [now rewrite Htype1 |]. split; assumption.
  - intros resource_type Htype Hseed Hdepends.
    rewrite Hstart, Htype, Hseed.
    assert (Hdepends1 : depends_on_is_dict d1).
    { unfold depends_on_is_dict. rewrite Hget1; [exact Hdepends |].
      simpl. intros H.
      repeat (destruct H as [H | H]; [discriminate |]). exact H. }
    destruct (upgrade_seed_loop_returns Util.seed_compilation_attributes
                seed_attributes_not_depends_on d1 st Hdepends1) as [d' Hrun].
    exists d'. split; [exact Hrun |].
    destruct (upgrade_seed_loop_spec Util.seed_compilation_attributes
                seed_attributes_not_depends_on d1 st st (PDict d') Hrun)
      as [_ [d2 [Heq [_ [Hpop [Hgone [_ Hkept]]]]]]].
    injection Heq as <-.
    split.
    { rewrite Hkept.
      - apply Hget1. simpl. intros H.
        repeat (destruct H as [H | H]; [discriminate |]). exact H.
      - simpl. intros H.
        repeat (destruct H as [H | H]; [discriminate |]). exact H.
      - discriminate. }
    split; [exact Hgone |]. split; [apply Hpop; discriminate |].
    split.
    { rewrite Hkept; [now rewrite Htype1 | | discriminate].
      simpl. intros H.
      repeat (destruct H as [H | H]; [discriminate |]). exact H. }
    rewrite Hkept; [exact Hraw1 | | discriminate].
    simpl. intros H.
    repeat (destruct H as [H | H]; [discriminate |]). exact H.
Qed.

Lemma upgrade_node_by_resource_type_witness :
  exists d' : pydict,
    Util.upgrade_node
      (PDict [("resource_type", PStr "seed");
              ("root_path", PStr "/work/taxi_rides_ny");
              ("compiled", PBool false)]) Sample.start
    = (Returned (PDict d'), Sample.start)
    /\ dict_get "root_path" d' = Some (PStr "/work/taxi_rides_ny")
    /\ dict_get "language" d' = None.
Proof.
  destruct (upgrade_node_by_resource_type
              [("resource_type", PStr "seed");
               ("root_path", PStr "/work/taxi_rides_ny");
               ("compiled", PBool false)] Sample.start)
    as [_ [_ Hseed]].
  destruct (Hseed (PStr "seed") eq_refl eq_refl I)
    as [d' [Hrun [Hroot [Hgone _]]]].
  exists d'. split; [exact Hrun |]. split; [exact Hroot |].
  apply Hgone. simpl. tauto.
Defined.

Lemma rename_sql_attr_renames_witness :
  Util.rename_sql_attr (PStr "select 1") Sample.start
  <> (Returned (PStr "select 1"), Sample.start).
Proof.
  apply (proj2 (rename_sql_attr_renames [] Sample.start)).
  intros items. discriminate.
Defined.

(** ** The shape of an upgraded manifest *)

Lemma map_in_place_keys (f : pyval -> M pyval) (d d' : pydict) (st st' : State) :
  map_in_place (fun kv => let* x := f (snd kv) in ret (fst kv, x)) d st
  = (Returned d', st') ->
  dict_keys d' = dict_keys d.
Proof.
  revert d' st st'. induction d as [| [k v] r IH]; intros d' st st' Hrun.
  - injection Hrun as <- _. reflexivity.
  - simpl in Hrun. apply bind_returned in Hrun as [[k' x] [st1 [Hx Hrun]]].
    apply bind_returned in Hx as [y [st2 [_ Hx]]]. injection Hx as <- <- _.
    apply bind_returned in Hrun as [r' [st3 [Hr Hrun]]].
    injection Hrun as <- _. simpl. f_equal. exact (IH _ _ _ Hr).
Qed.

Lemma dict_set_keys (k : string) (x : pyval) (d : pydict) :
  dict_in k d = true -> dict_keys (dict_set k x d) = dict_keys d.
Proof.
  unfold dict_in. induction d as [| [k0 v0] r IH]; simpl; [discriminate |].
  destruct (String.eqb k0 k); simpl; [reflexivity |].
  intros Hin. f_equal. exact (IH Hin).
Qed.

Lemma upgrade_section_frame (k : string) (body : pyval -> M pyval)
    (m m' : pyval) (st st' : State) :
  Util.upgrade_section k body m st = (Returned m', st') ->
  exists d d' : pydict,
    m = PDict d /\ m' = PDict d'
    /\ dict_keys d' = dict_keys d
    /\ same_keys_at k d d'
    /\ (forall k', k' <> k -> dict_get k' d' = dict_get k' d).
Proof.
  intros Hrun. unfold Util.upgrade_section in Hrun.
  apply bind_returned in Hrun as [contents [st1 [Hget Hrun]]].
  destruct m as [| | | | | d]; try discriminate.
  injection Hget as <- <-.
  apply bind_returned in Hrun as [contents' [st1 [Hloop Hrun]]].
  injection Hrun as <- _.
  exists d. unfold write_back, same_keys_at. rewrite dict_in_get.
  destruct (dict_get k d) as [contents |] eqn:Hk; simpl in Hloop.
  - destruct contents as [| | | | | s]; try discriminate.
    simpl in Hloop. apply bind_returned in Hloop as [s' [st2 [Hloop Hret]]].
    injection Hret as <- _. apply map_in_place_keys in Hloop.
    eexists. split; [reflexivity |]. split; [reflexivity |]. split; [| split].
    + apply dict_set_keys. unfold dict_in. now rewrite Hk.
    + now rewrite dict_get_set, String.eqb_refl.
    + intros k' Hne. rewrite dict_get_set.
      apply not_eq_sym, String.eqb_neq in Hne. now rewrite Hne.
  - exists d. rewrite Hk. repeat split.
Qed.

Lemma upgrade_sections_frame (sections : list (string * (pyval -> M pyval))) :
  NoDup (map fst sections) ->
  sections <> [] ->
  forall (m m' : pyval) (st st' : State),
    upgrade_sections sections m st = (Returned m', st') ->
    exists d d' : pydict,
      m = PDict d /\ m' = PDict d'
      /\ dict_keys d' = dict_keys d
      /\ (forall k, In k (map fst sections) -> same_keys_at k d d')
      /\ (forall k, ~ In k (map fst sections) -> dict_get k d' = dict_get k d).
Proof.
  induction sections as [| [k body] rest IH]; intros Hkeys Hne m m' st st' Hrun;
    [now contradiction Hne |].
  rewrite upgrade_sections_cons in Hrun.
  destruct (Util.upgrade_section k body m st) as [[m1 | e] st1] eqn:Hsection;
    [| discriminate].
  apply NoDup_cons in Hkeys as [Hk Hkeys].
  apply upgrade_section_frame in Hsection
    as [d [d1 [-> [-> [Hkeys1 [Hat1 Hsame1]]]]]].
  exists d. destruct rest as [| kb rest].
  - injection Hrun as <- _. exists d1.
    split; [reflexivity |]. split; [reflexivity |]. split; [exact Hkeys1 |].
    split.
    + intros k' [<- | []]. exact Hat1.
    + intros k' Hk'. apply Hsame1. intros ->. apply Hk'. now left.
  - apply IH in Hrun as [d1' [d' [Heq [-> [Hkeys' [Hat' Hsame']]]]]];
      [| exact Hkeys | discriminate].
    injection Heq as <-. exists d'.
    split; [reflexivity |]. split; [reflexivity |].
    split; [now rewrite Hkeys' |]. split.
    + intros k' [<- | Hin].
      * unfold same_keys_at in *. rewrite Hsame'; [exact Hat1 |].
        intros Hin. apply Hk. now apply list_elem_of_In.
      * specialize (Hat' k' Hin). unfold same_keys_at in *.
        rewrite <- (Hsame1 k'); [exact Hat' |].
        intros ->. apply Hk. now apply list_elem_of_In.
    + intros k' Hk'. rewrite Hsame'.
      * apply Hsame1. intros ->. apply Hk'. now left.
      * intros Hin. apply Hk'. now right.
Qed.

(** X15.  The manifest upgrade changes entries in place and nothing else:
    when it returns, the manifest was a dict, the upgraded manifest has the
    same top-level keys in the same order, each of the seven sections has
    the keys it had (a missing section is not created), and every other
    entry, [metadata] among them, is what it was.  A manifest that has none
    of the seven sections is returned as it is. *)
Theorem upgrade_manifest_json_keeps_shape
    (deprecations_warn : string -> pyval -> M unit)
    (manifest upgraded : pyval) (st st' : State)
    (Hrun : Util.upgrade_manifest_json deprecations_warn manifest st
            = (Returned upgraded, st')) :
  let sections :=
    ["nodes"; "disabled"; "metrics"; "exposures"; "sources"; "macros"; "docs"] in
  (exists d d' : pydict,
     manifest = PDict d /\ upgraded = PDict d'
     /\ dict_keys d' = dict_keys d
     /\ (forall k, In k sections -> same_keys_at k d d')
     /\ (forall k, ~ In k sections -> dict_get k d' = dict_get k d))
  /\ (forall (d : pydict) (st0 : State),
        (forall k, In k sections -> dict_get k d = None) ->
        Util.upgrade_manifest_json deprecations_warn (PDict d) st0
        = (Returned (PDict d), st0)).
Proof.
  intros sections. split.
  - rewrite upgrade_manifest_json_sections in Hrun.
    apply upgrade_sections_frame in Hrun; [exact Hrun | | discriminate].
    apply (bool_decide_unpack _). vm_compute. exact I.
  - intros d st0 Hnone. rewrite upgrade_manifest_json_sections.
    apply upgrade_sections_done.
    assert (Hdone : forall k body, In k sections -> section_done k body d).
    { intros k body Hin. unfold section_done. now rewrite (Hnone k Hin). }
    unfold manifest_sections.
    repeat (constructor; [apply Hdone; simpl; tauto |]). constructor.
Qed.

Lemma upgrade_manifest_json_keeps_shape_witness :
  exists d' : pydict,
    SampleManifest.upgraded 7 = PDict d'
    /\ dict_keys d' = ["metadata"; "nodes"; "disabled"; "metrics"; "docs"].
Proof.
  destruct (upgrade_manifest_json_keeps_shape SampleManifest.no_deprecation
              (SampleManifest.written_by_1_2 7) (SampleManifest.upgraded 7)
              Sample.start Sample.start eq_refl)
    as [[d [d' [Hd [Hd' [Hkeys _]]]]] _].
  exists d'. split; [exact Hd' |]. rewrite Hkeys.
  injection Hd as <-. reflexivity.
Defined.

(** ** Reading an artifact that cannot be used *)

Lemma elem_of_compatible_versions (c : VersionedSchema.cls)
    (current : SchemaVersion.t) (s : string) :
  VersionedSchema.is_compatible_version c current (PStr s) = true
  <-> s = SchemaVersion.str current
      \/ exists (previous : list (string * Z)) (name : string) (version : Z),
           VersionedSchema.compatible_previous_versions c = Some previous
           /\ In (name, version) previous
           /\ s = SchemaVersion.str {| SchemaVersion.name := name;
                                       SchemaVersion.version := version |}.
Proof.
  unfold VersionedSchema.is_compatible_version.
  rewrite bool_decide_eq_true. simpl. rewrite elem_of_cons.
  destruct (VersionedSchema.compatible_previous_versions c) as [previous |].
  - rewrite list_elem_of_In, in_map_iff. split.
    + intros [-> | [[name version] [<- Hin]]]; [now left |].
      right. now exists previous, name, version.
    + intros [-> | [previous' [name [version [Heq [Hin ->]]]]]]; [now left |].
      injection Heq as <-. right. now exists (name, version).
  - split.
    + intros [-> | Hin]; [now left | now apply elem_of_nil in Hin].
    + intros [-> | [previous' [name [version [Heq _]]]]];
        [now left | discriminate].
Qed.

(** X16.  What [read_and_check_versions] does with an artifact it cannot
    use.  A file that cannot be read or parsed ([EnvironmentError],
    [ValueError]) raises [DbtRuntimeError] with the class name, the path
    and the cause in its message.  An artifact whose schema version is not
    the version of the class nor one of its compatible previous versions
    raises [IncompatibleSchemaError] with the expected and the found
    version.  An artifact without [metadata], or whose [metadata] has no
    schema version, raises the bare [ValueError] of
    [get_manifest_schema_version].  In none of these cases is the data
    upgraded or handed to [from_dict]. *)
Theorem read_and_check_versions_errors (A : Type)
    (deprecations_warn : string -> pyval -> M unit)
    (read_json : string -> M pyval)
    (from_dict : VersionedSchema.cls -> pyval -> M A)
    (c : VersionedSchema.cls) (path : string) (st st1 : State) :
  let run :=
    VersionedSchema.read_and_check_versions A deprecations_warn read_json
      from_dict c path st in
  (forall exc : string,
     read_json path st = (Raised (EnvironmentError exc), st1)
     \/ read_json path st = (Raised (ValueError exc), st1) ->
     run = (Raised (DbtRuntimeError
                      ("Could not read " +:+ VersionedSchema.__name__ c
                       +:+ " at " +:+ dquote +:+ path +:+ dquote
                       +:+ " as JSON: " +:+ exc)), st1))
  /\ (forall (current : SchemaVersion.t) (dct metadata : pydict) (found : pyval),
        read_json path st = (Returned (PDict dct), st1) ->
        VersionedSchema.dbt_schema_version c = Some current ->
        dict_get "metadata" dct = Some (PDict metadata) ->
        dict_get "dbt_schema_version" metadata = Some found ->
        VersionedSchema.is_compatible_version c current found = false ->
        run = (Raised (IncompatibleSchemaError (SchemaVersion.str current) found),
               st1))
  /\ (forall dct : pydict,
        read_json path st = (Returned (PDict dct), st1) ->
        dict_get "metadata" dct = None
        \/ (exists metadata : pydict,
              dict_get "metadata" dct = Some (PDict metadata)
              /\ dict_get "dbt_schema_version" metadata = None) ->
        run = (Raised (ValueError "Manifest doesn't have schema version"), st1))
  /\ (forall (current : SchemaVersion.t) (found : string),
        VersionedSchema.is_compatible_version c current (PStr found) = true
        <-> found = SchemaVersion.str current
            \/ exists (previous : list (string * Z)) (name : string) (version : Z),
                 VersionedSchema.compatible_previous_versions c = Some previous
                 /\ In (name, version) previous
                 /\ found = SchemaVersion.str
                              {| SchemaVersion.name := name;
                                 SchemaVersion.version := version |}).
Proof.
  intros run. subst run. split; [| split; [| split]].
  - intros exc Hread. unfold VersionedSchema.read_and_check_versions.
    unfold bind at 1. destruct Hread as [-> | ->]; reflexivity.
  - intros current dct metadata found Hread Hcls Hmeta Hfound Hbad.
    unfold VersionedSchema.read_and_check_versions.
    unfold bind at 1. rewrite Hread, Hcls.
    unfold bind at 1.
    erewrite bind_run by reflexivity. cbv beta.
    rewrite dict_in_get, Hmeta.
    erewrite bind_run.
    2:{ erewrite bind_run by (unfold getitem; rewrite Hmeta; reflexivity).
        reflexivity. }
    cbv beta. rewrite dict_in_get, Hfound.
    erewrite bind_run by (unfold getitem; rewrite Hmeta; reflexivity).
    cbv beta.
    erewrite bind_run by (unfold getitem; rewrite Hfound; reflexivity).
    cbv beta. now rewrite Hbad.
  - intros dct Hread Hnone.
    assert (Hversion : Util.get_manifest_schema_version (PDict dct) st1
              = (Raised (ValueError "Manifest doesn't have schema version"),
                 st1)).
    { unfold Util.get_manifest_schema_version.
      destruct Hnone as [Hmeta | [metadata [Hmeta Hfound]]].
      - erewrite bind_run by (unfold get; rewrite Hmeta; simpl; reflexivity).
        cbv beta. erewrite bind_run by reflexivity. reflexivity.
      - erewrite bind_run by (unfold get; rewrite Hmeta; simpl; reflexivity).
        cbv beta.
        erewrite bind_run by (unfold get; rewrite Hfound; simpl; reflexivity).
        reflexivity. }
    assert (Hcheck :
              (match VersionedSchema.dbt_schema_version c with
               | Some current =>
                   let* has_metadata := contains "metadata" (PDict dct) in
                   let* has_version :=
                     (if has_metadata then
                        let* metadata := getitem "metadata" (PDict dct) in
                        contains "dbt_schema_version" metadata
                      else ret false) in
                   if has_version then
                     let* metadata := getitem "metadata" (PDict dct) in
                     let* previous_schema_version :=
                       getitem "dbt_schema_version" metadata in
                     if negb (VersionedSchema.is_compatible_version c current
                                previous_schema_version)
                     then raise (IncompatibleSchemaError
                                   (SchemaVersion.str current)
                                   previous_schema_version)
                     else ret tt
                   else ret tt
               | None => ret tt
               end) st1 = (Returned tt, st1)).
    { destruct (VersionedSchema.dbt_schema_version c) as [current |];
        [| reflexivity].
      erewrite bind_run by reflexivity. cbv beta. rewrite dict_in_get.
      destruct Hnone as [Hmeta | [metadata [Hmeta Hfound]]]; rewrite Hmeta.
      - erewrite bind_run by reflexivity. reflexivity.
      - erewrite bind_run.
        2:{ erewrite bind_run by (unfold getitem; rewrite Hmeta; reflexivity).
            reflexivity. }
        cbv beta. rewrite dict_in_get, Hfound. reflexivity. }
    unfold VersionedSchema.read_and_check_versions.
    unfold bind at 1. rewrite Hread.
    erewrite bind_run by exact Hcheck. cbv beta.
    unfold bind at 1. now rewrite Hversion.
  - intros current found. apply elem_of_compatible_versions.
Qed.

Lemma read_and_check_versions_errors_witness :
  VersionedSchema.read_and_check_versions pyval SampleManifest.no_deprecation
    (fun path => ret (SampleManifest.written_by_1_2 3))
    (fun c data => ret data)
    (SampleManifest.manifest_class 9) "target/manifest.json" Sample.start
  = (Raised (IncompatibleSchemaError (SampleManifest.version_url 9)
               (PStr (SampleManifest.version_url 3))), Sample.start).
Proof.
  destruct (read_and_check_versions_errors pyval SampleManifest.no_deprecation
              (fun path => ret (SampleManifest.written_by_1_2 3))
              (fun c data => ret data)
              (SampleManifest.manifest_class 9) "target/manifest.json"
              Sample.start Sample.start) as [_ [Hbad _]].
  eapply Hbad; reflexivity.
Defined.

(** ** The database of a relation *)

(** X17.  After [HasRelationMetadata.__pre_deserialize__] the data always
    has a [database] entry: the one it had, or [None], added last, when it
    had none.  Every other entry is as the base method returned it, so
    applying the step again changes nothing; data that is not a dict
    raises [TypeError]. *)
Theorem pre_deserialize_sets_database (base : pyval -> M pyval)
    (data : pyval) (d : pydict) (st st1 : State)
    (Hbase : base data st = (Returned (PDict d), st1)) :
  (exists d' : pydict,
     HasRelationMetadata.__pre_deserialize__ base data st
     = (Returned (PDict d'), st1)
     /\ dict_get "database" d' = Some (default PNone (dict_get "database" d))
     /\ (forall k, k <> "database" -> dict_get k d' = dict_get k d)
     /\ d' = (if dict_in "database" d then d else d ++ [("database", PNone)])
     /\ forall st2 : State,
          HasRelationMetadata.__pre_deserialize__ ret (PDict d') st2
          = (Returned (PDict d'), st2))
  /\ (forall (other : pyval),
        (forall items, other <> PDict items) ->
        (forall s, other <> PStr s) ->
        (forall l, other <> PList l) ->
        HasRelationMetadata.__pre_deserialize__ ret other st
        = (Raised TypeError, st)).
Proof.
  split.
  - unfold HasRelationMetadata.__pre_deserialize__.
    exists (if dict_in "database" d then d else d ++ [("database", PNone)]).
    erewrite bind_run by exact Hbase. cbv beta.
    erewrite bind_run by reflexivity. cbv beta.
    rewrite !dict_in_get.
    destruct (dict_get "database" d) as [database |] eqn:Hdatabase; simpl.
    + split; [reflexivity |]. split; [exact Hdatabase |].
      split; [reflexivity |]. split; [reflexivity |].
      intros st2. erewrite bind_run by reflexivity. cbv beta.
      erewrite bind_run by reflexivity. cbv beta.
      now rewrite dict_in_get, Hdatabase.
    + unfold setitem, ret. rewrite (dict_set_absent _ _ _ Hdatabase).
      assert (Hadded : dict_get "database" (d ++ [("database", PNone)])
                       = Some PNone).
      { rewrite <- (dict_set_absent _ _ _ Hdatabase).
        now rewrite dict_get_set. }
      split; [reflexivity |]. split; [exact Hadded |]. split.
      * intros k Hk. rewrite <- (dict_set_absent _ _ _ Hdatabase).
        rewrite dict_get_set. apply not_eq_sym, String.eqb_neq in Hk.
        now rewrite Hk.
      * split; [reflexivity |]. intros st2.
        unfold bind, contains. simpl. now rewrite dict_in_get, Hadded.
  - intros other Hdict Hstr Hlist. destruct other; try reflexivity.
    + now contradiction (Hstr s).
    + now contradiction (Hlist l).
    + now contradiction (Hdict d0).
Qed.

Lemma pre_deserialize_sets_database_witness :
  exists d' : pydict,
    HasRelationMetadata.__pre_deserialize__ ret
      (PDict [("schema", PStr "main")]) Sample.start
    = (Returned (PDict d'), Sample.start)
    /\ dict_get "database" d' = Some PNone.
Proof.
  destruct (pre_deserialize_sets_database ret (PDict [("schema", PStr "main")])
              [("schema", PStr "main")] Sample.start Sample.start eq_refl)
    as [[d' [Hrun [Hdatabase _]]] _].
  exists d'. split; [exact Hrun | exact Hdatabase].
Defined.

(** ** Packages *)

Section new_project_facts.
Variable translate_aliases : Profile.t -> pydict -> pydict.
Variable get_default_quote_policy : string -> Policy.t.
Variable parse_cli_vars : pydict -> pydict.
Variable validate : RuntimeConfig.t -> M unit.
Variable profile_validate : Profile.t -> M unit.
Variable from_project_root : string -> Profile.t -> M Project.t.

Local Abbreviation new_project :=
  (Packages.new_project translate_aliases get_default_quote_policy
     parse_cli_vars validate profile_validate from_project_root).

Lemma new_project_returned (self cfg : RuntimeConfig.t) (project_root : string)
    (st st' : State) :
  new_project self project_root st = (Returned cfg, st') ->
  exists (project : Project.t) (st1 st2 : State),
    profile_validate (Packages.to_profile self) st = (Returned tt, st1)
    /\ from_project_root project_root (Packages.to_profile self) st1
       = (Returned project, st2)
    /\ RuntimeConfig.quoting cfg = RuntimeConfig.quoting self
    /\ RuntimeConfig.project_name cfg = Project.project_name project
    /\ RuntimeConfig.project_root cfg = Project.project_root project
    /\ RuntimeConfig.packages cfg = Project.packages project
    /\ Packages.to_profile cfg = Packages.to_profile self
    /\ RuntimeConfig.args cfg = RuntimeConfig.args self
    /\ RuntimeConfig.dependencies cfg = None.
Proof.
  intros Hrun. unfold Packages.new_project in Hrun.
  apply bind_returned in Hrun as [[] [st1 [Hprofile Hrun]]].
  apply bind_returned in Hrun as [project [st2 [Hproject Hrun]]].
  apply bind_returned in Hrun as [runtime_config [st3 [Hparts Hrun]]].
  injection Hrun as <- _.
  unfold RuntimeConfig.from_parts in Hparts.
  apply bind_returned in Hparts as [[] [st4 [_ Hparts]]].
  injection Hparts as <- _.
  exists project, st1, st2. repeat split; assumption.
Qed.

(** X18.  A package project made by [new_project] takes everything about
    the project from the project file under the new root, and the profile,
    the arguments and the quoting from the configuration that loads it: the
    quoting the package declares, and the default of the adapter, are
    discarded.  Its own dependencies are not loaded.  It is made only
    after the cloned profile has been validated and the project file has
    been read. *)
Theorem new_project_forces_quoting (self cfg : RuntimeConfig.t)
    (project_root : string) (st st' : State)
    (Hrun : new_project self project_root st = (Returned cfg, st')) :
  RuntimeConfig.quoting cfg = RuntimeConfig.quoting self
  /\ RuntimeConfig.args cfg = RuntimeConfig.args self
  /\ Packages.to_profile cfg = Packages.to_profile self
  /\ RuntimeConfig.dependencies cfg = None
  /\ exists (project : Project.t) (st1 st2 : State),
       profile_validate (Packages.to_profile self) st = (Returned tt, st1)
       /\ from_project_root project_root (Packages.to_profile self) st1
          = (Returned project, st2)
       /\ RuntimeConfig.project_name cfg = Project.project_name project
       /\ RuntimeConfig.project_root cfg = Project.project_root project
       /\ RuntimeConfig.packages cfg = Project.packages project.
Proof.
  apply new_project_returned in Hrun
    as [project [st1 [st2 [Hprofile [Hproject [Hquoting [Hname [Hroot
         [Hpackages [Hsame [Hargs Hdeps]]]]]]]]]]].
  split; [exact Hquoting |]. split; [exact Hargs |]. split; [exact Hsame |].
  split; [exact Hdeps |]. now exists project, st1, st2.
Qed.
End new_project_facts.

Lemma new_project_forces_quoting_witness :
  exists cfg : RuntimeConfig.t,
    SamplePackages.new_project SampleProject.runtime_config
      "/work/taxi_rides_ny/dbt_packages/dbt_utils" Sample.start
    = (Returned cfg, Sample.start)
    /\ RuntimeConfig.quoting cfg
       = [("database", PBool true); ("schema", PBool true);
          ("identifier", PBool true)].
Proof.
  eexists. split; [reflexivity |].
  apply (new_project_forces_quoting SampleProject.no_aliases
           (fun _ => SampleProject.all_quoted) (fun _ => [])
           SampleProject.always_valid (fun _ => ret tt)
           SamplePackages.from_project_root SampleProject.runtime_config _
           "/work/taxi_rides_ny/dbt_packages/dbt_utils"
           Sample.start Sample.start eq_refl).
Defined.

Section loading_packages.
Variable get_include_paths : string -> list string.
Variable path_join : string -> string -> string.
Variable iterdir : string -> option (list (string * bool)).
Variable new_project : RuntimeConfig.t -> string -> M RuntimeConfig.t.

Local Abbreviation load_dependencies :=
  (RuntimeConfig.load_dependencies get_include_paths path_join iterdir
     new_project).
Local Abbreviation paths_of :=
  (project_paths get_include_paths path_join iterdir).
Local Abbreviation entry :=
  (fun project : RuntimeConfig.t => (RuntimeConfig.project_name project, project)).

Lemma load_project_returned (self project : RuntimeConfig.t)
    (path name : string) (st st' : State) :
  RuntimeConfig.load_project new_project self path st
  = (Returned (name, project), st') ->
  new_project self path st = (Returned project, st')
  /\ name = RuntimeConfig.project_name project.
Proof.
  unfold RuntimeConfig.load_project.
  destruct (new_project self path st) as [[p | []] st1]; try discriminate.
  intros [= <- <- <-]. split; reflexivity.
Qed.

Lemma collect_projects_returned (self : RuntimeConfig.t) (paths : list string) :
  forall (acc all : list (string * RuntimeConfig.t)) (st st' : State),
    RuntimeConfig.collect_projects new_project self paths acc st
    = (Returned all, st') ->
    exists projects : list RuntimeConfig.t,
      Forall2 (fun path project =>
                 exists st0 st1 : State,
                   new_project self path st0 = (Returned project, st1))
        paths projects
      /\ all = acc ++ map entry projects
      /\ (NoDup (dict_keys acc) -> NoDup (dict_keys all)).
Proof.
  induction paths as [| path rest IH]; intros acc all st st' Hrun.
  - injection Hrun as <- _. exists []. rewrite app_nil_r.
    split; [constructor |]. split; [reflexivity | trivial].
  - cbn [RuntimeConfig.collect_projects] in Hrun.
    apply bind_returned in Hrun as [[name project] [st1 [Hload Hrun]]].
    apply load_project_returned in Hload as [Hnew ->].
    destruct (dict_in (RuntimeConfig.project_name project) acc) eqn:Hin;
      [discriminate |].
    assert (Hfresh : dict_get (RuntimeConfig.project_name project) acc = None).
    { rewrite dict_in_get in Hin.
      now destruct (dict_get (RuntimeConfig.project_name project) acc). }
    rewrite (dict_set_absent _ _ _ Hfresh) in Hrun.
    apply IH in Hrun as [projects [Hloaded [-> Hnodup]]].
    exists (project :: projects). split; [| split].
    + constructor; [now exists st, st1 | exact Hloaded].
    + now rewrite <- app_assoc.
    + intros Hacc. apply Hnodup. unfold dict_keys. rewrite map_app.
      apply NoDup_app. split; [exact Hacc |]. split.
      * intros k Hk Hk'. simpl in Hk'. apply list_elem_of_singleton in Hk'.
        subst k. revert Hk. change (map fst acc) with (dict_keys acc).
        now apply dict_get_None_keys_any.
      * simpl. apply NoDup_singleton.
Qed.

Lemma load_dependencies_returned (self self' : RuntimeConfig.t)
    (base_only : bool) (deps : list (string * RuntimeConfig.t))
    (st st' : State) :
  RuntimeConfig.dependencies self = None ->
  load_dependencies self base_only st = (Returned (deps, self'), st') ->
  RuntimeConfig.collect_projects new_project self (paths_of self base_only)
    [entry self] st = (Returned deps, st')
  /\ self' = RuntimeConfig.set_dependencies self (Some deps).
Proof.
  intros Hunset Hrun. unfold RuntimeConfig.load_dependencies in Hrun.
  rewrite Hunset in Hrun.
  apply bind_returned in Hrun as [paths [st1 [Hpaths Hrun]]].
  apply bind_returned in Hrun as [all [st2 [Hcollect Hrun]]].
  injection Hrun as <- <- <-.
  assert (Heq : paths = paths_of self base_only /\ st1 = st).
  { unfold project_paths. destruct base_only.
    - injection Hpaths as <- <-. now rewrite app_nil_r.
    - destruct (_ <? _)%nat; [discriminate |].
      injection Hpaths as <- <-. split; reflexivity. }
  destruct Heq as [-> ->]. split; [exact Hcollect | reflexivity].
Qed.
End loading_packages.

(** X19.  Quoting is one policy for the whole invocation: when
    [load_dependencies] builds the mapping, every project in it, the root
    and each package loaded through [new_project], is stored under its own
    name and has the quoting and the profile of the root; and no package
    has dependencies of its own loaded. *)
Theorem dependencies_share_quoting
    (translate_aliases : Profile.t -> pydict -> pydict)
    (get_default_quote_policy : string -> Policy.t)
    (parse_cli_vars : pydict -> pydict)
    (validate : RuntimeConfig.t -> M unit)
    (profile_validate : Profile.t -> M unit)
    (from_project_root : string -> Profile.t -> M Project.t)
    (get_include_paths : string -> list string)
    (path_join : string -> string -> string)
    (iterdir : string -> option (list (string * bool)))
    (self self' : RuntimeConfig.t) (base_only : bool)
    (deps : list (string * RuntimeConfig.t)) (st st' : State)
    (Hunset : RuntimeConfig.dependencies self = None)
    (Hrun : RuntimeConfig.load_dependencies get_include_paths path_join iterdir
              (Packages.new_project translate_aliases get_default_quote_policy
                 parse_cli_vars validate profile_validate from_project_root)
              self base_only st
            = (Returned (deps, self'), st')) :
  forall (name : string) (project : RuntimeConfig.t),
    In (name, project) deps ->
    name = RuntimeConfig.project_name project
    /\ RuntimeConfig.quoting project = RuntimeConfig.quoting self
    /\ Packages.to_profile project = Packages.to_profile self
    /\ (name <> RuntimeConfig.project_name self ->
        RuntimeConfig.dependencies project = None).
Proof.
  intros name project Hin.
  apply load_dependencies_returned in Hrun as [Hcollect _]; [| exact Hunset].
  apply collect_projects_returned in Hcollect as [projects [Hloaded [-> _]]].
  apply in_app_or in Hin as [Hin | Hin].
  - destruct Hin as [[= <- <-] | []]. repeat split. intros Hne.
    now contradiction Hne.
  - apply in_map_iff in Hin as [p [[= <- <-] Hp]].
    split; [reflexivity |].
    assert (Hnew : exists path st0 st1,
              Packages.new_project translate_aliases get_default_quote_policy
                parse_cli_vars validate profile_validate from_project_root
                self path st0 = (Returned p, st1)).
    { clear - Hloaded Hp. induction Hloaded as [| path q paths qs Hq _ IH];
        [contradiction |].
      destruct Hp as [-> | Hp]; [| now apply IH].
      destruct Hq as [st0 [st1 Hq]]. now exists path, st0, st1. }
    destruct Hnew as [path [st0 [st1 Hnew]]].
    apply new_project_returned in Hnew
      as [_ [_ [_ [_ [_ [Hquoting [_ [_ [_ [Hsame [_ Hdeps]]]]]]]]]]].
    split; [exact Hquoting |]. split; [exact Hsame |]. intros _. exact Hdeps.
Qed.

Lemma dependencies_share_quoting_witness :
  RuntimeConfig.quoting
    (RuntimeConfig.Build "/site-packages/dbt/include/duckdb"
       "/site-packages/dbt/include/duckdb" "dbt_packages"
       (Policy.to_dict SampleProject.all_quoted) [] [] [] [] [] [] [] []
       "taxi_rides_ny" "dev" 4 "duckdb" [] [] None)
  = RuntimeConfig.quoting SampleProject.runtime_config
  /\ RuntimeConfig.dependencies
       (RuntimeConfig.Build "/site-packages/dbt/include/duckdb"
          "/site-packages/dbt/include/duckdb" "dbt_packages"
          (Policy.to_dict SampleProject.all_quoted) [] [] [] [] [] [] [] []
          "taxi_rides_ny" "dev" 4 "duckdb" [] [] None)
     = None.
Proof.
  destruct (dependencies_share_quoting SampleProject.no_aliases
              (fun _ => SampleProject.all_quoted) (fun _ => [])
              SampleProject.always_valid (fun _ => ret tt)
              SamplePackages.from_project_root SamplePackages.include_paths
              SampleProject.path_join SampleProject.iterdir
              SampleProject.runtime_config _ true _ Sample.start Sample.start
              eq_refl eq_refl "/site-packages/dbt/include/duckdb"
              (RuntimeConfig.Build "/site-packages/dbt/include/duckdb"
                 "/site-packages/dbt/include/duckdb" "dbt_packages"
                 (Policy.to_dict SampleProject.all_quoted)
                 [] [] [] [] [] [] [] []
                 "taxi_rides_ny" "dev" 4 "duckdb" [] [] None))
    as [_ [Hquoting [_ Hdeps]]].
  - simpl. right. right. now left.
  - split; [exact Hquoting |]. apply Hdeps. discriminate.
Defined.

(** X20.  [load_dependencies] builds the mapping once.  Built, the mapping
    starts with the root project under its own name, followed by one entry
    for each project path in the order of the paths, every entry under the
    name of its project, and no name occurs twice; the root then holds the
    mapping as its [dependencies] and is otherwise unchanged.  A further
    call returns the same mapping whatever [base_only] says, loads nothing
    and fires nothing, until [clear_dependencies] forgets it. *)
Theorem load_dependencies_builds_once
    (get_include_paths : string -> list string)
    (path_join : string -> string -> string)
    (iterdir : string -> option (list (string * bool)))
    (new_project : RuntimeConfig.t -> string -> M RuntimeConfig.t)
    (self self' : RuntimeConfig.t) (base_only : bool)
    (deps : list (string * RuntimeConfig.t)) (st st' : State)
    (Hunset : RuntimeConfig.dependencies self = None)
    (Hrun : RuntimeConfig.load_dependencies get_include_paths path_join iterdir
              new_project self base_only st
            = (Returned (deps, self'), st')) :
  (exists (root : RuntimeConfig.t) (projects : list RuntimeConfig.t),
     deps = (RuntimeConfig.project_name self, root)
            :: map (fun project => (RuntimeConfig.project_name project, project))
                 projects
     /\ Packages.clear_dependencies root = self
     /\ Forall2 (fun path project =>
                   exists st0 st1 : State,
                     new_project self path st0 = (Returned project, st1))
          (project_paths get_include_paths path_join iterdir self base_only)
          projects)
  /\ NoDup (dict_keys deps)
  /\ self' = RuntimeConfig.set_dependencies self (Some deps)
  /\ (forall (again : bool) (st2 : State),
        RuntimeConfig.load_dependencies get_include_paths path_join iterdir
          new_project self' again st2
        = (Returned (deps, self'), st2))
  /\ Packages.clear_dependencies self' = self.
Proof.
  assert (Hclear : Packages.clear_dependencies self = self).
  { destruct self. simpl in Hunset. now subst. }
  apply load_dependencies_returned in Hrun as [Hcollect ->]; [| exact Hunset].
  apply collect_projects_returned in Hcollect as [projects [Hloaded [-> Hnodup]]].
  split; [now exists self, projects |]. split.
  - apply Hnodup. simpl. apply NoDup_singleton.
  - split; [reflexivity |]. split; [reflexivity |].
    destruct self. simpl in Hunset. now subst.
Qed.

Lemma load_dependencies_builds_once_witness :
  NoDup
    (dict_keys
       [("taxi_rides_ny", SampleProject.runtime_config);
        ("/site-packages/dbt/include/duckdb",
         RuntimeConfig.Build "/site-packages/dbt/include/duckdb"
           "/site-packages/dbt/include/duckdb" "dbt_packages"
           (Policy.to_dict SampleProject.all_quoted) [] [] [] [] [] [] [] []
           "taxi_rides_ny" "dev" 4 "duckdb" [] [] None)]).
Proof.
  exact (proj1 (proj2
           (load_dependencies_builds_once
              (fun _ => ["/site-packages/dbt/include/duckdb"])
              SampleProject.path_join SampleProject.iterdir
              SampleProject.new_project SampleProject.runtime_config _ true _
              Sample.start Sample.start eq_refl eq_refl))).
Defined.

Lemma dict_in_keys {V : Type} (k : string) (d : list (string * V)) :
  dict_in k d = existsb (String.eqb k) (dict_keys d).
Proof.
  unfold dict_in. induction d as [| [k0 v0] r IH]; simpl; [reflexivity |].
  rewrite (String.eqb_sym k k0).
  destruct (String.eqb k0 k); simpl; [reflexivity | exact IH].
Qed.

Lemma existsb_eqb_In (name : string) (l : list string) :
  existsb (String.eqb name) l = true <-> In name l.
Proof.
  rewrite existsb_exists. split.
  - intros [x [Hin Heq]]. apply String.eqb_eq in Heq. now subst.
  - intros Hin. exists name. split; [exact Hin | apply String.eqb_refl].
Qed.

Lemma first_collision_none (names : list string) :
  forall seen : list string,
    first_collision seen names = None
    <-> (forall name, In name names -> ~ In name seen) /\ List.NoDup names.
Proof.
  induction names as [| name rest IH]; intros seen; simpl.
  - split; [intros _; split; [tauto | constructor] | reflexivity].
  - destruct (existsb (String.eqb name) seen) eqn:Hseen.
    + apply existsb_eqb_In in Hseen. split; [discriminate |].
      intros [Hfresh _]. exfalso. apply (Hfresh name); [now left | exact Hseen].
    + assert (Hnot : ~ In name seen).
      { intros Hin. apply existsb_eqb_In in Hin. congruence. }
      rewrite IH. split.
      * intros [Hfresh Hnodup]. split.
        -- intros n [<- | Hn]; [exact Hnot |].
           intros Hin. apply (Hfresh n Hn). apply in_or_app. now left.
        -- constructor; [| exact Hnodup].
           intros Hin. apply (Hfresh name Hin). apply in_or_app. right. now left.
      * intros [Hfresh Hnodup]. apply List.NoDup_cons_iff in Hnodup as [Hname Hnodup].
        split; [| exact Hnodup].
        intros n Hn Hin. apply in_app_or in Hin as [Hin | [<- | []]].
        -- apply (Hfresh n); [now right | exact Hin].
        -- contradiction.
Qed.

Lemma first_collision_some (names : list string) :
  forall (seen : list string) (name : string),
    first_collision seen names = Some name ->
    exists before after : list string,
      names = before ++ name :: after
      /\ (In name seen \/ In name before)
      /\ first_collision seen before = None.
Proof.
  induction names as [| n rest IH]; intros seen name; simpl; [discriminate |].
  destruct (existsb (String.eqb n) seen) eqn:Hseen.
  - intros [= <-]. exists [], rest. split; [reflexivity |].
    split; [left; now apply existsb_eqb_In | reflexivity].
  - intros Hrest. apply IH in Hrest as [before [after [-> [Hin Hnone]]]].
    exists (n :: before), after. split; [reflexivity |]. split.
    + destruct Hin as [Hin | Hin]; [| right; now right].
      apply in_app_or in Hin as [Hin | [<- | []]]; [now left | right; now left].
    + simpl. now rewrite Hseen.
Qed.

Section loading_from_a_listing.
Variable get_include_paths : string -> list string.
Variable path_join : string -> string -> string.
Variable iterdir : string -> option (list (string * bool)).
Variable new_project : RuntimeConfig.t -> string -> M RuntimeConfig.t.

Lemma collect_projects_loaded (self : RuntimeConfig.t)
    (load : string -> RuntimeConfig.t) (paths : list string) :
  (forall (path : string) (st0 : State),
     new_project self path st0 = (Returned (load path), st0)) ->
  forall (acc : list (string * RuntimeConfig.t)) (st : State),
    RuntimeConfig.collect_projects new_project self paths acc st
    = match first_collision (dict_keys acc)
              (map (fun path => RuntimeConfig.project_name (load path)) paths)
      with
      | Some name => (Raised (NonUniquePackageNameError name), st)
      | None =>
          (Returned
             (acc ++ map (fun path =>
                            (RuntimeConfig.project_name (load path), load path))
                      paths), st)
      end.
Proof.
  intros Hloads. induction paths as [| path rest IH]; intros acc st.
  - simpl. now rewrite app_nil_r.
  - cbn [RuntimeConfig.collect_projects map first_collision].
    unfold bind at 1, RuntimeConfig.load_project. rewrite Hloads.
    rewrite dict_in_keys.
    destruct (existsb (String.eqb (RuntimeConfig.project_name (load path)))
                (dict_keys acc)) eqn:Hseen; [reflexivity |].
    assert (Hfresh : dict_get (RuntimeConfig.project_name (load path)) acc = None).
    { rewrite <- dict_in_keys in Hseen. unfold dict_in in Hseen.
      now destruct (dict_get (RuntimeConfig.project_name (load path)) acc). }
    rewrite (dict_set_absent _ _ _ Hfresh), IH.
    unfold dict_keys. rewrite map_app. simpl.
    destruct (first_collision _ _); [reflexivity |].
    now rewrite <- app_assoc.
Qed.

End loading_from_a_listing.

(** X21.  Package names must be unique.  When every project path loads,
    [load_dependencies] raises [NonUniquePackageNameError] for the first
    package whose name is the name of the root project or of a package
    loaded before it, and returns the mapping exactly when the names of
    the root and of all packages differ from one another. *)
Theorem load_dependencies_rejects_duplicate_names
    (get_include_paths : string -> list string)
    (path_join : string -> string -> string)
    (iterdir : string -> option (list (string * bool)))
    (new_project : RuntimeConfig.t -> string -> M RuntimeConfig.t)
    (load : string -> RuntimeConfig.t)
    (self : RuntimeConfig.t) (base_only : bool) (st : State)
    (Hunset : RuntimeConfig.dependencies self = None)
    (Hinstalled :
       base_only = true
       \/ (length (RuntimeConfig.packages self)
           <= length (RuntimeConfig._get_project_directories path_join iterdir
                        self))%nat)
    (Hloads : forall (path : string) (st0 : State),
        new_project self path st0 = (Returned (load path), st0)) :
  let paths := project_paths get_include_paths path_join iterdir self base_only in
  let names := map (fun path => RuntimeConfig.project_name (load path)) paths in
  let run :=
    RuntimeConfig.load_dependencies get_include_paths path_join iterdir
      new_project self base_only st in
  (List.NoDup (RuntimeConfig.project_name self :: names) ->
   exists deps : list (string * RuntimeConfig.t),
     run = (Returned (deps, RuntimeConfig.set_dependencies self (Some deps)), st)
     /\ dict_keys deps = RuntimeConfig.project_name self :: names)
  /\ (~ List.NoDup (RuntimeConfig.project_name self :: names) ->
      exists (name : string) (before after : list string),
        run = (Raised (NonUniquePackageNameError name), st)
        /\ names = before ++ name :: after
        /\ In name (RuntimeConfig.project_name self :: before)
        /\ List.NoDup (RuntimeConfig.project_name self :: before)).
Proof.
  intros paths names run.
  assert (Hrun : run
            = match first_collision [RuntimeConfig.project_name self] names with
              | Some name => (Raised (NonUniquePackageNameError name), st)
              | None =>
                  let deps :=
                    [(RuntimeConfig.project_name self, self)]
                    ++ map (fun path =>
                              (RuntimeConfig.project_name (load path), load path))
                         paths in
                  (Returned (deps, RuntimeConfig.set_dependencies self (Some deps)),
                   st)
              end).
  { unfold run, RuntimeConfig.load_dependencies. rewrite Hunset.
    assert (Hpaths :
              (if base_only
               then ret (get_include_paths (RuntimeConfig.credentials_type self))
               else
                 if (length (RuntimeConfig._get_project_directories path_join
                               iterdir self)
                     <? length (RuntimeConfig.packages self))%nat
                 then raise (UninstalledPackagesFoundError
                               (length (RuntimeConfig.packages self))
                               (length (RuntimeConfig._get_project_directories
                                          path_join iterdir self))
                               (RuntimeConfig.packages_install_path self))
                 else ret (get_include_paths (RuntimeConfig.credentials_type self)
                           ++ RuntimeConfig._get_project_directories path_join
                                iterdir self)) st
              = (Returned paths, st)).
    { unfold paths, project_paths. destruct base_only.
      - now rewrite app_nil_r.
      - destruct Hinstalled as [Hb | Hle]; [discriminate |].
        apply Nat.ltb_ge in Hle. now rewrite Hle. }
    erewrite bind_run by exact Hpaths. cbv beta.
    unfold bind at 1.
    rewrite (collect_projects_loaded new_project self load paths Hloads).
    simpl dict_keys. fold names.
    now destruct (first_collision [RuntimeConfig.project_name self] names). }
  assert (Hnone : first_collision [RuntimeConfig.project_name self] names = None
                  <-> List.NoDup (RuntimeConfig.project_name self :: names)).
  { rewrite first_collision_none, List.NoDup_cons_iff. simpl. split.
    - intros [Hfresh Hnodup]. split; [| exact Hnodup].
      intros Hin. apply (Hfresh _ Hin). now left.
    - intros [Hfresh Hnodup]. split; [| exact Hnodup].
      intros name Hin [<- | []]. contradiction. }
  split.
  - intros Hnodup. apply Hnone in Hnodup. rewrite Hrun, Hnodup. cbv zeta.
    eexists. split; [reflexivity |].
    simpl. f_equal. unfold dict_keys, names. rewrite map_map. reflexivity.
  - intros Hdup.
    destruct (first_collision [RuntimeConfig.project_name self] names)
      as [name |] eqn:Hfirst;
      [| exfalso; apply Hdup; now apply Hnone].
    apply first_collision_some in Hfirst as [before [after [Hnames [Hin Hbefore]]]].
    exists name, before, after. split; [now rewrite Hrun |].
    split; [exact Hnames |]. split.
    + destruct Hin as [[<- | []] | Hin]; [now left | now right].
    + apply first_collision_none in Hbefore as [Hfresh Hnodup].
      constructor; [| exact Hnodup].
      intros Hin'. apply (Hfresh _ Hin'). now left.
Qed.

Lemma load_dependencies_rejects_duplicate_names_witness :
  exists name : string,
    RuntimeConfig.load_dependencies (fun _ => ["taxi_rides_ny"])
      SampleProject.path_join SampleProject.iterdir SampleProject.new_project
      SampleProject.runtime_config true Sample.start
    = (Raised (NonUniquePackageNameError name), Sample.start).
Proof.
  destruct (load_dependencies_rejects_duplicate_names
              (fun _ => ["taxi_rides_ny"])
              SampleProject.path_join SampleProject.iterdir
              SampleProject.new_project
              (fun path =>
                 RuntimeConfig.Build path path "dbt_packages"
                   (Policy.to_dict SampleProject.all_quoted)
                   [] [] [] [] [] [] [] [] "taxi_rides_ny" "dev" 4 "duckdb"
                   [] [] None)
              SampleProject.runtime_config true Sample.start eq_refl
              (or_introl eq_refl) (fun path st0 => eq_refl))
    as [_ Hdup].
  destruct Hdup as [name [before [after [Hrun _]]]].
  - intros Hnodup. apply List.NoDup_cons_iff in Hnodup as [Hnotin _].
    apply Hnotin. now left.
  - exists name. exact Hrun.
Defined.



(** ** Resource config paths *)

Lemma foldl_union_spec {A : Type} (step : gset (list string) -> A -> gset (list string))
    (C : A -> list string -> Prop) (items : list A) (p : list string) :
  (forall paths kv, In kv items -> p ∈ step paths kv <-> p ∈ paths \/ C kv p) ->
  forall paths : gset (list string),
    p ∈ foldl step paths items <-> p ∈ paths \/ exists kv, In kv items /\ C kv p.
Proof.
  induction items as [| kv rest IH]; intros Hstep paths; simpl.
  - split; [now left | intros [H | [kv [[] _]]]; exact H].
  - rewrite IH by (intros paths' kv' Hin; apply Hstep; now right).
    rewrite Hstep by now left. split.
    + intros [[H | H] | [kv' [Hin H]]].
      * now left.
      * right. exists kv. split; [now left | exact H].
      * right. exists kv'. split; [now right | exact H].
    + intros [H | [kv' [[<- | Hin] H]]].
      * left. now left.
      * left. now right.
      * right. now exists kv'.
Qed.

Lemma _get_config_paths_dict (items : pydict) (path : list string)
    (paths : gset (list string)) :
  RuntimeConfig._get_config_paths (PDict items) path paths
  = foldl
      (fun paths kv =>
         match snd kv with
         | PDict _ =>
             if negb (startswith "+" (fst kv))
             then RuntimeConfig._get_v2_config_paths (snd kv)
                    (path ++ [fst kv]) paths
             else {[ path ]} ∪ paths
         | _ => {[ path ]} ∪ paths
         end)
      paths items.
Proof.
  cbn [RuntimeConfig._get_config_paths].
  revert paths. induction items as [| [key value] rest IH]; intros paths;
    [reflexivity |].
  cbn [foldl fst snd]. rewrite <- IH. reflexivity.
Qed.

Lemma _get_v2_config_paths_dict (items : pydict) (path : list string)
    (paths : gset (list string)) :
  RuntimeConfig._get_v2_config_paths (PDict items) path paths
  = foldl
      (fun paths kv =>
         match snd kv with
         | PDict _ =>
             if negb (startswith "+" (fst kv))
             then RuntimeConfig._get_config_paths (snd kv)
                    (path ++ [fst kv]) paths
             else {[ path ]} ∪ paths
         | _ => {[ path ]} ∪ paths
         end)
      paths items.
Proof.
  cbn [RuntimeConfig._get_v2_config_paths].
  revert paths. induction items as [| [key value] rest IH]; intros paths;
    [reflexivity |].
  cbn [foldl fst snd]. rewrite <- IH. reflexivity.
Qed.

Lemma is_config_path_dict (items : pydict) (path p : list string) :
  (exists suffix, p = path ++ suffix /\ is_config_path suffix (PDict items) = true)
  <-> exists kv,
        In kv items
        /\ (if is_setting (fst kv) (snd kv) then p = path
            else exists suffix,
                   p = (path ++ [fst kv]) ++ suffix
                   /\ is_config_path suffix (snd kv) = true).
Proof.
  split.
  - intros [[| key rest] [-> Hpath]]; simpl in Hpath;
      apply existsb_exists in Hpath as [kv [Hin Hkv]]; exists kv;
      (split; [exact Hin |]).
    + rewrite Hkv. now rewrite app_nil_r.
    + apply andb_prop in Hkv as [Hkv Hrest]. apply andb_prop in Hkv as [Hkey Hset].
      apply String.eqb_eq in Hkey. apply negb_true_iff in Hset. rewrite Hset.
      exists rest. subst key. split; [now rewrite <- app_assoc | exact Hrest].
  - intros [kv [Hin Hkv]].
    destruct (is_setting (fst kv) (snd kv)) eqn:Hset.
    + exists []. rewrite app_nil_r. split; [exact Hkv |]. simpl.
      apply existsb_exists. now exists kv.
    + destruct Hkv as [suffix [-> Hrest]]. exists (fst kv :: suffix).
      split; [now rewrite <- app_assoc |]. simpl.
      apply existsb_exists. exists kv. split; [exact Hin |].
      now rewrite String.eqb_refl, Hset, Hrest.
Qed.

Lemma config_paths_mem (config : pyval) :
  forall (path : list string) (paths : gset (list string)) (p : list string),
    (p ∈ RuntimeConfig._get_config_paths config path paths
     <-> p ∈ paths
         \/ exists suffix, p = path ++ suffix /\ is_config_path suffix config = true)
    /\ (p ∈ RuntimeConfig._get_v2_config_paths config path paths
        <-> p ∈ paths
            \/ exists suffix,
                 p = path ++ suffix /\ is_config_path suffix config = true).
Proof.
  induction config as [| b | z | s | l _ | items IH] using pyval_nested_ind;
    intros path paths p;
    try (split; simpl; (split; [intros H; now left |]);
         (intros [H | [sfx [_ H]]]; [exact H | now destruct sfx])).
  rewrite _get_config_paths_dict, _get_v2_config_paths_dict.
  rewrite is_config_path_dict.
  assert (Hstep : forall (get : pyval -> list string -> gset (list string)
                                -> gset (list string)),
            (forall kv, In kv items ->
               forall path paths p,
                 p ∈ get (snd kv) path paths
                 <-> p ∈ paths
                     \/ exists suffix,
                          p = path ++ suffix
                          /\ is_config_path suffix (snd kv) = true) ->
            forall paths kv, In kv items ->
              p ∈ match snd kv with
                  | PDict _ =>
                      if negb (startswith "+" (fst kv))
                      then get (snd kv) (path ++ [fst kv]) paths
                      else {[ path ]} ∪ paths
                  | _ => {[ path ]} ∪ paths
                  end
              <-> p ∈ paths
                  \/ (if is_setting (fst kv) (snd kv) then p = path
                      else exists suffix,
                             p = (path ++ [fst kv]) ++ suffix
                             /\ is_config_path suffix (snd kv) = true)).
  { intros get Hget paths' [key value] Hin.
    specialize (Hget (key, value) Hin). simpl in *.
    destruct value as [| | | | | nested]; simpl;
      try (rewrite elem_of_union, elem_of_singleton; tauto).
    destruct (startswith "+" key); simpl.
    - rewrite elem_of_union, elem_of_singleton. tauto.
    - apply Hget. }
  rewrite Forall_forall in IH.
  split;
    apply (foldl_union_spec _
             (fun kv p =>
                if is_setting (fst kv) (snd kv) then p = path
                else exists suffix,
                       p = (path ++ [fst kv]) ++ suffix
                       /\ is_config_path suffix (snd kv) = true) items p);
    [apply (Hstep RuntimeConfig._get_v2_config_paths)
    | apply (Hstep RuntimeConfig._get_config_paths)];
    intros kv Hin path' paths' p'; apply list_elem_of_In in Hin;
    apply (IH kv Hin path' paths' p').
Qed.

(** X23.  The config paths of a resource section are the chains of keys
    that lead, through nested dicts whose key does not start with ["+"], to
    a level that has a setting of its own (an entry that is not a dict, or
    a ["+"] key): [_get_config_paths] adds exactly these, below the path it
    starts from, to the paths it is given, and adds nothing for an empty
    dict or below a level without settings.  No segment of a config path
    starts with ["+"], and [_get_v2_config_paths] computes the same set. *)
Theorem config_paths_are_chains_to_settings (items : pydict)
    (path : list string) (paths : gset (list string)) :
  let config := PDict items in
  (forall p : list string,
     p ∈ RuntimeConfig._get_config_paths config path paths
     <-> p ∈ paths
         \/ exists suffix : list string,
              p = path ++ suffix /\ is_config_path suffix config = true)
  /\ RuntimeConfig._get_v2_config_paths config path paths
     = RuntimeConfig._get_config_paths config path paths
  /\ (forall suffix : list string,
        is_config_path suffix config = true ->
        Forall (fun key => startswith "+" key = false) suffix)
  /\ RuntimeConfig._get_config_paths (PDict []) path paths = paths
  /\ (forall key : string,
        RuntimeConfig._get_config_paths (PDict [(key, PDict [])]) path paths
        = if startswith "+" key then {[ path ]} ∪ paths else paths).
Proof.
  intros config. split; [| split; [| split; [| split]]].
  - intros p. apply (config_paths_mem config path paths p).
  - apply set_eq. intros p.
    destruct (config_paths_mem config path paths p) as [H1 H2].
    now rewrite H1, H2.
  - intros suffix. generalize config. clear.
    induction suffix as [| key rest IH]; intros config Hpath; [constructor |].
    destruct config as [| | | | | items]; try discriminate. simpl in Hpath.
    apply existsb_exists in Hpath as [[k v] [_ Hkv]]. simpl in Hkv.
    apply andb_prop in Hkv as [Hkv Hrest]. apply andb_prop in Hkv as [Hkey Hset].
    apply String.eqb_eq in Hkey. subst k. apply negb_true_iff in Hset.
    constructor; [| exact (IH v Hrest)].
    destruct v; try discriminate. exact Hset.
  - reflexivity.
  - intros key. simpl. now destruct (startswith "+" key).
Qed.

Lemma config_paths_are_chains_to_settings_witness :
  Forall (fun key => startswith "+" key = false) ["a"; "c"; "d"].
Proof.
  apply (config_paths_are_chains_to_settings
           (RuntimeConfig.models SampleProject.runtime_config) [] ∅).
  reflexivity.
Defined.
